(** * Transfer-learning toolkit: a shallow embedding of the dataset
      splitting logic, the hub/dataset type resolvers, the video-model
      retraining helper and the distributed-training launcher. *)

From Stdlib Require Import ZArith List String Ascii Bool Lia.
From Stdlib Require Import Floats.SpecFloat.
From stdpp Require Import base gmap strings.
Import ListNotations.

Local Open Scope string_scope.
Local Open Scope Z_scope.

(** ** Python outcomes: a value or a raised exception *)

Module Py.

(** The exception classes the embedded code can raise.
    [FrameworkError] stands for whatever a framework operation raises
    when it refuses its arguments, of whatever Python class:
    [tf.errors.OpError] and the like, and also the [ValueError] that
    TensorFlow itself raises for a count outside int64. It records where
    an exception comes from, not its class, so that it is never taken
    for a [ValueError] of the embedded code; the embedded code neither
    raises nor catches it. *)
Inductive exn : Type :=
| ValueError (msg : string)
| TypeError
| OverflowError
| AttributeError
| KeyError (key : string)
| IndexError
| RuntimeError
| StopIteration
| SystemExit (code : Z)
| FrameworkError.

Inductive result (A : Type) : Type :=
| Ok (a : A)
| Raise (e : exn).
Arguments Ok {A} a.
Arguments Raise {A} e.

Definition rbind {A B} (r : result A) (k : A -> result B) : result B :=
  match r with
  | Ok a => k a
  | Raise e => Raise e
  end.

(** Methods of an object with mutable attributes: the attribute record
    [S] is threaded through; a raise keeps the attributes as they were
    when the exception left the method. *)
Definition M (S A : Type) : Type := S -> result A * S.

Definition ret {S A} (a : A) : M S A := fun s => (Ok a, s).
Definition raise {S A} (e : exn) : M S A := fun s => (Raise e, s).
Definition bind {S A B} (m : M S A) (k : A -> M S B) : M S B :=
  fun s => match m s with
           | (Ok a, s') => k a s'
           | (Raise e, s') => (Raise e, s')
           end.
Definition get {S} : M S S := fun s => (Ok s, s).
Definition modify {S} (f : S -> S) : M S unit := fun s => (Ok tt, f s).
Definition lift {S A} (r : result A) : M S A := fun s => (r, s).

(** Dynamically typed arguments, as far as the embedded code tells
    them apart. *)
Inductive pyval : Type :=
| PyNone
| PyBool (b : bool)
| PyInt (z : Z)
| PyFloat (f : spec_float)
| PyStr (s : string).

(** [isinstance(x, float)]: [bool] and [int] are not floats. *)
Definition isinstance_float (x : pyval) : bool :=
  match x with PyFloat _ => true | _ => false end.

End Py.

Declare Scope py_scope.
Delimit Scope py_scope with py.
Notation "'let!' x ':=' m 'in' k" := (Py.bind m (fun x => k))
  (at level 10, x name, m at level 100, k at level 200) : py_scope.
Notation "'do!' m 'in' k" := (Py.bind m (fun _ => k))
  (at level 10, m at level 100, k at level 200) : py_scope.

(** ** Python floats: IEEE-754 binary64 *)

Module PyFloat.

Definition prec : Z := 53.
Definition emax : Z := 1024.

Definition float : Type := spec_float.

Definition fadd : float -> float -> float := SFadd prec emax.
Definition fmul : float -> float -> float := SFmul prec emax.
(** [x > y] *)
Definition fgt (x y : float) : bool := SFltb y x.
(** [x <= y] *)
Definition fle (x y : float) : bool := SFleb x y.

(** The literal [1.0]. *)
Definition one : float := S754_finite false 4503599627370496 (-52).
(** The literal [0.0]. *)
Definition zero : float := S754_zero false.

(** Conversion of a Python [int] operand in mixed float arithmetic:
    correctly rounded, [OverflowError] beyond the float range. *)
Definition of_int (z : Z) : Py.result float :=
  match binary_normalize prec emax z 0 false with
  | S754_infinity _ => Py.Raise Py.OverflowError
  | f => Py.Ok f
  end.

(** [x * n] for a float [x] and an int [n]. *)
Definition mul_int (x : float) (n : Z) : Py.result float :=
  Py.rbind (of_int n) (fun nf => Py.Ok (fmul x nf)).

(** [int(x)]: truncation toward zero; NaN and the infinities raise. *)
Definition to_int (x : float) : Py.result Z :=
  match x with
  | S754_nan => Py.Raise (Py.ValueError "cannot convert float NaN to integer")
  | S754_infinity _ => Py.Raise Py.OverflowError
  | S754_zero _ => Py.Ok 0
  | S754_finite s m e => Py.Ok (cond_Zopp s (Z.shiftl (Z.pos m) e))
  end.

(** Truth value of a float: everything but the two zeros. *)
Definition truthy (x : float) : bool :=
  match x with S754_zero _ => false | _ => true end.

(** A float the interpreter can hold: NaN, an infinity, a zero or a
    canonical finite binary64 number. *)
Definition valid (x : float) : bool := valid_binary prec emax x.

(** A percentage: a valid, non-negative float that is at most [1.0]. *)
Definition is_pct (x : float) : bool :=
  valid x && fle (S754_zero false) x && fle x one.

End PyFloat.

(** ** The framework dataset object ([tf.data.Dataset]) *)

Module TfData.
Section Dataset.
Context {A : Type}.

(** A dataset of known, finite cardinality is the sequence of its
    elements; every transformation returns a new dataset and leaves
    its receiver untouched. *)
Definition Dataset : Type := list A.

(** [len(ds)] *)
Definition cardinality (ds : Dataset) : Z := Z.of_nat (length ds).

(** Counts are converted to 64-bit integers; the framework refuses one
    that does not fit. *)
Definition in_int64 (z : Z) : bool :=
  (-9223372036854775808 <=? z) && (z <=? 9223372036854775807).

(** [ds.take(count)]: a negative count, or one beyond the size,
    keeps every element. A count outside int64 is refused inside the
    framework ([FrameworkError]; TensorFlow's exception for it is a
    [ValueError] of its own). *)
Definition take (count : Z) (ds : Dataset) : Py.result Dataset :=
  if in_int64 count
  then Py.Ok (if count <? 0 then ds else firstn (Z.to_nat count) ds)
  else Py.Raise Py.FrameworkError.

(** A 64-bit count as the iterator's 32-bit signed integer reads it:
    the low 32 bits, in two's complement. *)
Definition int32_of (z : Z) : Z :=
  (z + 2147483648) mod 4294967296 - 2147483648.

(** [ds.skip(count)]: a negative count skips the entire dataset. For
    the others the iterator keeps what is left to skip in a 32-bit
    signed integer, so what is dropped is [int32_of count] elements,
    and nothing when that is not positive: [skip(2**31)] drops nothing
    and [skip(2**32 + 1)] drops one element. Below [2**31] the count
    itself is dropped. *)
Definition skip (count : Z) (ds : Dataset) : Py.result Dataset :=
  if in_int64 count
  then Py.Ok (if count <? 0 then []
              else skipn (Z.to_nat (int32_of count)) ds)
  else Py.Raise Py.FrameworkError.

(** [next(iter(ds))] *)
Definition first (ds : Dataset) : Py.result A :=
  match ds with
  | [] => Py.Raise Py.StopIteration
  | x :: _ => Py.Ok x
  end.
End Dataset.
Arguments Dataset A : clear implicits.
End TfData.

(** ** tlk/datasets/tf_dataset.py *)

Module TFDataset.
Import Py.
Section WithElements.
(** The elements (batches) of the dataset. *)
Context {A : Type}.

(** [ds.shuffle(buffer_size, seed=seed)] of the framework: it returns
    a new dataset, in an order fixed by the buffer size and the seed,
    unless it refuses its arguments ([None]). *)
Variable shuffle : Z -> option Z -> TfData.Dataset A -> option (TfData.Dataset A).

(** A call of [shuffle] as a statement: what it returns is dropped. *)
Definition shuffle_dropped (length : Z) (seed : option Z) (ds : TfData.Dataset A)
  : result unit :=
  match shuffle length seed ds with
  | Some _ => Ok tt
  | None => Raise FrameworkError
  end.

(** The attributes of a [TFDataset]; an attribute that holds Python's
    [None] is [None] here. [_dataset] and [_validation_type] are
    inherited from [BaseDataset]. *)
Record t : Type := mk {
  _dataset : option (TfData.Dataset A);
  _train_subset : option (TfData.Dataset A);
  _validation_subset : option (TfData.Dataset A);
  _test_subset : option (TfData.Dataset A);
  _validation_type : option string
}.

Definition set_train_subset (v : option (TfData.Dataset A)) (self : t) : t :=
  mk (_dataset self) v (_validation_subset self) (_test_subset self)
     (_validation_type self).
Definition set_validation_subset (v : option (TfData.Dataset A)) (self : t) : t :=
  mk (_dataset self) (_train_subset self) v (_test_subset self)
     (_validation_type self).
Definition set_test_subset (v : option (TfData.Dataset A)) (self : t) : t :=
  mk (_dataset self) (_train_subset self) (_validation_subset self) v
     (_validation_type self).
Definition set_validation_type (v : option string) (self : t) : t :=
  mk (_dataset self) (_train_subset self) (_validation_subset self)
     (_test_subset self) v.

Definition no_batch_msg : string :=
  "Unable to return a batch, because the dataset or subset hasn't been defined.".

(** [get_batch(self, subset='all')] *)
Definition get_batch (subset : string) (self : t) : result A :=
  match String.eqb subset "all", _dataset self with
  | true, Some ds => TfData.first ds
  | _, _ =>
    match String.eqb subset "train", _train_subset self with
    | true, Some ds => TfData.first ds
    | _, _ =>
      match String.eqb subset "validation", _validation_subset self with
      | true, Some ds => TfData.first ds
      | _, _ =>
        match String.eqb subset "test", _test_subset self with
        | true, Some ds => TfData.first ds
        | _, _ => Raise (ValueError no_batch_msg)
        end
      end
    end
  end.

(** [len(self._dataset)]: [None] has no length. *)
Definition len_dataset (self : t) : result (TfData.Dataset A * Z) :=
  match _dataset self with
  | None => Raise TypeError
  | Some ds => Ok (ds, TfData.cardinality ds)
  end.

Definition not_floats_msg : string := "Percentage arguments must be floats.".
Definition sum_msg : string :=
  "Sum of percentage arguments must be less than or equal to 1.".

(** [shuffle_split(self, train_pct=.75, val_pct=.25, test_pct=0., seed=None)] *)
Definition shuffle_split (train_pct val_pct test_pct : pyval) (seed : option Z)
  : M t unit :=
  match train_pct, val_pct, test_pct with
  | PyFloat tp, PyFloat vp, PyFloat sp =>
    if PyFloat.fgt (PyFloat.fadd (PyFloat.fadd tp vp) sp) PyFloat.one
    then raise (ValueError sum_msg)
    else (
      let! self := get in
      let! dl := lift (len_dataset self) in
      let '(ds, length) := dl in
      do! lift (shuffle_dropped length seed ds) in
      let! train_size := lift (rbind (PyFloat.mul_int tp length) PyFloat.to_int) in
      let! val_size := lift (rbind (PyFloat.mul_int vp length) PyFloat.to_int) in
      let! train := lift (TfData.take train_size ds) in
      do! modify (set_train_subset (Some train)) in
      let! rest := lift (TfData.skip train_size ds) in
      let! validation := lift (TfData.take val_size rest) in
      do! modify (set_validation_subset (Some validation)) in
      do! (if PyFloat.truthy sp
           then (let! test := lift (TfData.skip (train_size + val_size) ds) in
                 modify (set_test_subset (Some test)))
           else modify (set_test_subset None)) in
      modify (set_validation_type (Some "shuffle_split")))%py
  | _, _, _ => raise (ValueError not_floats_msg)
  end.

(** [__init__]: [BaseDataset.__init__] runs first and leaves the object
    [base]; then the three subsets are set to [None]. *)
Definition init (base : t) : t :=
  set_test_subset None (set_validation_subset None (set_train_subset None base)).

(** The properties [train_subset], [validation_subset] and
    [test_subset]. *)
Definition train_subset (self : t) : option (TfData.Dataset A) :=
  _train_subset self.
Definition validation_subset (self : t) : option (TfData.Dataset A) :=
  _validation_subset self.
Definition test_subset (self : t) : option (TfData.Dataset A) :=
  _test_subset self.

(** The defaults of [shuffle_split]: [train_pct=.75], [val_pct=.25],
    [test_pct=0.] and [seed=None]. *)
Definition default_train_pct : PyFloat.float :=
  S754_finite false 6755399441055744 (-53).
Definition default_val_pct : PyFloat.float :=
  S754_finite false 4503599627370496 (-54).
Definition default_test_pct : PyFloat.float := S754_zero false.

(** [shuffle_split()] *)
Definition shuffle_split_default : M t unit :=
  shuffle_split (PyFloat default_train_pct) (PyFloat default_val_pct)
                (PyFloat default_test_pct) None.

End WithElements.
Arguments t A : clear implicits.
End TFDataset.

(** ** downloader/types.py *)

(** Strings are ASCII text: Python's [str] with code points below 128. *)

Module PyStr.

(** [c.lower()] on one character: the capitals move to their small
    letters, every other character stays. *)
Definition lower_ascii (c : ascii) : ascii :=
  let n := nat_of_ascii c in
  if (Nat.leb 65 n && Nat.leb n 90)%bool then ascii_of_nat (n + 32) else c.

Definition is_upper_ascii (c : ascii) : bool :=
  let n := nat_of_ascii c in (Nat.leb 65 n && Nat.leb n 90)%bool.

(** [s.lower()] *)
Fixpoint lower (s : string) : string :=
  match s with
  | EmptyString => EmptyString
  | String c s' => String (lower_ascii c) (lower s')
  end.

(** Does [s] hold a capital letter? *)
Fixpoint has_upper (s : string) : bool :=
  match s with
  | EmptyString => false
  | String c s' => is_upper_ascii c || has_upper s'
  end.

(** [x in l] for a list of strings. *)
Definition py_in (x : string) (l : list string) : bool :=
  existsb (String.eqb x) l.

(** [", ".join(l)] *)
Fixpoint join (sep : string) (l : list string) : string :=
  match l with
  | [] => ""
  | [x] => x
  | x :: l' => x ++ sep ++ join sep l'
  end.

(** [str(l)] for a list of identifier-like strings: each one quoted. *)
Definition str_of_list (l : list string) : string :=
  "[" ++ join ", " (map (fun x => "'" ++ x ++ "'") l) ++ "]".

End PyStr.

Module DatasetType.
Import Py.

Inductive t : Type :=
| TENSORFLOW_DATASETS
| TORCHVISION
| HUGGING_FACE
| GENERIC.

(** [e.name] *)
Definition name (e : t) : string :=
  match e with
  | TENSORFLOW_DATASETS => "TENSORFLOW_DATASETS"
  | TORCHVISION => "TORCHVISION"
  | HUGGING_FACE => "HUGGING_FACE"
  | GENERIC => "GENERIC"
  end.

(** Iterating over the enumeration, in the order of definition. *)
Definition members : list t :=
  [TENSORFLOW_DATASETS; TORCHVISION; HUGGING_FACE; GENERIC].

(** [__str__] *)
Definition to_str (e : t) : string := PyStr.lower (name e).

Definition tfds_aliases : list string :=
  ["tfds"; "tensorflow"; "tensorflow_datasets"; "tensorflow datasets";
   "tensorflow_dataset"; "tensorflow dataset"].
Definition torchvision_aliases : list string := ["torchvision"].
Definition hugging_face_aliases : list string :=
  ["huggingface"; "hugging_face"; "hugging face"].
Definition generic_aliases : list string := ["generic"].

(** The alias lists, each with the member it stands for, in the order
    the chain of tests visits them. *)
Definition alias_table : list (list string * t) :=
  [(tfds_aliases, TENSORFLOW_DATASETS); (torchvision_aliases, TORCHVISION);
   (hugging_face_aliases, HUGGING_FACE); (generic_aliases, GENERIC)].

Definition unsupported_msg (dataset_str : string) : string :=
  "Unsupported dataset type: " ++ dataset_str ++ " (Select from: " ++
  PyStr.str_of_list (map name members) ++ ")".

(** [from_str(dataset_str)]; [None] is Python's [None]. *)
Definition from_str (dataset_str : option string) : result t :=
  match dataset_str with
  | None => Ok GENERIC
  | Some dataset_str =>
    let dataset_str := PyStr.lower dataset_str in
    if PyStr.py_in dataset_str tfds_aliases then Ok TENSORFLOW_DATASETS
    else if PyStr.py_in dataset_str torchvision_aliases then Ok TORCHVISION
    else if PyStr.py_in dataset_str hugging_face_aliases then Ok HUGGING_FACE
    else if PyStr.py_in dataset_str generic_aliases then Ok GENERIC
    else Raise (ValueError (unsupported_msg dataset_str))
  end.

End DatasetType.

Module ModelType.
Import Py.

Inductive t : Type :=
| TF_HUB
| TORCHVISION
| PYTORCH_HUB
| HUGGING_FACE
| KERAS_APPLICATIONS
| GENERIC.

Definition name (e : t) : string :=
  match e with
  | TF_HUB => "TF_HUB"
  | TORCHVISION => "TORCHVISION"
  | PYTORCH_HUB => "PYTORCH_HUB"
  | HUGGING_FACE => "HUGGING_FACE"
  | KERAS_APPLICATIONS => "KERAS_APPLICATIONS"
  | GENERIC => "GENERIC"
  end.

Definition members : list t :=
  [TF_HUB; TORCHVISION; PYTORCH_HUB; HUGGING_FACE; KERAS_APPLICATIONS; GENERIC].

Definition to_str (e : t) : string := PyStr.lower (name e).

Definition tf_hub_aliases : list string :=
  ["tfhub"; "tf_hub"; "tf hub"; "tensorflow_hub"; "tensorflow hub"].
Definition torchvision_aliases : list string := ["torchvision"].
Definition pytorch_hub_aliases : list string :=
  ["pytorch_hub"; "pyt_hub"; "torch_hub"; "torch hub"; "pytorch hub"].
Definition hugging_face_aliases : list string :=
  ["huggingface"; "hugging_face"; "hugging face"].
Definition keras_aliases : list string :=
  ["keras"; "keras_applications"; "keras applications"].
Definition generic_aliases : list string := ["generic"].

(** The alias lists, each with the member it stands for, in the order
    the chain of tests visits them. *)
Definition alias_table : list (list string * t) :=
  [(tf_hub_aliases, TF_HUB); (torchvision_aliases, TORCHVISION);
   (pytorch_hub_aliases, PYTORCH_HUB); (hugging_face_aliases, HUGGING_FACE);
   (keras_aliases, KERAS_APPLICATIONS); (generic_aliases, GENERIC)].

Definition unsupported_msg (model_str : string) : string :=
  "Unsupported model type: " ++ model_str ++ " (Select from: " ++
  PyStr.str_of_list (map name members) ++ ")".

(** [from_str(model_str)]. The statement [model_str = model_str.lower()]
    sits in the [None] branch after its [return]: it never runs, and a
    string reaches the tests as it was given. *)
Definition from_str (model_str : option string) : result t :=
  match model_str with
  | None => Ok GENERIC
  | Some model_str =>
    if PyStr.py_in model_str tf_hub_aliases then Ok TF_HUB
    else if PyStr.py_in model_str torchvision_aliases then Ok TORCHVISION
    else if PyStr.py_in model_str pytorch_hub_aliases then Ok PYTORCH_HUB
    else if PyStr.py_in model_str hugging_face_aliases then Ok HUGGING_FACE
    else if PyStr.py_in model_str keras_aliases then Ok KERAS_APPLICATIONS
    else if PyStr.py_in model_str generic_aliases then Ok GENERIC
    else Raise (ValueError (unsupported_msg model_str))
  end.

End ModelType.

(** ** downloader/models.py *)

Module ModelDownloader.
Import Py.

(** The attributes the constructor sets that the tests read. *)
Record t : Type := mk {
  _model_name : string;
  _type : ModelType.t
}.

(** Modelled from the spec: [downloader/models.py] is missing; its
    [ModelDownloader(model_name, hub)] constructor is the thin wrapper
    the tests show, which resolves [hub] with [ModelType.from_str],
    keeps the result as [_type] and lets the [ValueError] of an
    unsupported hub through. *)
Definition init (model_name : string) (hub : option string) : result t :=
  rbind (ModelType.from_str hub) (fun ty => Ok (mk model_name ty)).

End ModelDownloader.

(** ** The framework's modules ([torch.nn]) *)

Module Torch.
Import Py.

(** A tensor parameter, as far as retraining looks at it. *)
Record Param : Type := mkParam {
  p_name : string;
  requires_grad : bool
}.

(** A module: a [Linear] layer, a [Sequential] container, or any other
    layer with its own parameters. *)
#[warnings="-register-all"]
Inductive nn_Module : Type :=
| Linear (in_features out_features : N) (weight bias : Param)
| Sequential (children : list nn_Module)
| Layer (params : list Param).

(** A model object: its sub-modules by attribute name, in the order
    they were registered. *)
Definition Model : Type := list (string * nn_Module).

(** [torch.nn.Linear(in_features, out_features)]: fresh, trainable
    weight and bias. *)
Definition new_Linear (in_features out_features : N) : nn_Module :=
  Linear in_features out_features
         (mkParam "weight" true) (mkParam "bias" true).

(** [module.parameters()] *)
Fixpoint module_parameters (m : nn_Module) : list Param :=
  match m with
  | Linear _ _ w b => [w; b]
  | Sequential cs => flat_map module_parameters cs
  | Layer ps => ps
  end.

(** [model.parameters()] *)
Definition parameters (model : Model) : list Param :=
  flat_map (fun kv => module_parameters (snd kv)) model.

Definition freeze_parameter (p : Param) : Param :=
  mkParam (p_name p) false.

(** [param.requires_grad = False] on every parameter of a module. *)
Fixpoint freeze_module (m : nn_Module) : nn_Module :=
  match m with
  | Linear i o w b => Linear i o (freeze_parameter w) (freeze_parameter b)
  | Sequential cs => Sequential (map freeze_module cs)
  | Layer ps => Layer (map freeze_parameter ps)
  end.

(** [for param in model.parameters(): param.requires_grad = False] *)
Definition freeze (model : Model) : Model :=
  map (fun kv => (fst kv, freeze_module (snd kv))) model.

(** A parameter that training leaves alone. *)
Definition frozen (p : Param) : Prop := requires_grad p = false.

(** [getattr(model, name)] *)
Fixpoint getattr (model : Model) (name : string) : result nn_Module :=
  match model with
  | [] => Raise AttributeError
  | (k, v) :: rest => if String.eqb k name then Ok v else getattr rest name
  end.

(** [setattr(model, name, m)]: replaces the sub-module of that name, or
    registers a new one. *)
Fixpoint setattr (model : Model) (name : string) (m : nn_Module) : Model :=
  match model with
  | [] => [(name, m)]
  | (k, v) :: rest =>
    if String.eqb k name then (k, m) :: rest else (k, v) :: setattr rest name m
  end.

(** [layer.in_features] *)
Definition get_in_features (m : nn_Module) : result N :=
  match m with
  | Linear i _ _ _ => Ok i
  | _ => Raise AttributeError
  end.

(** The position a Python index denotes in a sequence of [n] items. *)
Definition normalize_index (n : nat) (i : Z) : result nat :=
  let j := if i <? 0 then i + Z.of_nat n else i in
  if (0 <=? j) && (j <? Z.of_nat n) then Ok (Z.to_nat j) else Raise IndexError.

(** [seq[i]] *)
Definition getitem (m : nn_Module) (i : Z) : result nn_Module :=
  match m with
  | Sequential cs =>
    rbind (normalize_index (length cs) i) (fun j =>
      match nth_error cs j with
      | Some c => Ok c
      | None => Raise IndexError
      end)
  | _ => Raise TypeError
  end.

Fixpoint replace_nth (cs : list nn_Module) (j : nat) (c : nn_Module)
  : list nn_Module :=
  match cs, j with
  | [], _ => []
  | _ :: rest, O => c :: rest
  | x :: rest, S j' => x :: replace_nth rest j' c
  end.

(** [seq[i] = c] *)
Definition setitem (m : nn_Module) (i : Z) (c : nn_Module) : result nn_Module :=
  match m with
  | Sequential cs =>
    rbind (normalize_index (length cs) i) (fun j =>
      Ok (Sequential (replace_nth cs j c)))
  | _ => Raise TypeError
  end.

End Torch.

(** ** notebooks/video_classification/pytorch_video_classification/model_utils.py *)

Module ModelUtils.
Import Py Torch.

(** The value under ["classifier"]: an attribute name, or a list of an
    attribute name and an index into it. *)
Inductive classifier_spec : Type :=
| ClassifierAttr (name : string)
| ClassifierItem (name : string) (index : Z).

Record model_entry : Type := mkEntry { classifier : classifier_spec }.

(** Dictionary of Torchvision video classification models. *)
Definition torchvision_model_map : gmap string model_entry :=
  list_to_map
    [("r3d_18", mkEntry (ClassifierAttr "fc"));
     ("mc3_18", mkEntry (ClassifierAttr "fc"));
     ("r2plus1d_18", mkEntry (ClassifierAttr "fc"))].

Section WithFramework.
(** [pydoc.locate]: the callable of that dotted name, if there is
    one; called with [pretrained=...] it builds the model. *)
Variable locate : string -> option (bool -> Model).

(** [get_retrainable_model(model_name, num_classes, do_fine_tuning=False)];
    [num_classes] is a count of classes. *)
Definition get_retrainable_model (model_name : string) (num_classes : N)
           (do_fine_tuning : bool) : result Model :=
  let pretrained_model_class :=
    locate ("torchvision.models.video." ++ model_name) in
  match torchvision_model_map !! model_name with
  | None => Raise (KeyError model_name)
  | Some entry =>
    let classifier_layer := classifier entry in
    match pretrained_model_class with
    | None => Raise TypeError
    | Some cls =>
      let model := cls true in
      let model := if negb do_fine_tuning then freeze model else model in
      match classifier_layer with
      | ClassifierItem name index =>
        rbind (getattr model name) (fun container =>
        rbind (getitem container index) (fun classifier =>
        rbind (get_in_features classifier) (fun num_features =>
        rbind (getattr model "classifier") (fun target =>
        rbind (setitem target index (new_Linear num_features num_classes))
              (fun target' => Ok (setattr model "classifier" target'))))))
      | ClassifierAttr name =>
        rbind (getattr model name) (fun classifier =>
        rbind (get_in_features classifier) (fun num_features =>
        Ok (setattr model name (new_Linear num_features num_classes))))
      end
    end
  end.
End WithFramework.

End ModelUtils.

(** ** The command-line parser ([argparse]) *)

Module Argparse.
Import Py.

Inductive arg_type : Type := TStr | TInt.

(** [action='store'] with its [type], or [action='store_true']. *)
Inductive action : Type :=
| Store (ty : arg_type)
| StoreTrue.

Inductive value : Type :=
| VNone
| VStr (s : string)
| VInt (z : Z)
| VBool (b : bool).

(** One [add_argument] call; [dest] is the option name without its
    dashes. *)
Record argument : Type := mkArgument {
  dest : string;
  act : action;
  required : bool;
  arg_default : option value
}.

(** The parsed arguments, by attribute name. *)
Abbreviation Namespace := (gmap string value).

(** The command line after tokenisation: each option that occurs, with
    the value that follows it (none for a flag). Options are matched
    by their full option strings: the abbreviations [argparse] also
    accepts, and its [-h] and [--help], are outside this model, which
    is meant for command lines on which every option is written in
    full. *)
Definition occurrence : Type := (string * option string)%type.

Section Parser.
(** Python's [int(str)], the converter of [type=int]. *)
Variable int_of_str : string -> option Z.

Definition find_argument (specs : list argument) (name : string)
  : option argument :=
  find (fun a => String.eqb ("--" ++ dest a) name) specs.

Definition convert (ty : arg_type) (raw : string) : result value :=
  match ty with
  | TStr => Ok (VStr raw)
  | TInt =>
    match int_of_str raw with
    | Some z => Ok (VInt z)
    | None => Raise (SystemExit 2)
    end
  end.

(** Consuming the occurrences from left to right; a later occurrence
    of an option overrides an earlier one. Unknown options, missing
    or surplus values and failed conversions end the program with
    status 2. *)
Fixpoint consume (specs : list argument) (argv : list occurrence)
         (ns : Namespace) : result Namespace :=
  match argv with
  | [] => Ok ns
  | (name, raw) :: rest =>
    match find_argument specs name with
    | None => Raise (SystemExit 2)
    | Some a =>
      match act a, raw with
      | StoreTrue, None => consume specs rest (<[dest a := VBool true]> ns)
      | Store ty, Some r =>
        rbind (convert ty r) (fun v => consume specs rest (<[dest a := v]> ns))
      | _, _ => Raise (SystemExit 2)
      end
    end
  end.

(** What an option that did not occur is set to. *)
Definition default_of (a : argument) : value :=
  match act a, arg_default a with
  | StoreTrue, _ => VBool false
  | Store _, Some v => v
  | Store _, None => VNone
  end.

Fixpoint fill_defaults (specs : list argument) (ns : Namespace)
  : result Namespace :=
  match specs with
  | [] => Ok ns
  | a :: rest =>
    match ns !! dest a with
    | Some _ => fill_defaults rest ns
    | None =>
      if required a then Raise (SystemExit 2)
      else fill_defaults rest (<[dest a := default_of a]> ns)
    end
  end.

(** [parser.parse_args()] *)
Definition parse_args (specs : list argument) (argv : list occurrence)
  : result Namespace :=
  rbind (consume specs argv ∅) (fill_defaults specs).
End Parser.

(** [args.name] *)
Definition attr (ns : Namespace) (name : string) : result value :=
  match ns !! name with
  | Some v => Ok v
  | None => Raise AttributeError
  end.

End Argparse.

(** ** tlt/distributed/pytorch/run_train_pyt.py *)

Module RunTrainPyt.
Import Py Argparse.

Section Launcher.
(** The saved dataset, model, loss and optimizer objects. *)
Variable obj : Type.
Variable int_of_str : string -> option Z.
(** [DistributedTorch.load_saved_objects(use_case=...)] *)
Variable load_saved_objects : value -> result (gmap string obj).

(** The keyword arguments [DistributedTrainingArguments] is built
    from. *)
Record DistributedTrainingArguments : Type := mkTrainingArguments {
  ta_dataset : obj;
  ta_model : obj;
  ta_criterion : obj;
  ta_optimizer : obj;
  ta_epochs : value;
  ta_batch_size : value;
  ta_disable_ipex : value
}.

(** What the script does to the outside. *)
Inductive event : Type :=
| Print (line : string)
| LaunchDistributedJob (use_case : value)
    (training_args : DistributedTrainingArguments)
    (master_addr master_port backend : value).

(** The [add_argument] calls, in order. *)
Definition parser : list argument :=
  [mkArgument "master_addr" (Store TStr) true None;
   mkArgument "master_port" (Store TStr) true (Some (VStr "29500"));
   mkArgument "backend" (Store TStr) false (Some (VStr "ccl"));
   mkArgument "use_case" (Store TStr) true None;
   mkArgument "epochs" (Store TInt) false (Some (VInt 1));
   mkArgument "batch_size" (Store TInt) false (Some (VInt 128));
   mkArgument "disable_ipex" StoreTrue false None].

(** [d[key]] *)
Definition getitem (d : gmap string obj) (key : string) : result obj :=
  match d !! key with
  | Some v => Ok v
  | None => Raise (KeyError key)
  end.

(** [d.get(key, fallback)] *)
Definition get_or (d : gmap string obj) (key : string) (fallback : obj) : obj :=
  default fallback (d !! key).

(** The part of the script after [parse_args]. *)
Definition launch (args : Namespace) : result event :=
  rbind (attr args "use_case") (fun use_case =>
  rbind (load_saved_objects use_case) (fun loaded_objects =>
  rbind (getitem loaded_objects "dataset") (fun dataset =>
  let train_subset := get_or loaded_objects "train_subset" dataset in
  let test_subset := get_or loaded_objects "test_subset" dataset in
  let validation_subset := get_or loaded_objects "validation_subset" dataset in
  rbind (getitem loaded_objects "model") (fun model =>
  rbind (getitem loaded_objects "loss") (fun loss =>
  rbind (getitem loaded_objects "optimizer") (fun optimizer =>
  rbind (attr args "epochs") (fun epochs =>
  rbind (attr args "batch_size") (fun batch_size =>
  rbind (attr args "disable_ipex") (fun disable_ipex =>
  let training_args :=
    mkTrainingArguments train_subset model loss optimizer
                        epochs batch_size disable_ipex in
  rbind (attr args "use_case") (fun use_case' =>
  rbind (attr args "master_addr") (fun master_addr =>
  rbind (attr args "master_port") (fun master_port =>
  rbind (attr args "backend") (fun backend =>
  Ok (LaunchDistributedJob use_case' training_args
                           master_addr master_port backend)))))))))))))).

(** The script: the events it causes, and how it ends. *)
Definition main (argv : list occurrence) : list event * result unit :=
  let banner := Print "******Distributed Training*****" in
  match parse_args int_of_str parser argv with
  | Raise e => ([banner], Raise e)
  | Ok args =>
    match launch args with
    | Raise e => ([banner], Raise e)
    | Ok job => ([banner; job], Ok tt)
    end
  end.
End Launcher.

End RunTrainPyt.

(** ** Reading the requirements on [TFDataset] *)

Module TFDatasetSpec.
Import Py TFDataset.
Section WithElements.
Context {A : Type}.
Variable shuffle : Z -> option Z -> TfData.Dataset A -> option (TfData.Dataset A).

(** The dataset or subset a [subset] string names, if it names one
    and that one is defined. *)
Definition named (subset : string) (self : t A) : option (TfData.Dataset A) :=
  if String.eqb subset "all" then _dataset self
  else if String.eqb subset "train" then _train_subset self
  else if String.eqb subset "validation" then _validation_subset self
  else if String.eqb subset "test" then _test_subset self
  else None.

(** "The first batch of whatever is named and defined, [ValueError]
    in every other case." *)
Definition first_batch_or_ValueError (subset : string) (self : t A) : Prop :=
  match named subset self with
  | Some ds => exists b, get_batch subset self = Ok b /\ hd_error ds = Some b
  | None => exists msg, get_batch subset self = Raise (ValueError msg)
  end.

Definition raises_ValueError {R} (out : result R * t A) : Prop :=
  exists msg, fst out = Raise (ValueError msg).

Definition all_floats (train_pct val_pct test_pct : pyval) : bool :=
  isinstance_float train_pct && isinstance_float val_pct
  && isinstance_float test_pct.

(** [train_pct + val_pct + test_pct > 1.0], for floats. *)
Definition sum_gt_one (train_pct val_pct test_pct : pyval) : bool :=
  match train_pct, val_pct, test_pct with
  | PyFloat tp, PyFloat vp, PyFloat sp =>
    PyFloat.fgt (PyFloat.fadd (PyFloat.fadd tp vp) sp) PyFloat.one
  | _, _, _ => false
  end.

(** "[ValueError] if and only if the percentages are not all floats
    or sum to more than 1.0." *)
Definition ValueError_iff_guards (train_pct val_pct test_pct : pyval)
           (seed : option Z) (self : t A) : Prop :=
  raises_ValueError (shuffle_split shuffle train_pct val_pct test_pct seed self)
  <-> (all_floats train_pct val_pct test_pct = false
       \/ sum_gt_one train_pct val_pct test_pct = true).

Definition is_nan_product (x : PyFloat.float) (n : Z) : bool :=
  match PyFloat.mul_int x n with
  | Ok S754_nan => true
  | _ => false
  end.

(** [int(x * n)] *)
Definition int_of_product (x : PyFloat.float) (n : Z) : result Z :=
  rbind (PyFloat.mul_int x n) PyFloat.to_int.

(** On a defined dataset that the framework shuffles, [int()] meets a
    NaN: [train_pct * length] is one, or it converts and
    [val_pct * length] is one. *)
Definition nan_product (train_pct val_pct : pyval) (seed : option Z)
           (self : t A) : bool :=
  match train_pct, val_pct, _dataset self with
  | PyFloat tp, PyFloat vp, Some ds =>
    let n := TfData.cardinality ds in
    match shuffle n seed ds with
    | Some _ =>
      is_nan_product tp n
      || (match int_of_product tp n with Ok _ => true | Raise _ => false end
          && is_nan_product vp n)
    | None => false
    end
  | _, _, _ => false
  end.

(** [ds.skip(train_size).take(val_size)] *)
Definition skip_take (train_size val_size : Z) (ds : TfData.Dataset A)
  : result (TfData.Dataset A) :=
  rbind (TfData.skip train_size ds) (TfData.take val_size).

(** "The three subsets partition the dataset that was sliced, with
    sizes [int(train_pct * n)], [int(val_pct * n)] and what is left." *)
Definition partitions (tp vp sp : PyFloat.float) (seed : option Z)
           (self : t A) (ds : TfData.Dataset A) : Prop :=
  exists self' tr va te ts vs,
    shuffle_split shuffle (PyFloat tp) (PyFloat vp) (PyFloat sp) seed self
    = (Ok tt, self')
    /\ _train_subset self' = Some tr
    /\ _validation_subset self' = Some va
    /\ _test_subset self' = Some te
    /\ int_of_product tp (TfData.cardinality ds) = Ok ts
    /\ int_of_product vp (TfData.cardinality ds) = Ok vs
    /\ (tr ++ va ++ te)%list = ds
    /\ Z.of_nat (length tr) = ts
    /\ Z.of_nat (length va) = vs
    /\ Z.of_nat (length te) = TfData.cardinality ds - ts - vs.

(** "The subsets are slices of the shuffled dataset." *)
Definition split_of_shuffled (seed : option Z) (ds : TfData.Dataset A)
           (train_size val_size : Z) (self' : t A) : Prop :=
  exists shuffled tr va,
    shuffle (TfData.cardinality ds) seed ds = Some shuffled
    /\ TfData.take train_size shuffled = Ok tr
    /\ skip_take train_size val_size shuffled = Ok va
    /\ _train_subset self' = Some tr
    /\ _validation_subset self' = Some va.
End WithElements.
End TFDatasetSpec.

(** ** Reading the requirements on the launcher *)

Module LauncherSpec.
Import Py Argparse.

(** The value that came with the last occurrence of an option on the
    command line ([Some None] for a bare flag), if it occurs at all. *)
Fixpoint last_occurrence (name : string) (argv : list occurrence)
  : option (option string) :=
  match argv with
  | [] => None
  | (n, raw) :: rest =>
    match last_occurrence name rest with
    | Some r => Some r
    | None => if String.eqb n name then Some raw else None
    end
  end.

(** What one occurrence of an option stores. *)
Definition stored_value (int_of_str : string -> option Z)
           (specs : list argument) (name : string) (raw : option string)
  : option value :=
  match find_argument specs name with
  | None => None
  | Some a =>
    match act a, raw with
    | StoreTrue, None => Some (VBool true)
    | Store ty, Some r =>
      match convert int_of_str ty r with
      | Ok v => Some v
      | Raise _ => None
      end
    | _, _ => None
    end
  end.

(** The text given for an option, or its default. *)
Definition given_str (name dflt : string) (argv : list occurrence) : value :=
  match last_occurrence name argv with
  | Some (Some raw) => VStr raw
  | _ => VStr dflt
  end.

(** The integer given for an option, or its default. *)
Definition given_int (int_of_str : string -> option Z) (name : string) (dflt : Z)
           (argv : list occurrence) : value :=
  match last_occurrence name argv with
  | Some (Some raw) =>
    match int_of_str raw with
    | Some z => VInt z
    | None => VInt dflt
    end
  | _ => VInt dflt
  end.

(** Whether a flag was given. *)
Definition given_flag (name : string) (argv : list occurrence) : value :=
  match last_occurrence name argv with
  | Some _ => VBool true
  | None => VBool false
  end.

(** The option strings of the launcher's parser. *)
Definition option_strings : list string :=
  ["--master_addr"; "--master_port"; "--backend"; "--use_case"; "--epochs";
   "--batch_size"; "--disable_ipex"].

(** A command line on which every option is one of the launcher's own,
    written in full: no abbreviation, no [-h] and no [--help]. *)
Definition written_in_full (argv : list occurrence) : bool :=
  forallb (fun o => PyStr.py_in (fst o) option_strings) argv.

(** The first of the four objects the script reads with [d[key]] that
    is not among the saved ones. *)
Definition first_missing {V : Type} (objs : gmap string V) : option string :=
  find (fun key => match objs !! key with Some _ => false | None => true end)
       ["dataset"; "model"; "loss"; "optimizer"].

(** Two outcomes of loading that the script cannot tell apart: the same
    exception, or saved objects that agree on the five keys it uses. *)
Definition same_training_objects {V : Type}
           (r r' : result (gmap string V)) : Prop :=
  match r, r' with
  | Ok objs, Ok objs' =>
    Forall (fun key => objs !! key = objs' !! key)
           ["dataset"; "train_subset"; "model"; "loss"; "optimizer"]
  | Raise e, Raise e' => e = e'
  | _, _ => False
  end.
End LauncherSpec.

(** ** Reading the rounding of [binary_round_aux] *)

Module RoundingSpec.
Section Format.
Variable prec emax : Z.

(** What [k] right shifts of [M] leave: the quotient, and the position of
    the remainder against half of [2^k]. *)
Definition shifted (M : Z) (k : Z) (mrs : shr_record) : Prop :=
  shr_m mrs = M / 2 ^ k
  /\ (shr_r mrs = true <-> 2 ^ k <= 2 * (M mod 2 ^ k))
  /\ (shr_s mrs = true <-> 2 * (M mod 2 ^ k) <> (if shr_r mrs then 2 ^ k else 0)).

(** [M2 * 2^E2] is [M * 2^E] rounded to the format: within half a unit of
    the last place, a mantissa of at most [prec] bits, and exact, normal
    or at the smallest exponent. *)
Definition rounded (M E M2 E2 : Z) : Prop :=
  E <= E2
  /\ 0 <= M2 < 2 ^ prec
  /\ 2 * Z.abs (M2 * 2 ^ (E2 - E) - M) <= 2 ^ (E2 - E)
  /\ ((E2 = E /\ M2 = M) \/ 2 ^ (prec - 1) <= M2 \/ E2 = emin prec emax)
  /\ E2 <= Z.max (Z.max (Zdigits2 M + E - prec + 1) (emin prec emax + 1)) E.

(** The float [binary_round_aux] builds from a rounded mantissa. *)
Definition packed (sx : bool) (M2 E2 : Z) : spec_float :=
  match M2 with
  | Z0 => S754_zero sx
  | Zpos m => if E2 <=? emax - prec then S754_finite sx m E2 else S754_infinity sx
  | Zneg _ => S754_nan
  end.
End Format.
End RoundingSpec.

(** ** Reading floats as numbers *)

Module PyFloatSpec.
Import PyFloat.

(** A float that is zero or a positive finite number with a mantissa of
    at most 53 bits and an exponent of at least -1074. *)
Definition nonneg (x : float) : Prop :=
  match x with
  | S754_zero _ => True
  | S754_finite false m e => -1074 <= e /\ Z.pos m < 2 ^ 53
  | _ => False
  end.

(** The number a [nonneg] float stands for, in units of [2^-1074]. *)
Definition scaled (x : float) : Z :=
  match x with
  | S754_finite false m e => Z.pos m * 2 ^ (e + 1074)
  | _ => 0
  end.

(** A float that is a number: neither NaN nor an infinity. *)
Definition finite (x : float) : bool :=
  match x with
  | S754_zero _ | S754_finite _ _ _ => true
  | _ => false
  end.
End PyFloatSpec.

(** ** Reading "differ only in case" *)

Module CaseSpec.

(** [c'] is the small letter of the capital [c]: the capitals ['A'] to
    ['Z'] sit at 65 to 90, each small letter 32 above its capital. *)
Definition small_of (c c' : ascii) : bool :=
  (Nat.leb 65 (nat_of_ascii c) && Nat.leb (nat_of_ascii c) 90
   && Nat.eqb (nat_of_ascii c') (nat_of_ascii c + 32))%bool.

(** The same character, or the same letter in the other case. *)
Definition same_letter (c c' : ascii) : bool :=
  (Ascii.eqb c c' || small_of c c' || small_of c' c)%bool.

(** Two strings that differ only in the case of their letters. *)
Fixpoint differ_only_in_case (s s' : string) : bool :=
  match s, s' with
  | EmptyString, EmptyString => true
  | String c r, String c' r' => same_letter c c' && differ_only_in_case r r'
  | _, _ => false
  end.

(** A string of ASCII characters only. *)
Fixpoint ascii_only (s : string) : bool :=
  match s with
  | EmptyString => true
  | String c r => Nat.ltb (nat_of_ascii c) 128 && ascii_only r
  end.
End CaseSpec.

(** ** Reading "the pretrained model, frozen" *)

Module ModelUtilsSpec.
Import Torch.

(** [p'] is the parameter [p] with [requires_grad] off. *)
Definition frozen_param (p p' : Param) : bool :=
  String.eqb (p_name p) (p_name p') && negb (requires_grad p').

(** [m'] is the module [m] with every parameter frozen: the same
    layers, of the same sizes, in the same places. *)
Fixpoint frozen_module (m m' : nn_Module) : bool :=
  match m, m' with
  | Linear i o w b, Linear i' o' w' b' =>
    N.eqb i i' && N.eqb o o' && frozen_param w w' && frozen_param b b'
  | Sequential cs, Sequential cs' =>
    (fix go (l l' : list nn_Module) : bool :=
       match l, l' with
       | [], [] => true
       | c :: r, c' :: r' => frozen_module c c' && go r r'
       | _, _ => false
       end) cs cs'
  | Layer ps, Layer ps' =>
    (fix go (l l' : list Param) : bool :=
       match l, l' with
       | [], [] => true
       | p :: r, p' :: r' => frozen_param p p' && go r r'
       | _, _ => false
       end) ps ps'
  | _, _ => false
  end.

(** [model'] is [model] with every parameter frozen: the same
    attributes in the same order, each the frozen module of before. *)
Fixpoint frozen_model (model model' : Model) : bool :=
  match model, model' with
  | [], [] => true
  | (k, m) :: r, (k', m') :: r' =>
    String.eqb k k' && frozen_module m m' && frozen_model r r'
  | _, _ => false
  end.
End ModelUtilsSpec.

(** ** Sample objects *)

Module Samples.
Import Py PyFloat TFDataset.

(** The floats [0.5] and [0.25]. *)
Definition half : float := S754_finite false 4503599627370496 (-53).
Definition quarter : float := S754_finite false 4503599627370496 (-54).

(** A shuffle that is easy to follow: the dataset in reverse. *)
Definition reversing
  : Z -> option Z -> TfData.Dataset Z -> option (TfData.Dataset Z) :=
  fun _ _ ds => Some (rev ds).

(** Four batches, nothing split yet, a test subset left from before. *)
Definition four : t Z := mk (Some [1; 2; 3; 4]) None None (Some [9]) None.

(** The floats [0.5000000000000001] (the next after [0.5]) and [5e-324]
    (the smallest positive one). *)
Definition just_over_half : float := S754_finite false 4503599627370497 (-53).
Definition tiny : float := S754_finite false 1 (-1074).

(** [2^53] batches, all alike, nothing split yet. *)
Definition huge : TfData.Dataset Z := List.repeat 0 (Z.to_nat 9007199254740992).
Definition huge_dataset : t Z := mk (Some huge) None None None None.

(** The same, split earlier into an empty train subset and the rest. *)
Definition four_empty_train : t Z :=
  mk (Some [1; 2; 3; 4]) (Some []) (Some [1; 2; 3; 4]) None (Some "shuffle_split").

(** A small stand-in for a pretrained video model: a stem, a block of two
    layers and the 400-class classifier, all trainable. *)
Definition video_model : Torch.Model :=
  [("stem", Torch.Layer [Torch.mkParam "stem.0.weight" true]);
   ("layer1", Torch.Sequential
                [Torch.Layer [Torch.mkParam "layer1.0.weight" true];
                 Torch.Layer [Torch.mkParam "layer1.1.weight" true;
                              Torch.mkParam "layer1.1.bias" true]]);
   ("fc", Torch.Linear 512 400 (Torch.mkParam "fc.weight" true)
                       (Torch.mkParam "fc.bias" true))].

(** A [locate] that knows [r3d_18] only. *)
Definition locate_r3d (dotted : string) : option (bool -> Torch.Model) :=
  if String.eqb dotted "torchvision.models.video.r3d_18"
  then Some (fun _ => video_model) else None.

(** Decimal digits, for the command lines of the examples. *)
Fixpoint decimal (s : string) (acc : Z) : option Z :=
  match s with
  | EmptyString => Some acc
  | String c rest =>
    let n := Z.of_nat (nat_of_ascii c) in
    if (48 <=? n) && (n <=? 57) then decimal rest (10 * acc + (n - 48)) else None
  end.

Definition int_of_decimal (s : string) : option Z :=
  match s with
  | EmptyString => None
  | _ => decimal s 0
  end.

(** Saved objects are known by their names here. *)
Definition saved_without_subsets : gmap string string :=
  list_to_map [("dataset", "the dataset"); ("model", "the model");
               ("loss", "the loss"); ("optimizer", "the optimizer")].

Definition load_saved (use_case : Argparse.value)
  : Py.result (gmap string string) := Py.Ok saved_without_subsets.

(** [--master_addr 10.0.0.1 --master_port 29500 --use_case image_classification --epochs 3] *)
Definition command_line : list Argparse.occurrence :=
  [("--master_addr", Some "10.0.0.1"); ("--master_port", Some "29500");
   ("--use_case", Some "image_classification"); ("--epochs", Some "3")].

(** What the parser makes of it. *)
Definition parsed_command_line : gmap string Argparse.value :=
  list_to_map
    [("master_addr", Argparse.VStr "10.0.0.1");
     ("master_port", Argparse.VStr "29500");
     ("backend", Argparse.VStr "ccl");
     ("use_case", Argparse.VStr "image_classification");
     ("epochs", Argparse.VInt 3);
     ("batch_size", Argparse.VInt 128);
     ("disable_ipex", Argparse.VBool false)].

(** [2^31] batches, all alike, nothing split yet. *)
Definition many : TfData.Dataset Z := List.repeat 0 (Z.to_nat 2147483648).
Definition many_dataset : t Z := mk (Some many) None None None None.

(** The float [-1e30]. *)
Definition minus_1e30 : float := S754_finite true 7105427357601002 47.

(** An object without a dataset, one with an empty dataset, and one
    with five batches. *)
Definition no_dataset : t Z := mk None None None None None.
Definition no_batches : t Z := mk (Some []) None None None None.
Definition five : t Z := mk (Some [1; 2; 3; 4; 5]) None None None None.

(** A model without a classifier, and a [locate] that finds it under
    every name. *)
Definition headless_model : Torch.Model :=
  [("stem", Torch.Layer [Torch.mkParam "stem.0.weight" true])].
Definition locate_headless (dotted : string) : option (bool -> Torch.Model) :=
  Some (fun _ => headless_model).

(** Saved objects with a test subset as well, and saved objects with a
    train subset but no dataset. *)
Definition saved_with_test : gmap string string :=
  list_to_map [("dataset", "the dataset"); ("model", "the model");
               ("loss", "the loss"); ("optimizer", "the optimizer");
               ("test_subset", "the test subset")].
Definition load_saved_with_test (use_case : Argparse.value)
  : Py.result (gmap string string) := Py.Ok saved_with_test.
Definition saved_without_dataset : gmap string string :=
  list_to_map [("train_subset", "the train subset"); ("model", "the model");
               ("loss", "the loss"); ("optimizer", "the optimizer")].
Definition load_saved_without_dataset (use_case : Argparse.value)
  : Py.result (gmap string string) := Py.Ok saved_without_dataset.

(** [--master_addr 10.0.0.1 --use_case image_classification] and
    [--master_addr 10.0.0.1 --master_port 29500 --use_case image_classification --epochs three] *)
Definition command_line_without_port : list Argparse.occurrence :=
  [("--master_addr", Some "10.0.0.1");
   ("--use_case", Some "image_classification")].
Definition command_line_bad_epochs : list Argparse.occurrence :=
  [("--master_addr", Some "10.0.0.1"); ("--master_port", Some "29500");
   ("--use_case", Some "image_classification"); ("--epochs", Some "three")].
End Samples.

(** * Properties *)

(** ** Comparisons of floats *)

Section FloatOrder.
Import PyFloat.

Lemma SFcompare_antisym (x y : spec_float) :
  SFcompare y x = option_map CompOpp (SFcompare x y).
Proof.
  destruct x as [sx | sx | | sx mx ex], y as [sy | sy | | sy my ey];
    simpl; try reflexivity;
    try (destruct sx; reflexivity); try (destruct sy; reflexivity);
    try (destruct sx, sy; reflexivity).
  destruct sx, sy; simpl; try reflexivity;
    rewrite (Z.compare_antisym ey ex);
    destruct (ey ?= ex)%Z eqn:E; simpl; try reflexivity.
  - rewrite CompOpp_involutive.
    exact (f_equal Some (Pos.compare_cont_antisym my mx Eq)).
  - symmetry. exact (f_equal Some (Pos.compare_cont_antisym mx my Eq)).
Qed.

Lemma fle_not_fgt (x y : float) : fle x y = true -> fgt x y = false.
Proof.
  unfold fle, fgt, SFleb, SFltb. rewrite (SFcompare_antisym x y).
  destruct (SFcompare x y) as [[ | | ] | ]; simpl; congruence.
Qed.

Lemma truthy_neq_zero (x : float) : truthy x = negb (SFeqb x zero).
Proof. destruct x as [s | s | | s m e]; try destruct s; reflexivity. Qed.
End FloatOrder.

(** ** [DatasetType.from_str], [ModelType.from_str] and [ModelDownloader] *)

Section StringFacts.
Import PyStr.

Lemma py_in_In (x : string) (l : list string) : py_in x l = true <-> In x l.
Proof.
  unfold py_in. rewrite existsb_exists. split.
  - intros [y [Hy Heq]]. apply String.eqb_eq in Heq. now subst.
  - intros H. exists x. split; [exact H | apply String.eqb_refl].
Qed.

Lemma py_in_not_In (x : string) (l : list string) : py_in x l = false <-> ~ In x l.
Proof.
  rewrite <- py_in_In. destruct (py_in x l); split; intros H; congruence.
Qed.

Lemma lower_ascii_idem (c : ascii) : lower_ascii (lower_ascii c) = lower_ascii c.
Proof. destruct c as [[] [] [] [] [] [] [] []]; reflexivity. Qed.

Lemma lower_idem (s : string) : lower (lower s) = lower s.
Proof.
  induction s as [ | c s IH]; simpl; [reflexivity | ].
  now rewrite lower_ascii_idem, IH.
Qed.

Lemma lower_ascii_not_upper (c : ascii) : is_upper_ascii (lower_ascii c) = false.
Proof. destruct c as [[] [] [] [] [] [] [] []]; reflexivity. Qed.

Lemma lower_no_upper (s : string) : has_upper (lower s) = false.
Proof.
  induction s as [ | c s IH]; simpl; [reflexivity | ].
  now rewrite lower_ascii_not_upper, IH.
Qed.

Lemma lower_ascii_fixes (c : ascii) : is_upper_ascii c = false -> lower_ascii c = c.
Proof. unfold lower_ascii, is_upper_ascii. intros ->. reflexivity. Qed.

Lemma lower_fixes (s : string) : has_upper s = false -> lower s = s.
Proof.
  induction s as [ | c s IH]; simpl; [reflexivity | ].
  intros H. apply orb_false_iff in H. destruct H as [Hc Hs].
  now rewrite lower_ascii_fixes, IH.
Qed.
End StringFacts.


(** A string known to be one of the literals of a list: rewrite with each
    and evaluate. *)
Ltac by_alias H :=
  repeat (destruct H as [H | H]; [rewrite <- H; reflexivity | ]);
  destruct H.

Section CaseFacts.
Import PyStr CaseSpec.

Lemma small_of_lower (c c' : ascii) :
  small_of c c' = true -> lower_ascii c = c' /\ lower_ascii c' = c'.
Proof.
  unfold small_of, lower_ascii. intros H.
  apply andb_true_iff in H. destruct H as [H He].
  rewrite H. apply Nat.eqb_eq in He.
  apply andb_true_iff in H. destruct H as [H1 H2].
  apply Nat.leb_le in H1. apply Nat.leb_le in H2.
  split.
  - rewrite <- He. apply ascii_nat_embedding.
  - replace (Nat.leb (nat_of_ascii c') 90) with false
      by (symmetry; apply Nat.leb_gt; lia).
    rewrite andb_false_r. reflexivity.
Qed.

Lemma same_letter_lower (c c' : ascii) :
  same_letter c c' = true -> lower_ascii c = lower_ascii c'.
Proof.
  unfold same_letter. intros H.
  apply orb_true_iff in H. destruct H as [H | H].
  - apply orb_true_iff in H. destruct H as [H | H].
    + apply Ascii.eqb_eq in H. now subst.
    + destruct (small_of_lower _ _ H) as [H1 H2]. congruence.
  - destruct (small_of_lower _ _ H) as [H1 H2]. congruence.
Qed.

Lemma differ_only_in_case_lower (s s' : string) :
  differ_only_in_case s s' = true -> lower s = lower s'.
Proof.
  revert s'. induction s as [ | c r IH]; intros [ | c' r']; simpl;
    try discriminate; [reflexivity | ].
  intros H. apply andb_true_iff in H. destruct H as [Hc Hr].
  rewrite (same_letter_lower _ _ Hc), (IH _ Hr). reflexivity.
Qed.


Lemma same_letter_lower_ascii (c : ascii) : same_letter c (lower_ascii c) = true.
Proof.
  unfold same_letter, small_of, lower_ascii.
  destruct (Nat.leb 65 (nat_of_ascii c) && Nat.leb (nat_of_ascii c) 90)%bool eqn:E.
  - apply andb_true_iff in E. destruct E as [H1 H2].
    apply Nat.leb_le in H1. apply Nat.leb_le in H2.
    rewrite nat_ascii_embedding by lia.
    rewrite Nat.eqb_refl. cbn [andb]. rewrite orb_true_r. reflexivity.
  - rewrite Ascii.eqb_refl. reflexivity.
Qed.

Lemma differ_only_in_case_lower_self (s : string) :
  differ_only_in_case s (lower s) = true.
Proof.
  induction s as [ | c r IH]; simpl; [reflexivity | ].
  rewrite same_letter_lower_ascii, IH. reflexivity.
Qed.
End CaseFacts.

Section DatasetTypeFacts.
Import Py PyStr CaseSpec DatasetType.

(** C6: [DatasetType.from_str(None)] is [GENERIC]; a string is lowercased
    first, so two strings that differ only in the case of their letters
    resolve alike, as ['TFDS'] and ['tfds'] do; every alias, in whatever
    case it is written, maps to its member; any other string raises
    [ValueError], with a message that holds the lowercased string (as
    the model lowercases it, for ASCII strings) and lists the
    options. *)
Theorem DatasetType_from_str_cases :
  from_str None = Ok GENERIC
  /\ (forall s s', differ_only_in_case s s' = true ->
                   from_str (Some s) = from_str (Some s'))
  /\ (forall s s', lower s = lower s' -> from_str (Some s) = from_str (Some s'))
  /\ (forall s, from_str (Some s) = from_str (Some (lower s)))
  /\ (forall s a,
         differ_only_in_case s a = true ->
         In a ["tfds"; "tensorflow"; "tensorflow_datasets";
               "tensorflow datasets"; "tensorflow_dataset";
               "tensorflow dataset"] ->
         from_str (Some s) = Ok TENSORFLOW_DATASETS)
  /\ (forall s, differ_only_in_case s "torchvision" = true ->
                from_str (Some s) = Ok TORCHVISION)
  /\ (forall s a,
         differ_only_in_case s a = true ->
         In a ["huggingface"; "hugging_face"; "hugging face"] ->
         from_str (Some s) = Ok HUGGING_FACE)
  /\ (forall s, differ_only_in_case s "generic" = true ->
                from_str (Some s) = Ok GENERIC)
  /\ (forall s,
         (forall a,
             In a ["tfds"; "tensorflow"; "tensorflow_datasets";
                   "tensorflow datasets"; "tensorflow_dataset";
                   "tensorflow dataset"; "torchvision"; "huggingface";
                   "hugging_face"; "hugging face"; "generic"] ->
             differ_only_in_case s a = false) ->
         (exists msg, from_str (Some s) = Raise (ValueError msg))
         /\ (ascii_only s = true ->
             from_str (Some s) =
             Raise (ValueError
                      ("Unsupported dataset type: " ++ lower s ++
                       " (Select from: ['TENSORFLOW_DATASETS', 'TORCHVISION', 'HUGGING_FACE', 'GENERIC'])"))))
  /\ from_str (Some "TFDS") = Ok TENSORFLOW_DATASETS
  /\ from_str (Some "TensorFlow Datasets") = Ok TENSORFLOW_DATASETS
  /\ from_str (Some "TorchVision") = Ok TORCHVISION
  /\ from_str (Some "Hugging_Face") = Ok HUGGING_FACE
  /\ from_str (Some "Generic") = Ok GENERIC
  /\ from_str (Some "TF DS")
     = Raise (ValueError
                "Unsupported dataset type: tf ds (Select from: ['TENSORFLOW_DATASETS', 'TORCHVISION', 'HUGGING_FACE', 'GENERIC'])").
Proof.
  assert (Hlow : forall s s', lower s = lower s' ->
                              from_str (Some s) = from_str (Some s'))
    by (intros s s' H; unfold from_str; rewrite H; reflexivity).
  assert (Halias : forall s a ty,
             differ_only_in_case s a = true ->
             from_str (Some a) = Ok ty -> from_str (Some s) = Ok ty).
  { intros s a ty Hd Ha. rewrite <- Ha. apply Hlow.
    now apply differ_only_in_case_lower. }
  split; [reflexivity | ].
  split; [intros s s' H; apply Hlow; now apply differ_only_in_case_lower | ].
  split; [exact Hlow | ].
  split; [intros s; unfold from_str; rewrite lower_idem; reflexivity | ].
  split.
  { intros s a Hd Ha. apply (Halias s a _ Hd). by_alias Ha. }
  split; [intros s Hd; apply (Halias s _ _ Hd); reflexivity | ].
  split.
  { intros s a Hd Ha. apply (Halias s a _ Hd). by_alias Ha. }
  split; [intros s Hd; apply (Halias s _ _ Hd); reflexivity | ].
  split.
  { intros s H. unfold from_str.
    assert (Hno : forall l,
               (forall a, In a l ->
                  In a ["tfds"; "tensorflow"; "tensorflow_datasets";
                        "tensorflow datasets"; "tensorflow_dataset";
                        "tensorflow dataset"; "torchvision"; "huggingface";
                        "hugging_face"; "hugging face"; "generic"]) ->
               py_in (lower s) l = false).
    { intros l Hl. apply py_in_not_In. intros Hin.
      pose proof (H _ (Hl _ Hin)) as Hf.
      rewrite differ_only_in_case_lower_self in Hf. discriminate. }
    rewrite (Hno tfds_aliases) by (intros a Ha; cbv [tfds_aliases torchvision_aliases hugging_face_aliases generic_aliases In] in Ha |- *; tauto).
    rewrite (Hno torchvision_aliases) by (intros a Ha; cbv [tfds_aliases torchvision_aliases hugging_face_aliases generic_aliases In] in Ha |- *; tauto).
    rewrite (Hno hugging_face_aliases) by (intros a Ha; cbv [tfds_aliases torchvision_aliases hugging_face_aliases generic_aliases In] in Ha |- *; tauto).
    rewrite (Hno generic_aliases) by (intros a Ha; cbv [tfds_aliases torchvision_aliases hugging_face_aliases generic_aliases In] in Ha |- *; tauto).
    split; [eexists; reflexivity | intros _; reflexivity]. }
  repeat split; reflexivity.
Qed.
End DatasetTypeFacts.

Section ModelTypeFacts.
Import Py PyStr ModelType.

(** Every alias resolves to the member its list stands for. *)
Lemma ModelType_from_str_alias (aliases : list string) (ty : t) (s : string) :
  In (aliases, ty) alias_table -> In s aliases -> from_str (Some s) = Ok ty.
Proof.
  intros Ht Hs. cbv [alias_table] in Ht.
  repeat (destruct Ht as [Ht | Ht];
          [inversion Ht; subst aliases ty; clear Ht;
           cbv [tf_hub_aliases torchvision_aliases pytorch_hub_aliases
                hugging_face_aliases keras_aliases generic_aliases] in Hs;
           by_alias Hs | ]).
  destruct Ht.
Qed.

(** A string in none of the lists is refused. *)
Lemma ModelType_from_str_unknown (s : string) :
  (forall aliases ty, In (aliases, ty) alias_table -> ~ In s aliases) ->
  from_str (Some s) = Raise (ValueError (unsupported_msg s)).
Proof.
  intros H. unfold from_str.
  rewrite (proj2 (py_in_not_In s tf_hub_aliases))
    by (apply (H _ TF_HUB); cbv; tauto).
  rewrite (proj2 (py_in_not_In s torchvision_aliases))
    by (apply (H _ TORCHVISION); cbv; tauto).
  rewrite (proj2 (py_in_not_In s pytorch_hub_aliases))
    by (apply (H _ PYTORCH_HUB); cbv; tauto).
  rewrite (proj2 (py_in_not_In s hugging_face_aliases))
    by (apply (H _ HUGGING_FACE); cbv; tauto).
  rewrite (proj2 (py_in_not_In s keras_aliases))
    by (apply (H _ KERAS_APPLICATIONS); cbv; tauto).
  rewrite (proj2 (py_in_not_In s generic_aliases))
    by (apply (H _ GENERIC); cbv; tauto).
  reflexivity.
Qed.

(** What resolves is an alias. *)
Lemma ModelType_from_str_Ok_inv (s : string) (ty : t) :
  from_str (Some s) = Ok ty ->
  exists aliases, In (aliases, ty) alias_table /\ In s aliases.
Proof.
  unfold from_str.
  destruct (py_in s tf_hub_aliases) eqn:E1.
  { intros H; inversion H; subst. exists tf_hub_aliases.
    split; [cbv; tauto | now apply py_in_In]. }
  destruct (py_in s torchvision_aliases) eqn:E2.
  { intros H; inversion H; subst. exists torchvision_aliases.
    split; [cbv; tauto | now apply py_in_In]. }
  destruct (py_in s pytorch_hub_aliases) eqn:E3.
  { intros H; inversion H; subst. exists pytorch_hub_aliases.
    split; [cbv; tauto | now apply py_in_In]. }
  destruct (py_in s hugging_face_aliases) eqn:E4.
  { intros H; inversion H; subst. exists hugging_face_aliases.
    split; [cbv; tauto | now apply py_in_In]. }
  destruct (py_in s keras_aliases) eqn:E5.
  { intros H; inversion H; subst. exists keras_aliases.
    split; [cbv; tauto | now apply py_in_In]. }
  destruct (py_in s generic_aliases) eqn:E6.
  { intros H; inversion H; subst. exists generic_aliases.
    split; [cbv; tauto | now apply py_in_In]. }
  discriminate.
Qed.

(** No alias holds a capital letter. *)
Lemma ModelType_aliases_lowercase (aliases : list string) (ty : t) (s : string) :
  In (aliases, ty) alias_table -> In s aliases -> has_upper s = false.
Proof.
  intros Ht Hs. cbv [alias_table] in Ht.
  repeat (destruct Ht as [Ht | Ht];
          [inversion Ht; subst aliases ty; clear Ht;
           cbv [tf_hub_aliases torchvision_aliases pytorch_hub_aliases
                hugging_face_aliases keras_aliases generic_aliases] in Hs;
           by_alias Hs | ]).
  destruct Ht.
Qed.

(** C9: [ModelType.from_str(None)] is [GENERIC]; a string is matched as
    given, never lowercased: it resolves to a member exactly when it is
    one of that member's (lowercase) aliases, and a string that holds a
    capital letter, such as ['TF_Hub'], raises [ValueError], where
    [DatasetType.from_str] lowercases first and resolves ['TFDS']. *)
Theorem ModelType_from_str_exact_match :
  from_str None = Ok GENERIC
  /\ (forall s ty,
         from_str (Some s) = Ok ty
         <-> exists aliases, In (aliases, ty) alias_table /\ In s aliases)
  /\ (forall s ty, from_str (Some s) = Ok ty -> lower s = s)
  /\ (forall s, has_upper s = true ->
                from_str (Some s) = Raise (ValueError (unsupported_msg s)))
  /\ (exists msg, from_str (Some "TF_Hub") = Raise (ValueError msg))
  /\ from_str (Some (lower "TF_Hub")) = Ok TF_HUB
  /\ DatasetType.from_str (Some "TFDS") = Ok DatasetType.TENSORFLOW_DATASETS.
Proof.
  split; [reflexivity | ].
  split.
  { intros s ty. split.
    - apply ModelType_from_str_Ok_inv.
    - intros [aliases [Ht Hs]]. eapply ModelType_from_str_alias; eassumption. }
  split.
  { intros s ty H. apply ModelType_from_str_Ok_inv in H.
    destruct H as [aliases [Ht Hs]]. apply lower_fixes.
    eapply ModelType_aliases_lowercase; eassumption. }
  split.
  { intros s Hup. apply ModelType_from_str_unknown.
    intros aliases ty Ht Hs.
    rewrite (ModelType_aliases_lowercase aliases ty s Ht Hs) in Hup.
    discriminate. }
  split; [eexists; reflexivity | ].
  split; reflexivity.
Qed.
End ModelTypeFacts.

Section ModelDownloaderFacts.
Import Py ModelType ModelDownloader.

End ModelDownloaderFacts.

(** ** [get_retrainable_model] *)

Section TorchFacts.
Import Py Torch.

Lemma nn_Module_induction (P : nn_Module -> Prop) :
  (forall i o w b, P (Linear i o w b)) ->
  (forall cs, Forall P cs -> P (Sequential cs)) ->
  (forall ps, P (Layer ps)) ->
  forall m, P m.
Proof.
  intros HL HS HY. fix IH 1. intros [i o w b | cs | ps].
  - apply HL.
  - apply HS. induction cs as [ | c cs IHcs]; constructor; [apply IH | exact IHcs].
  - apply HY.
Qed.

Lemma freeze_module_parameters (m : nn_Module) :
  module_parameters (freeze_module m) = map freeze_parameter (module_parameters m).
Proof.
  induction m as [i o w b | cs IH | ps] using nn_Module_induction; simpl.
  - reflexivity.
  - induction IH as [ | c cs Hc _ IHcs]; simpl; [reflexivity | ].
    rewrite List.map_app, Hc, IHcs. reflexivity.
  - reflexivity.
Qed.

Lemma freeze_parameters (model : Model) :
  parameters (freeze model) = map freeze_parameter (parameters model).
Proof.
  unfold parameters, freeze.
  induction model as [ | [k v] rest IH]; simpl; [reflexivity | ].
  rewrite List.map_app, freeze_module_parameters, IH. reflexivity.
Qed.

Lemma freeze_all_frozen (model : Model) : Forall frozen (parameters (freeze model)).
Proof.
  rewrite freeze_parameters. apply List.Forall_forall. intros p Hp.
  apply in_map_iff in Hp. destruct Hp as [q [<- _]]. reflexivity.
Qed.

Lemma freeze_keeps_names (model : Model) :
  map p_name (parameters (freeze model)) = map p_name (parameters model).
Proof.
  rewrite freeze_parameters, List.map_map. apply map_ext. intros p. reflexivity.
Qed.

Lemma getattr_freeze (model : Model) (name : string) :
  getattr (freeze model) name = rbind (getattr model name) (fun m => Ok (freeze_module m)).
Proof.
  induction model as [ | [k v] rest IH]; simpl; [reflexivity | ].
  destruct (String.eqb k name); [reflexivity | exact IH].
Qed.

Lemma getattr_setattr_same (model : Model) (name : string) (m : nn_Module) :
  getattr (setattr model name m) name = Ok m.
Proof.
  induction model as [ | [k v] rest IH]; simpl.
  - now rewrite String.eqb_refl.
  - destruct (String.eqb k name) eqn:E; simpl; rewrite E; [reflexivity | exact IH].
Qed.

Lemma getattr_setattr_other (model : Model) (name other : string) (m : nn_Module) :
  other <> name -> getattr (setattr model name m) other = getattr model other.
Proof.
  intros Hne. induction model as [ | [k v] rest IH]; simpl.
  - destruct (String.eqb name other) eqn:E; [ | reflexivity].
    apply String.eqb_eq in E. congruence.
  - destruct (String.eqb k name) eqn:E; simpl.
    + apply String.eqb_eq in E. subst k.
      destruct (String.eqb name other) eqn:E'; [ | reflexivity].
      apply String.eqb_eq in E'. congruence.
    + destruct (String.eqb k other); [reflexivity | exact IH].
Qed.
End TorchFacts.

Section FrozenFacts.
Import Py Torch ModelUtils ModelUtilsSpec.

Lemma frozen_param_freeze (p : Param) : frozen_param p (freeze_parameter p) = true.
Proof. unfold frozen_param. simpl. now rewrite String.eqb_refl. Qed.

Lemma frozen_module_freeze (m : nn_Module) : frozen_module m (freeze_module m) = true.
Proof.
  induction m as [i o w b | cs IH | ps] using nn_Module_induction; simpl.
  - rewrite !N.eqb_refl, !frozen_param_freeze. reflexivity.
  - induction IH as [ | c cs Hc _ IHcs]; simpl; [reflexivity | ].
    rewrite Hc. exact IHcs.
  - induction ps as [ | p ps IHps]; simpl; [reflexivity | ].
    rewrite frozen_param_freeze. exact IHps.
Qed.

Lemma frozen_model_freeze (model : Model) : frozen_model model (freeze model) = true.
Proof.
  induction model as [ | [k m] rest IH]; simpl; [reflexivity | ].
  rewrite String.eqb_refl, frozen_module_freeze. exact IH.
Qed.
End FrozenFacts.

Section ModelUtilsFacts.
Import Py Torch ModelUtils ModelUtilsSpec.
Variable locate : string -> option (bool -> Model).

(** Every entry of the model map names the attribute [fc]. *)
Lemma torchvision_model_map_classifier (model_name : string) (entry : model_entry) :
  torchvision_model_map !! model_name = Some entry ->
  classifier entry = ClassifierAttr "fc".
Proof.
  unfold torchvision_model_map. intros H.
  apply elem_of_list_to_map_2 in H.
  repeat (apply elem_of_cons in H; destruct H as [H | H];
          [inversion H; reflexivity | ]).
  apply elem_of_nil in H. destruct H.
Qed.

(** C7: for a model name of the video model map whose pretrained model
    is located and has a [Linear] classifier [fc],
    [get_retrainable_model] returns that model with [fc] replaced by a
    new [Linear] layer whose [in_features] are the classifier's and
    whose [out_features] are [num_classes], with a trainable weight and
    bias, and every other attribute as it was before the replacement;
    without fine tuning the model before the replacement is the
    pretrained one with every parameter's [requires_grad] set to
    [False] (the same layers, sizes and parameter names), with fine
    tuning it is the pretrained model as loaded. *)
Theorem get_retrainable_model_replaces_classifier
        (model_name : string) (num_classes : N) (do_fine_tuning : bool)
        (cls : bool -> Model) (i o : N) (w b : Param) :
  is_Some (torchvision_model_map !! model_name) ->
  locate ("torchvision.models.video." ++ model_name) = Some cls ->
  getattr (cls true) "fc" = Ok (Linear i o w b) ->
  exists before,
    get_retrainable_model locate model_name num_classes do_fine_tuning
    = Ok (setattr before "fc"
                  (Linear i num_classes (mkParam "weight" true)
                          (mkParam "bias" true)))
    /\ getattr (setattr before "fc"
                        (Linear i num_classes (mkParam "weight" true)
                                (mkParam "bias" true))) "fc"
       = Ok (Linear i num_classes (mkParam "weight" true) (mkParam "bias" true))
    /\ (forall name, name <> "fc" ->
          getattr (setattr before "fc"
                           (Linear i num_classes (mkParam "weight" true)
                                   (mkParam "bias" true))) name
          = getattr before name)
    /\ (if do_fine_tuning then before = cls true
        else frozen_model (cls true) before = true
             /\ Forall frozen (parameters before)
             /\ map p_name (parameters before) = map p_name (parameters (cls true))
             /\ map fst before = map fst (cls true)).
Proof.
  intros [entry Hentry] Hloc Hfc.
  pose proof (torchvision_model_map_classifier _ _ Hentry) as Hcl.
  unfold get_retrainable_model. rewrite Hloc, Hentry, Hcl.
  exists (if do_fine_tuning then cls true else freeze (cls true)).
  split.
  { destruct do_fine_tuning; simpl.
    - rewrite Hfc. reflexivity.
    - rewrite getattr_freeze, Hfc. reflexivity. }
  split; [apply getattr_setattr_same | ].
  split; [intros name Hne; now apply getattr_setattr_other | ].
  destruct do_fine_tuning; [reflexivity | ].
  split; [apply frozen_model_freeze | ].
  split; [apply freeze_all_frozen | ].
  split; [apply freeze_keeps_names | ].
  unfold freeze. rewrite List.map_map. reflexivity.
Qed.
End ModelUtilsFacts.

Section ModelUtilsRuns.
Import Py Torch ModelUtils ModelUtilsSpec Samples.

Lemma get_retrainable_model_witness :
  exists before,
    get_retrainable_model locate_r3d "r3d_18" 10 false
    = Ok (setattr before "fc"
                  (Linear 512 10 (mkParam "weight" true) (mkParam "bias" true)))
    /\ getattr (setattr before "fc"
                        (Linear 512 10 (mkParam "weight" true)
                                (mkParam "bias" true))) "fc"
       = Ok (Linear 512 10 (mkParam "weight" true) (mkParam "bias" true))
    /\ (forall name, name <> "fc" ->
          getattr (setattr before "fc"
                           (Linear 512 10 (mkParam "weight" true)
                                   (mkParam "bias" true))) name
          = getattr before name)
    /\ (frozen_model video_model before = true
        /\ Forall frozen (parameters before)
        /\ map p_name (parameters before) = map p_name (parameters video_model)
        /\ map fst before = map fst video_model).
Proof.
  apply (get_retrainable_model_replaces_classifier
           locate_r3d "r3d_18" 10 false (fun _ => video_model) 512 400
           (mkParam "fc.weight" true) (mkParam "fc.bias" true)).
  - exists (mkEntry (ClassifierAttr "fc")). vm_compute. reflexivity.
  - reflexivity.
  - reflexivity.
Defined.
End ModelUtilsRuns.

(** ** The launcher *)

Section ArgparseFacts.
Import Py Argparse LauncherSpec.
Variable int_of_str : string -> option Z.

Lemma dashes_inj (x y : string) : "--" ++ x = "--" ++ y -> x = y.
Proof. simpl. intros H. now inversion H. Qed.

Lemma find_argument_name (specs : list argument) (name : string) (a : argument) :
  find_argument specs name = Some a -> "--" ++ dest a = name.
Proof.
  unfold find_argument. intros H. apply find_some in H.
  destruct H as [_ H]. now apply String.eqb_eq in H.
Qed.

(** After the occurrences are consumed, an attribute holds what the last
    occurrence of its option stored, or what it held before. *)
Lemma consume_lookup (specs : list argument) (d : string) :
  forall (argv : list occurrence) (ns ns' : Namespace),
    consume int_of_str specs argv ns = Ok ns' ->
    match last_occurrence ("--" ++ d) argv with
    | Some raw =>
      exists v, stored_value int_of_str specs ("--" ++ d) raw = Some v
                /\ ns' !! d = Some v
    | None => ns' !! d = ns !! d
    end.
Proof.
  induction argv as [ | [name raw] rest IH]; intros ns ns' H.
  - simpl in *. now inversion H.
  - simpl in H.
    destruct (find_argument specs name) as [a | ] eqn:Ha; [ | discriminate].
    pose proof (find_argument_name _ _ _ Ha) as Hname.
    assert (Hstep : exists v,
               stored_value int_of_str specs name raw = Some v
               /\ consume int_of_str specs rest (<[dest a := v]> ns) = Ok ns').
    { unfold stored_value. rewrite Ha.
      destruct (act a) as [ty | ], raw as [r | ]; try discriminate.
      - simpl in H. destruct (convert int_of_str ty r) as [v | e];
          [ | discriminate].
        exists v. split; [reflexivity | exact H].
      - exists (VBool true). split; [reflexivity | exact H]. }
    destruct Hstep as [v [Hv Hrest]].
    specialize (IH _ _ Hrest). simpl.
    destruct (last_occurrence ("--" ++ d) rest) as [raw' | ]; [exact IH | ].
    destruct (String.eqb name ("--" ++ d)) eqn:E.
    + apply String.eqb_eq in E. rewrite E in Hname, Hv.
      apply dashes_inj in Hname.
      exists v. split; [exact Hv | ].
      rewrite IH, Hname. apply lookup_insert_eq.
    + rewrite IH. apply lookup_insert_ne. intros Hd.
      rewrite <- Hname, Hd, String.eqb_refl in E. discriminate.
Qed.

(** After the defaults are filled in, an attribute that was set keeps its
    value and one that was not holds the default of its option. *)
Lemma fill_defaults_lookup (d : string) :
  forall (specs : list argument) (ns ns' : Namespace),
    fill_defaults specs ns = Ok ns' ->
    ns' !! d =
    match ns !! d with
    | Some v => Some v
    | None => option_map default_of (find (fun a => String.eqb (dest a) d) specs)
    end.
Proof.
  induction specs as [ | a rest IH]; intros ns ns' H; simpl in H.
  - inversion H. subst. destruct (ns' !! d); reflexivity.
  - simpl. destruct (ns !! dest a) as [va | ] eqn:Ea.
    + rewrite (IH _ _ H).
      destruct (ns !! d) as [v | ] eqn:Ed; [reflexivity | ].
      destruct (String.eqb (dest a) d) eqn:E; [ | reflexivity].
      apply String.eqb_eq in E. congruence.
    + destruct (required a); [discriminate | ].
      rewrite (IH _ _ H).
      destruct (String.eqb (dest a) d) eqn:E.
      * apply String.eqb_eq in E. subst d.
        rewrite lookup_insert_eq, Ea. reflexivity.
      * rewrite lookup_insert_ne; [reflexivity | ].
        intros Hd. rewrite Hd, String.eqb_refl in E. discriminate.
Qed.

(** The two together: an attribute of the parsed arguments. *)
Lemma parse_args_lookup (specs : list argument) (argv : list occurrence)
      (args : Namespace) (d : string) :
  parse_args int_of_str specs argv = Ok args ->
  match last_occurrence ("--" ++ d) argv with
  | Some raw =>
    exists v, stored_value int_of_str specs ("--" ++ d) raw = Some v
              /\ args !! d = Some v
  | None =>
    args !! d = option_map default_of (find (fun a => String.eqb (dest a) d) specs)
  end.
Proof.
  unfold parse_args. intros H.
  destruct (consume int_of_str specs argv ∅) as [ns | e] eqn:Hc; [ | discriminate].
  simpl in H.
  pose proof (consume_lookup specs d _ _ _ Hc) as Hl.
  pose proof (fill_defaults_lookup d _ _ _ H) as Hf.
  destruct (last_occurrence ("--" ++ d) argv) as [raw | ].
  - destruct Hl as [v [Hv Hns]]. exists v. split; [exact Hv | ].
    rewrite Hf, Hns. reflexivity.
  - rewrite Hf, Hl, lookup_empty. reflexivity.
Qed.
End ArgparseFacts.

Section LauncherFacts.
Import Py Argparse LauncherSpec RunTrainPyt.
Variable obj : Type.
Variable int_of_str : string -> option Z.
Variable load_saved_objects : value -> result (gmap string obj).

(** A text option of the launcher's parser: what was given, or the
    default. *)
Lemma parser_str_attr (argv : list occurrence) (args : Namespace)
      (d name dflt : string) (req : bool) (odflt : option value) :
  parse_args int_of_str parser argv = Ok args ->
  "--" ++ d = name ->
  find_argument parser name = Some (mkArgument d (Store TStr) req odflt) ->
  find (fun a => String.eqb (dest a) d) parser
  = Some (mkArgument d (Store TStr) req odflt) ->
  (odflt = Some (VStr dflt) \/ is_Some (last_occurrence name argv)) ->
  args !! d = Some (given_str name dflt argv).
Proof.
  intros Hp <- Hfind Hdest Hdflt.
  pose proof (parse_args_lookup int_of_str parser argv args d Hp) as H.
  unfold given_str.
  destruct (last_occurrence ("--" ++ d) argv) as [raw | ].
  - destruct H as [v [Hv Hargs]]. unfold stored_value in Hv.
    rewrite Hfind in Hv. simpl in Hv.
    destruct raw as [r | ]; [ | discriminate].
    inversion Hv. subst v. exact Hargs.
  - destruct Hdflt as [-> | [x Hx]]; [ | discriminate].
    rewrite H, Hdest. reflexivity.
Qed.

(** An integer option. *)
Lemma parser_int_attr (argv : list occurrence) (args : Namespace)
      (d name : string) (dflt : Z) :
  parse_args int_of_str parser argv = Ok args ->
  "--" ++ d = name ->
  find_argument parser name
  = Some (mkArgument d (Store TInt) false (Some (VInt dflt))) ->
  find (fun a => String.eqb (dest a) d) parser
  = Some (mkArgument d (Store TInt) false (Some (VInt dflt))) ->
  args !! d = Some (given_int int_of_str name dflt argv).
Proof.
  intros Hp <- Hfind Hdest.
  pose proof (parse_args_lookup int_of_str parser argv args d Hp) as H.
  unfold given_int.
  destruct (last_occurrence ("--" ++ d) argv) as [raw | ].
  - destruct H as [v [Hv Hargs]]. unfold stored_value in Hv.
    rewrite Hfind in Hv. simpl in Hv.
    destruct raw as [r | ]; [ | discriminate].
    destruct (int_of_str r) as [z | ]; [ | discriminate].
    inversion Hv. subst v. exact Hargs.
  - rewrite H, Hdest. reflexivity.
Qed.

(** The flag. *)
Lemma parser_flag_attr (argv : list occurrence) (args : Namespace) :
  parse_args int_of_str parser argv = Ok args ->
  args !! "disable_ipex" = Some (given_flag "--disable_ipex" argv).
Proof.
  intros Hp.
  pose proof (parse_args_lookup int_of_str parser argv args "disable_ipex" Hp) as H.
  unfold given_flag.
  change ("--" ++ "disable_ipex") with "--disable_ipex" in H.
  destruct (last_occurrence "--disable_ipex" argv) as [raw | ].
  - destruct H as [v [Hv Hargs]].
    destruct raw as [r | ]; [discriminate | ].
    inversion Hv. subst v. exact Hargs.
  - exact H.
Qed.

(** C4: on a command line that parses and gives the use case, the master
    address and the master port, with a dataset, a model, a loss and an
    optimizer among the saved objects of the use case, the launcher
    builds the training arguments from the saved train subset (the whole
    dataset when none was saved), the model, the loss, the optimizer, the
    epochs (1 unless given), the batch size (128 unless given) and the
    IPEX flag, and launches one job with the given master address and
    port and the backend, ['ccl'] unless given. *)
Theorem launcher_launches_job
        (argv : list occurrence) (args : Namespace)
        (uc addr port : string) (objs : gmap string obj)
        (dataset model loss optimizer : obj) :
  parse_args int_of_str parser argv = Ok args ->
  last_occurrence "--use_case" argv = Some (Some uc) ->
  last_occurrence "--master_addr" argv = Some (Some addr) ->
  last_occurrence "--master_port" argv = Some (Some port) ->
  load_saved_objects (VStr uc) = Ok objs ->
  objs !! "dataset" = Some dataset ->
  objs !! "model" = Some model ->
  objs !! "loss" = Some loss ->
  objs !! "optimizer" = Some optimizer ->
  main obj int_of_str load_saved_objects argv =
  ([Print obj "******Distributed Training*****";
    LaunchDistributedJob obj (VStr uc)
      (mkTrainingArguments obj
         (default dataset (objs !! "train_subset")) model loss optimizer
         (given_int int_of_str "--epochs" 1 argv)
         (given_int int_of_str "--batch_size" 128 argv)
         (given_flag "--disable_ipex" argv))
      (VStr addr) (VStr port) (given_str "--backend" "ccl" argv)],
   Ok tt).
Proof.
  intros Hp Huc Haddr Hport Hload Hd Hm Hl Ho.
  assert (Euc : args !! "use_case" = Some (VStr uc)).
  { rewrite (parser_str_attr argv args "use_case" "--use_case" "" true None Hp
                             eq_refl eq_refl eq_refl)
      by (right; rewrite Huc; eauto).
    unfold given_str. rewrite Huc. reflexivity. }
  assert (Eaddr : args !! "master_addr" = Some (VStr addr)).
  { rewrite (parser_str_attr argv args "master_addr" "--master_addr" "" true None
                             Hp eq_refl eq_refl eq_refl)
      by (right; rewrite Haddr; eauto).
    unfold given_str. rewrite Haddr. reflexivity. }
  assert (Eport : args !! "master_port" = Some (VStr port)).
  { rewrite (parser_str_attr argv args "master_port" "--master_port" "29500" true
                             _ Hp eq_refl eq_refl eq_refl)
      by (left; reflexivity).
    unfold given_str. rewrite Hport. reflexivity. }
  pose proof (parser_str_attr argv args "backend" "--backend" "ccl" false _ Hp
                              eq_refl eq_refl eq_refl (or_introl eq_refl)) as Eback.
  pose proof (parser_int_attr argv args "epochs" "--epochs" 1 Hp
                              eq_refl eq_refl eq_refl) as Eep.
  pose proof (parser_int_attr argv args "batch_size" "--batch_size" 128 Hp
                              eq_refl eq_refl eq_refl) as Ebs.
  pose proof (parser_flag_attr argv args Hp) as Eipex.
  unfold main. rewrite Hp. unfold launch, attr, getitem, get_or.
  rewrite Euc. simpl. rewrite Hload. simpl.
  rewrite Hd, Hm, Hl, Ho. simpl.
  rewrite Eep, Ebs, Eipex. simpl.
  rewrite Eaddr, Eport, Eback. reflexivity.
Qed.
End LauncherFacts.

(** Closing an equation between closed terms by evaluation. *)
Ltac by_vm := match goal with |- ?a = ?b => exact (eq_refl b <: a = b) end.

Section LauncherRuns.
Import Py Argparse LauncherSpec RunTrainPyt Samples.

Lemma launcher_launches_job_witness :
  main string int_of_decimal load_saved command_line =
  ([Print string "******Distributed Training*****";
    LaunchDistributedJob string (VStr "image_classification")
      (mkTrainingArguments string "the dataset" "the model" "the loss"
                           "the optimizer" (VInt 3) (VInt 128) (VBool false))
      (VStr "10.0.0.1") (VStr "29500") (VStr "ccl")],
   Ok tt).
Proof.
  rewrite (launcher_launches_job string int_of_decimal load_saved command_line
             parsed_command_line
             "image_classification" "10.0.0.1" "29500" saved_without_subsets
             "the dataset" "the model" "the loss" "the optimizer");
    by_vm.
Defined.
End LauncherRuns.


(** ** Rounding to nearest even, as [binary_round_aux] does it *)

Section Rounding.
Import RoundingSpec.
Variable prec emax : Z.
Local Abbreviation rounded := (RoundingSpec.rounded prec emax).
Local Abbreviation packed := (RoundingSpec.packed prec emax).

Lemma digits2_pos_bounds (p : positive) :
  2 ^ (Z.pos (digits2_pos p) - 1) <= Z.pos p < 2 ^ Z.pos (digits2_pos p).
Proof.
  induction p as [p IH | p IH | ]; simpl digits2_pos.
  - rewrite Pos2Z.inj_succ.
    replace (Z.succ (Z.pos (digits2_pos p)) - 1) with (Z.succ (Z.pos (digits2_pos p) - 1)) by lia.
    rewrite !Z.pow_succ_r by lia. lia.
  - rewrite Pos2Z.inj_succ.
    replace (Z.succ (Z.pos (digits2_pos p)) - 1) with (Z.succ (Z.pos (digits2_pos p) - 1)) by lia.
    rewrite !Z.pow_succ_r by lia. lia.
  - simpl. lia.
Qed.

Lemma shr_1_nonneg (m : Z) (r s : bool) :
  0 <= m ->
  shr_1 (Build_shr_record m r s) = Build_shr_record (m / 2) (Z.odd m) (r || s).
Proof.
  intros Hm. destruct m as [ | [p | p | ] | p]; try lia; simpl shr_1.
  - reflexivity.
  - replace (Z.pos p~1 / 2) with (Z.pos p) by (rewrite Pos2Z.inj_xI; apply Z.div_unique with 1; lia).
    reflexivity.
  - replace (Z.pos p~0 / 2) with (Z.pos p) by (rewrite Pos2Z.inj_xO; apply Z.div_unique with 0; lia).
    reflexivity.
  - reflexivity.
Qed.

(** Iterating along a positive number keeps an invariant indexed by the
    number of steps taken. *)
Lemma iter_pos_invariant {A : Type} (f : A -> A) (P : Z -> A -> Prop) :
  (forall k x, 0 <= k -> P k x -> P (k + 1) (f x)) ->
  forall (p : positive) (k : Z) (x : A), 0 <= k -> P k x -> P (k + Z.pos p) (SpecFloat.iter_pos f p x).
Proof.
  intros Hstep. induction p as [p IH | p IH | ]; intros k x Hk Hx; simpl.
  - replace (k + Z.pos p~1) with ((k + 1 + Z.pos p) + Z.pos p) by lia.
    apply IH; [lia | ]. apply IH; [lia | ]. apply Hstep; assumption.
  - replace (k + Z.pos p~0) with ((k + Z.pos p) + Z.pos p) by lia.
    apply IH; [lia | ]. apply IH; assumption.
  - apply Hstep; assumption.
Qed.


Lemma shifted_step (M : Z) (k : Z) (mrs : shr_record) :
  0 <= M -> 0 <= k -> shifted M k mrs -> shifted M (k + 1) (shr_1 mrs).
Proof.
  intros HM Hk [Hm [Hr Hs]]. destruct mrs as [m r s]. cbn [shr_m shr_r shr_s] in Hm, Hr, Hs.
  assert (Hp : 0 < 2 ^ k) by (apply Z.pow_pos_nonneg; lia).
  assert (Hm0 : 0 <= m) by (subst m; apply Z.div_pos; lia).
  rewrite shr_1_nonneg by exact Hm0.
  unfold shifted. cbn [shr_m shr_r shr_s].
  rewrite Z.pow_add_r by lia. change (2 ^ 1) with 2.
  pose proof (Z.div_mod M (2 ^ k) ltac:(lia)) as HMk.
  pose proof (Z.mod_pos_bound M (2 ^ k) Hp) as Hrem.
  pose proof (Z.div_mod m 2 ltac:(lia)) as Hm2.
  pose proof (Z.mod_pos_bound m 2 ltac:(lia)) as Hb.
  assert (Hq : M / (2 ^ k * 2) = m / 2).
  { rewrite <- Z.div_div by lia. now rewrite <- Hm. }
  assert (Hrem' : M mod (2 ^ k * 2) = M mod 2 ^ k + (m mod 2) * 2 ^ k).
  { symmetry. apply Z.mod_unique with (m / 2); nia. }
  rewrite Hq, Hrem'.
  assert (Hodd : Z.odd m = true <-> m mod 2 = 1).
  { rewrite Zmod_odd. destruct (Z.odd m); split; intros; try reflexivity; try discriminate; lia. }
  assert (Hbit : m mod 2 = 0 \/ m mod 2 = 1) by lia.
  clear Hm2 HMk Hq Hrem'.
  set (X := 2 ^ k) in *. set (rem := M mod X) in *. set (b := m mod 2) in *.
  split; [reflexivity | ]. split.
  - rewrite Hodd. destruct Hbit as [E | E]; rewrite E; split; intros H; lia.
  - assert (Hrs : (r || s) = true <-> rem <> 0).
    { rewrite orb_true_iff. destruct r.
      - split; [intros _ | intros _; left; reflexivity].
        destruct Hr as [Hr _]. specialize (Hr eq_refl). lia.
      - split.
        + intros [H | H]; [discriminate | ]. apply Hs in H. lia.
        + intros H. right. apply Hs. lia. }
    rewrite Hrs. destruct (Z.odd m) eqn:Eo.
    + destruct Hodd as [Hodd _]. specialize (Hodd eq_refl). rewrite Hodd. lia.
    + destruct Hbit as [E | E]; [rewrite E; lia | ].
      apply Hodd in E. discriminate.
Qed.

Lemma shifted_start (M : Z) :
  shifted M 0 (Build_shr_record M false false).
Proof.
  unfold shifted. cbn [shr_m shr_r shr_s]. rewrite Z.pow_0_r, Z.div_1_r, Z.mod_1_r.
  repeat split; intros; try discriminate; try lia.
Qed.

Lemma shr_shifted (M : Z) (p : positive) :
  0 <= M ->
  shifted M (Z.pos p) (SpecFloat.iter_pos shr_1 p (Build_shr_record M false false)).
Proof.
  intros HM.
  apply (iter_pos_invariant shr_1 (shifted M) (fun k x Hk => shifted_step M k x HM Hk)
                            p 0 _ (Z.le_refl 0) (shifted_start M)).
Qed.

Lemma shr_fexp_noshift (M E : Z) :
  fexp prec emax (Zdigits2 M + E) <= E ->
  shr_fexp prec emax M E loc_Exact = (Build_shr_record M false false, E).
Proof.
  intros H. unfold shr_fexp, shr. simpl shr_record_of_loc.
  destruct (fexp prec emax (Zdigits2 M + E) - E) eqn:D; try reflexivity. lia.
Qed.

Lemma shr_fexp_shift (M E : Z) :
  0 <= M ->
  E < fexp prec emax (Zdigits2 M + E) ->
  exists mrs,
    shr_fexp prec emax M E loc_Exact = (mrs, fexp prec emax (Zdigits2 M + E))
    /\ shifted M (fexp prec emax (Zdigits2 M + E) - E) mrs.
Proof.
  intros HM H. unfold shr_fexp, shr. simpl shr_record_of_loc.
  destruct (fexp prec emax (Zdigits2 M + E) - E) as [ | p | p] eqn:D; try lia.
  exists (SpecFloat.iter_pos shr_1 p (Build_shr_record M false false)). split.
  - f_equal. lia.
  - apply shr_shifted. exact HM.
Qed.

(** Rounding to nearest after [p] shifts: off by at most half of [2^p]. *)
Lemma round_nearest_even_shifted (M p : Z) (mrs : shr_record) :
  0 <= M -> 0 < p -> shifted M p mrs ->
  let M1 := round_nearest_even (shr_m mrs) (loc_of_shr_record mrs) in
  M / 2 ^ p <= M1 <= M / 2 ^ p + 1
  /\ 2 * Z.abs (M1 * 2 ^ p - M) <= 2 ^ p.
Proof.
  intros HM Hp [Hm [Hr Hs]]. destruct mrs as [m r s].
  cbn [shr_m shr_r shr_s] in Hm, Hr, Hs. cbn [shr_m]. subst m.
  assert (HX : 0 < 2 ^ p) by (apply Z.pow_pos_nonneg; lia).
  pose proof (Z.div_mod M (2 ^ p) ltac:(lia)) as HMp.
  pose proof (Z.mod_pos_bound M (2 ^ p) HX) as Hrem.
  set (X := 2 ^ p) in *. set (q := M / X) in *. set (rem := M mod X) in *.
  destruct r, s; cbn [loc_of_shr_record round_nearest_even].
  - destruct Hr as [Hr _]. specialize (Hr eq_refl).
    split; [lia | ]. nia.
  - destruct Hr as [Hr _]. specialize (Hr eq_refl).
    assert (2 * rem = X).
    { destruct (Z.eq_dec (2 * rem) X) as [E | E]; [exact E | ].
      destruct Hs as [_ Hs]. specialize (Hs E). discriminate. }
    destruct (Z.even q); split; try lia; nia.
  - assert (2 * rem < X).
    { destruct (Z_lt_le_dec (2 * rem) X) as [L | L]; [exact L | ].
      destruct Hr as [_ Hr]. specialize (Hr L). discriminate. }
    split; [lia | ]. nia.
  - assert (rem = 0).
    { destruct (Z.eq_dec (2 * rem) 0) as [E | E]; [lia | ].
      destruct Hs as [_ Hs]. specialize (Hs E). discriminate. }
    split; [lia | ]. nia.
Qed.

Hypothesis prec_pos : 0 < prec.

Lemma Zdigits2_bounds (M : Z) :
  0 < M -> 0 < Zdigits2 M /\ 2 ^ (Zdigits2 M - 1) <= M < 2 ^ Zdigits2 M.
Proof.
  destruct M as [ | p | p]; try lia. intros _. simpl Zdigits2.
  split; [lia | apply digits2_pos_bounds].
Qed.

Lemma Zdigits2_unique (M k : Z) :
  2 ^ (k - 1) <= M < 2 ^ k -> 0 < M -> Zdigits2 M = k.
Proof.
  intros Hk HM. destruct (Zdigits2_bounds M HM) as [Hd Hb].
  assert (0 < k).
  { destruct (Z_lt_le_dec 0 k) as [L | L]; [exact L | ].
    assert (2 ^ k <= 2 ^ 0) by (destruct (Z.eq_dec k 0) as [-> | N];
      [lia | rewrite Z.pow_neg_r by lia; simpl; lia]).
    simpl in *. lia. }
  destruct (Z_lt_le_dec (Zdigits2 M) k) as [L | L].
  - assert (2 ^ Zdigits2 M <= 2 ^ (k - 1)) by (apply Z.pow_le_mono_r; lia). lia.
  - destruct (Z_lt_le_dec k (Zdigits2 M)) as [L' | L']; [ | lia].
    assert (2 ^ k <= 2 ^ (Zdigits2 M - 1)) by (apply Z.pow_le_mono_r; lia). lia.
Qed.

Lemma pow2_pos (k : Z) : 0 <= k -> 0 < 2 ^ k.
Proof. intros. apply Z.pow_pos_nonneg; lia. Qed.

Lemma pow2_succ (k : Z) : 0 <= k -> 2 ^ (k + 1) = 2 * 2 ^ k.
Proof. intros. rewrite Z.pow_add_r by lia. change (2 ^ 1) with 2. lia. Qed.

(** The second normalisation of [binary_round_aux]: it only ever drops
    the zero bit of a carry. *)
Lemma renormalise_exact (M1 e1 : Z) :
  0 <= M1 <= 2 ^ prec ->
  emin prec emax <= e1 ->
  (2 ^ (prec - 1) <= M1 \/ (e1 = emin prec emax /\ M1 <= 2 ^ (prec - 1))) ->
  exists mrs E2,
    shr_fexp prec emax M1 e1 loc_Exact = (mrs, E2)
    /\ shr_m mrs * 2 ^ (E2 - e1) = M1
    /\ 0 <= shr_m mrs < 2 ^ prec
    /\ e1 <= E2 <= e1 + 1
    /\ (2 ^ (prec - 1) <= shr_m mrs \/ E2 = emin prec emax).
Proof.
  intros HM1 He1 Hcase.
  assert (Hpp : 2 ^ prec = 2 * 2 ^ (prec - 1)).
  { replace prec with ((prec - 1) + 1) at 1 by lia. apply pow2_succ. lia. }
  assert (Hp1 : 0 < 2 ^ (prec - 1)) by (apply pow2_pos; lia).
  destruct (Z.eq_dec M1 (2 ^ prec)) as [Ecarry | Ncarry].
  - (* a carry: one more shift *)
    assert (Hd : Zdigits2 M1 = prec + 1).
    { apply Zdigits2_unique; [ | lia].
      replace (prec + 1 - 1) with prec by lia. rewrite pow2_succ by lia. lia. }
    assert (Hf : fexp prec emax (Zdigits2 M1 + e1) = e1 + 1).
    { rewrite Hd. unfold fexp. lia. }
    destruct (shr_fexp_shift M1 e1 ltac:(lia) ltac:(lia)) as [mrs [Hshr Hsh]].
    rewrite Hf in Hshr, Hsh. replace (e1 + 1 - e1) with 1 in Hsh by lia.
    destruct Hsh as [Hm _]. change (2 ^ 1) with 2 in Hm.
    assert (Hq : shr_m mrs = 2 ^ (prec - 1)).
    { rewrite Hm, Ecarry, Hpp. rewrite Z.mul_comm. apply Z.div_mul. lia. }
    exists mrs, (e1 + 1). split; [exact Hshr | ].
    replace (e1 + 1 - e1) with 1 by lia. change (2 ^ 1) with 2.
    rewrite Hq. repeat split; try lia.
  - (* no carry: nothing to shift *)
    assert (Hf : fexp prec emax (Zdigits2 M1 + e1) <= e1).
    { destruct (Z_lt_le_dec M1 (2 ^ (prec - 1))) as [Lsub | Lnorm].
      - destruct Hcase as [Hc | [Hc _]]; [lia | ].
        destruct (Z.eq_dec M1 0) as [-> | Npos].
        + simpl Zdigits2. unfold fexp, emin in *. lia.
        + destruct (Zdigits2_bounds M1 ltac:(lia)) as [Hd Hb].
          assert (Zdigits2 M1 <= prec - 1).
          { destruct (Z_lt_le_dec (prec - 1) (Zdigits2 M1)) as [L | L]; [ | lia].
            assert (2 ^ (prec - 1) <= 2 ^ (Zdigits2 M1 - 1))
              by (apply Z.pow_le_mono_r; lia). lia. }
          unfold fexp, emin in *. lia.
      - assert (Hd : Zdigits2 M1 = prec) by (apply Zdigits2_unique; lia).
        rewrite Hd. unfold fexp. lia. }
    rewrite (shr_fexp_noshift M1 e1 Hf).
    exists (Build_shr_record M1 false false), e1. split; [reflexivity | ].
    cbn [shr_m]. rewrite Z.sub_diag, Z.pow_0_r.
    repeat split; lia.
Qed.



Lemma binary_round_aux_rounded (sx : bool) (M E : Z) :
  0 < M ->
  exists M2 E2,
    rounded M E M2 E2
    /\ binary_round_aux prec emax sx M E loc_Exact = packed sx M2 E2.
Proof.
  intros HM. unfold binary_round_aux.
  destruct (Zdigits2_bounds M HM) as [Hd Hb].
  set (d := Zdigits2 M) in *.
  destruct (Z_lt_le_dec E (fexp prec emax (d + E))) as [Hshift | Hno].
  - (* the mantissa is shifted and rounded *)
    destruct (shr_fexp_shift M E ltac:(lia) Hshift) as [mrs [Hshr Hsh]].
    fold d in Hshr, Hsh. rewrite Hshr.
    set (e1 := fexp prec emax (d + E)) in *.
    set (p := e1 - E) in *.
    assert (Hp : 0 < p) by (unfold p; lia).
    destruct (round_nearest_even_shifted M p mrs ltac:(lia) Hp Hsh) as [Hq Herr].
    set (M1 := round_nearest_even (shr_m mrs) (loc_of_shr_record mrs)) in *.
    assert (HX : 0 < 2 ^ p) by (apply pow2_pos; lia).
    assert (Hpp : 2 ^ prec = 2 * 2 ^ (prec - 1)).
    { replace prec with ((prec - 1) + 1) at 1 by lia. apply pow2_succ. lia. }
    assert (Hp1 : 0 < 2 ^ (prec - 1)) by (apply pow2_pos; lia).
    assert (Hq0 : 0 <= M / 2 ^ p) by (apply Z.div_pos; lia).
    assert (He1 : emin prec emax <= e1) by (unfold e1, fexp; lia).
    assert (Hstage :
              M1 <= 2 ^ prec
              /\ (2 ^ (prec - 1) <= M1
                  \/ (e1 = emin prec emax /\ M1 <= 2 ^ (prec - 1)))).
    { destruct (Z_lt_le_dec (d + E - prec) (emin prec emax)) as [Hsub | Hnorm].
      - (* held at the smallest exponent *)
        assert (Ee1 : e1 = emin prec emax) by (unfold e1, fexp; lia).
        assert (Hlt : M / 2 ^ p < 2 ^ (prec - 1)).
        { apply Z.div_lt_upper_bound; [lia | ].
          rewrite <- Z.pow_add_r by lia.
          assert (2 ^ d <= 2 ^ (p + (prec - 1)))
            by (apply Z.pow_le_mono_r; unfold p; lia).
          lia. }
        split; [lia | right; split; [exact Ee1 | lia]].
      - (* a full mantissa *)
        assert (Ee1 : e1 = d + E - prec) by (unfold e1, fexp; lia).
        assert (Epd : d = p + prec) by (unfold p; lia).
        assert (Hlo : 2 ^ (prec - 1) <= M / 2 ^ p).
        { apply Z.div_le_lower_bound; [lia | ].
          rewrite <- Z.pow_add_r by lia.
          replace (p + (prec - 1)) with (d - 1) by lia. lia. }
        assert (Hhi : M / 2 ^ p < 2 ^ prec).
        { apply Z.div_lt_upper_bound; [lia | ].
          rewrite <- Z.pow_add_r by lia.
          replace (p + prec) with d by lia. lia. }
        split; [lia | left; lia]. }
    destruct Hstage as [HM1 Hcase].
    destruct (renormalise_exact M1 e1 ltac:(lia) He1 Hcase)
      as [mrs2 [E2 [Hshr2 [Hexact [Hm2 [HE2 Hcase2]]]]]].
    rewrite Hshr2.
    exists (shr_m mrs2), E2. split; [ | reflexivity].
    unfold RoundingSpec.rounded.
    assert (Hsplit : 2 ^ (E2 - E) = 2 ^ (E2 - e1) * 2 ^ p).
    { rewrite <- Z.pow_add_r by (unfold p; lia). f_equal. unfold p. lia. }
    assert (HY : 0 < 2 ^ (E2 - e1)) by (apply pow2_pos; lia).
    assert (HY1 : 1 <= 2 ^ (E2 - e1)) by lia.
    split; [lia | ]. split; [exact Hm2 | ].
    split.
    { rewrite Hsplit.
      replace (shr_m mrs2 * (2 ^ (E2 - e1) * 2 ^ p)) with (M1 * 2 ^ p)
        by (rewrite <- Hexact; ring).
      nia. }
    split; [right; exact Hcase2 | ].
    fold d. unfold e1, fexp in HE2. lia.
  - (* the mantissa fits as it is *)
    rewrite (shr_fexp_noshift M E Hno).
    cbn [shr_m loc_of_shr_record round_nearest_even].
    rewrite (shr_fexp_noshift M E Hno).
    exists M, E. split; [ | reflexivity].
    unfold RoundingSpec.rounded. rewrite Z.sub_diag, Z.pow_0_r.
    assert (Hdp : d <= prec) by (unfold fexp in Hno; lia).
    assert (2 ^ d <= 2 ^ prec) by (apply Z.pow_le_mono_r; lia).
    repeat split; try lia.
Qed.
End Rounding.

(** ** Binary64 arithmetic on percentages *)

Section Binary64.
Import Py PyFloat PyFloatSpec.

Lemma is_pct_nonneg (x : float) : is_pct x = true -> nonneg x.
Proof.
  unfold is_pct, valid, fle. intros H.
  apply andb_true_iff in H. destruct H as [H Hone].
  apply andb_true_iff in H. destruct H as [Hvalid Hzero].
  destruct x as [s | s | | s m e]; simpl; try exact I.
  - destruct s; discriminate.
  - discriminate.
  - destruct s; [discriminate | ].
    unfold valid_binary, bounded, canonical_mantissa in Hvalid.
    apply andb_true_iff in Hvalid. destruct Hvalid as [Hcanon _].
    apply Z.eqb_eq in Hcanon. unfold fexp, SpecFloat.emin, prec, emax in Hcanon.
    pose proof (digits2_pos_bounds m) as [_ Hb].
    assert (2 ^ Z.pos (digits2_pos m) <= 2 ^ 53) by (apply Z.pow_le_mono_r; lia).
    lia.
Qed.

(** A [nonneg] float that compares at most [1.0] is at most 1. *)
Lemma nonneg_le_one (x : float) :
  nonneg x -> fle x one = true -> scaled x <= 2 ^ 1074.
Proof.
  assert (HK : 0 < 2 ^ 1074) by (apply Z.pow_pos_nonneg; lia).
  destruct x as [s | s | | s m e]; cbn [nonneg scaled];
    try (intros; apply Z.lt_le_incl; exact HK).
  destruct s; [intros [] | ]. intros [He Hm].
  unfold fle, SFleb, one. cbn [SFcompare].
  destruct (Z.compare_spec e (-52)) as [Ee | Le | Ge].
  - subst e. intros Hc.
    assert (Hle : Z.pos m <= 2 ^ 52).
    { change (2 ^ 52) with (Z.pos 4503599627370496).
      apply Pos2Z.pos_le_pos. unfold Pos.le, Pos.compare.
      destruct (Pos.compare_cont Eq m 4503599627370496); congruence. }
    replace (2 ^ 1074) with (2 ^ 52 * 2 ^ (-52 + 1074))
      by (rewrite <- Z.pow_add_r; [reflexivity | lia | lia]).
    apply Z.mul_le_mono_nonneg_r; [apply Z.pow_nonneg; lia | exact Hle].
  - intros _.
    replace (2 ^ 1074) with (2 ^ 53 * 2 ^ 1021)
      by (rewrite <- Z.pow_add_r; [reflexivity | lia | lia]).
    apply Z.mul_le_mono_nonneg; [lia | lia | apply Z.pow_nonneg; lia | ].
    apply Z.pow_le_mono_r; lia.
  - discriminate.
Qed.

Lemma emin_binary64 : SpecFloat.emin prec emax = -1074.
Proof. reflexivity. Qed.

(** What rounding to binary64 keeps: exact, or a mantissa of 53 bits. *)
Lemma rounded_binary64 (M E M2 E2 : Z) :
  RoundingSpec.rounded prec emax M E M2 E2 ->
  E <= E2
  /\ 0 <= M2 < 2 ^ 53
  /\ 2 * Z.abs (M2 * 2 ^ (E2 - E) - M) <= 2 ^ (E2 - E)
  /\ ((E2 = E /\ M2 = M) \/ 2 ^ 52 <= M2 \/ E2 = -1074)
  /\ E2 <= Z.max (Z.max (Zdigits2 M + E - 52) (-1073)) E.
Proof.
  unfold RoundingSpec.rounded. rewrite emin_binary64. unfold prec.
  replace (53 - 1) with 52 by reflexivity.
  intros (H1 & H2 & H3 & H4 & H5). repeat split; try tauto; try lia.
Qed.

(** The rounded number is at least the exact one over [1 + 2^-53],
    provided the exact mantissa sits at an exponent of the format. *)
Lemma rounded_lower (M E M2 E2 : Z) :
  0 < M -> -1074 <= E ->
  RoundingSpec.rounded prec emax M E M2 E2 ->
  0 < M2 /\ -1074 <= E2
  /\ M * 2 ^ (E + 1074) * 2 ^ 53 <= M2 * 2 ^ (E2 + 1074) * (2 ^ 53 + 1).
Proof.
  intros HM HE HR. apply rounded_binary64 in HR.
  destruct HR as (Ht & HM2 & Herr & Hcase & _).
  assert (HX : 0 < 2 ^ (E2 - E)) by (apply Z.pow_pos_nonneg; lia).
  assert (HY : 0 < 2 ^ (E + 1074)) by (apply Z.pow_pos_nonneg; lia).
  assert (Hsplit : 2 ^ (E2 + 1074) = 2 ^ (E2 - E) * 2 ^ (E + 1074)).
  { rewrite <- Z.pow_add_r by lia. f_equal. lia. }
  rewrite Hsplit.
  set (X := 2 ^ (E2 - E)) in *. set (Y := 2 ^ (E + 1074)) in *.
  assert (Hval : 0 < M2 /\ M * 2 ^ 53 <= M2 * X * (2 ^ 53 + 1)).
  { destruct Hcase as [[He Hm] | [Hn | He]].
    - subst M2. assert (X = 1) by (unfold X; replace (E2 - E) with 0 by lia; reflexivity).
      split; [lia | nia].
    - split; [lia | ]. nia.
    - assert (E2 = E) by lia. assert (X = 1) by (unfold X; replace (E2 - E) with 0 by lia; reflexivity).
      assert (M2 = M) by lia. split; [lia | nia]. }
  destruct Hval as [Hpos Hval].
  split; [exact Hpos | ]. split; [lia | ].
  replace (M * Y * 2 ^ 53) with (M * 2 ^ 53 * Y) by ring.
  replace (M2 * (X * Y) * (2 ^ 53 + 1)) with (M2 * X * (2 ^ 53 + 1) * Y) by ring.
  apply Z.mul_le_mono_nonneg_r; lia.
Qed.

(** The rounded number is at most the exact one over [1 - 2^-53], unless
    it is held at the smallest exponent. *)
Lemma rounded_upper (M E M2 E2 : Z) :
  0 < M -> E2 <> -1074 ->
  RoundingSpec.rounded prec emax M E M2 E2 ->
  M2 * 2 ^ (E2 - E) * (2 ^ 53 - 1) <= 2 ^ 53 * M.
Proof.
  intros HM HE HR. apply rounded_binary64 in HR.
  destruct HR as (Ht & HM2 & Herr & Hcase & _).
  assert (HX : 0 < 2 ^ (E2 - E)) by (apply Z.pow_pos_nonneg; lia).
  set (X := 2 ^ (E2 - E)) in *.
  destruct Hcase as [[He Hm] | [Hn | He]]; [ | | contradiction].
  - subst M2. assert (X = 1) by (unfold X; replace (E2 - E) with 0 by lia; reflexivity). nia.
  - nia.
Qed.

Lemma pos_iter_xO (m d : positive) :
  Z.pos (Pos.iter xO m d) = Z.pos m * 2 ^ Z.pos d.
Proof.
  induction d as [ | d IH] using Pos.peano_ind.
  - simpl Pos.iter. rewrite Pos2Z.inj_xO. change (2 ^ 1) with 2. lia.
  - rewrite Pos.iter_succ, Pos2Z.inj_xO, IH, Pos2Z.inj_succ, Z.pow_succ_r by lia.
    ring.
Qed.

(** Aligning a mantissa to a smaller exponent keeps the number. *)
Lemma shl_align_spec (mx : positive) (ex ex' : Z) :
  snd (shl_align mx ex ex') = Z.min ex ex'
  /\ Z.pos (fst (shl_align mx ex ex'))
     = Z.pos mx * 2 ^ (ex - snd (shl_align mx ex ex')).
Proof.
  unfold shl_align. destruct (ex' - ex) as [ | d | d] eqn:D; cbn [fst snd].
  - split; [lia | ]. rewrite Z.sub_diag. change (2 ^ 0) with 1. lia.
  - split; [lia | ]. rewrite Z.sub_diag. change (2 ^ 0) with 1. lia.
  - split; [lia | ]. rewrite pos_iter_xO. f_equal. f_equal. lia.
Qed.

Lemma scaled_nonneg (x : float) : 0 <= scaled x.
Proof.
  destruct x as [s | s | | s m e]; cbn [scaled]; try lia.
  destruct s; [lia | ].
  destruct (Z_lt_le_dec (e + 1074) 0) as [L | L].
  - rewrite Z.pow_neg_r by lia. lia.
  - assert (0 < 2 ^ (e + 1074)) by (apply Z.pow_pos_nonneg; lia). lia.
Qed.

(** [binary_round] of a positive mantissa at an exponent of the format:
    the result is positive and at least the exact number over
    [1 + 2^-53]. *)
Lemma binary_round_lower (m : positive) (e : Z) :
  -1074 <= e ->
  exists M2 E2,
    binary_round prec emax false m e = RoundingSpec.packed prec emax false M2 E2
    /\ 0 < M2 < 2 ^ 53 /\ -1074 <= E2
    /\ Z.pos m * 2 ^ (e + 1074) * 2 ^ 53 <= M2 * 2 ^ (E2 + 1074) * (2 ^ 53 + 1).
Proof.
  intros He. unfold binary_round.
  pose proof (shl_align_spec m e (fexp prec emax (Z.pos (digits2_pos m) + e)))
    as [Hez Hmz].
  destruct (shl_align m e (fexp prec emax (Z.pos (digits2_pos m) + e)))
    as [mz ez]. cbn [fst snd] in Hez, Hmz.
  assert (Hez' : -1074 <= ez <= e).
  { rewrite Hez. unfold fexp. rewrite emin_binary64. lia. }
  destruct (binary_round_aux_rounded prec emax ltac:(reflexivity) false (Z.pos mz) ez
                                     ltac:(lia)) as [M2 [E2 [HR Heq]]].
  exists M2, E2. split; [exact Heq | ].
  pose proof (rounded_binary64 _ _ _ _ HR) as (_ & HM2 & _).
  destruct (rounded_lower (Z.pos mz) ez M2 E2 ltac:(lia) ltac:(lia) HR)
    as (Hpos & HE2 & Hval).
  split; [lia | ]. split; [exact HE2 | ].
  replace (Z.pos m * 2 ^ (e + 1074)) with (Z.pos mz * 2 ^ (ez + 1074)); [exact Hval | ].
  rewrite Hmz, <- Z.mul_assoc, <- Z.pow_add_r by lia. f_equal. f_equal. lia.
Qed.

(** Adding two non-negative floats: the sum overflows, or it is a
    non-negative float worth at least the exact sum over [1 + 2^-53]. *)
Lemma fadd_lower (a b : float) :
  nonneg a -> nonneg b ->
  fadd a b = S754_infinity false
  \/ (nonneg (fadd a b)
      /\ (scaled a + scaled b) * 2 ^ 53 <= scaled (fadd a b) * (2 ^ 53 + 1)).
Proof.
  intros Ha Hb.
  pose proof (scaled_nonneg a) as HA. pose proof (scaled_nonneg b) as HB.
  destruct a as [sa | sa | | sa ma ea]; try contradiction;
    destruct b as [sb | sb | | sb mb eb]; try contradiction.
  - right. destruct sa, sb; cbn [fadd SFadd nonneg scaled]; split; (exact I || lia).
  - right. destruct sb; [contradiction | ]. unfold fadd. cbn [SFadd].
    split; [exact Hb | ]. cbn [scaled] in *. lia.
  - right. destruct sa; [contradiction | ]. unfold fadd. cbn [SFadd].
    split; [exact Ha | ]. cbn [scaled] in *. lia.
  - destruct sa; [contradiction | ]. destruct sb; [contradiction | ].
    destruct Ha as [Hea Hma]. destruct Hb as [Heb Hmb].
    unfold fadd. cbn [SFadd cond_Zopp].
    pose proof (shl_align_spec ma ea (Z.min ea eb)) as [Hza Hva].
    pose proof (shl_align_spec mb eb (Z.min ea eb)) as [Hzb Hvb].
    rewrite Hza in Hva. rewrite Hzb in Hvb.
    replace (Z.min ea (Z.min ea eb)) with (Z.min ea eb) in Hva by lia.
    replace (Z.min eb (Z.min ea eb)) with (Z.min ea eb) in Hvb by lia.
    set (ez := Z.min ea eb) in *.
    set (ma' := fst (shl_align ma ea ez)) in *.
    set (mb' := fst (shl_align mb eb ez)) in *.
    rewrite <- Pos2Z.inj_add. cbn [binary_normalize].
    destruct (binary_round_lower (ma' + mb') ez ltac:(unfold ez; lia))
      as (M2 & E2 & Heq & HM2 & HE2 & Hval).
    rewrite Heq. unfold RoundingSpec.packed.
    destruct M2 as [ | m2 | m2]; try lia.
    destruct (E2 <=? emax - prec); [right | left; reflexivity].
    cbn [nonneg scaled]. split; [lia | ].
    replace (Z.pos ma * 2 ^ (ea + 1074) + Z.pos mb * 2 ^ (eb + 1074))
      with (Z.pos (ma' + mb') * 2 ^ (ez + 1074)); [exact Hval | ].
    rewrite Pos2Z.inj_add, Hva, Hvb, Z.mul_add_distr_r.
    rewrite <- !Z.mul_assoc, <- !Z.pow_add_r by (unfold ez; lia).
    f_equal; f_equal; f_equal; lia.
Qed.

(** A sum that passes the guard of [shuffle_split] is at most
    [(1 + 2^-53)^2]. *)
Lemma sum_guard (a b c : float) :
  nonneg a -> nonneg b -> nonneg c ->
  fle (fadd (fadd a b) c) one = true ->
  (scaled a + scaled b) * 2 ^ 106 <= 2 ^ 1074 * ((2 ^ 53 + 1) * (2 ^ 53 + 1)).
Proof.
  intros Ha Hb Hc Hle.
  destruct (fadd_lower a b Ha Hb) as [Hinf | [Hs1 Hb1]].
  { rewrite Hinf in Hle.
    destruct c as [sc | sc | | sc mc ec]; try contradiction; discriminate. }
  destruct (fadd_lower (fadd a b) c Hs1 Hc) as [Hinf | [Hr Hb2]].
  { rewrite Hinf in Hle. discriminate. }
  pose proof (nonneg_le_one _ Hr Hle) as HR.
  pose proof (scaled_nonneg c) as HC.
  pose proof (scaled_nonneg (fadd a b)) as HS1.
  pose proof (scaled_nonneg a) as HA. pose proof (scaled_nonneg b) as HB.
  assert (HK : 0 < 2 ^ 1074) by (apply Z.pow_pos_nonneg; lia).
  set (K := 2 ^ 1074) in *.
  set (A := scaled a) in *. set (B := scaled b) in *. set (C := scaled c) in *.
  set (S1 := scaled (fadd a b)) in *.
  set (R := scaled (fadd (fadd a b) c)) in *.
  replace (2 ^ 106) with (2 ^ 53 * 2 ^ 53) by reflexivity.
  assert (H1 : S1 * 2 ^ 53 <= K * (2 ^ 53 + 1)) by nia.
  assert (H2 : (A + B) * 2 ^ 53 * 2 ^ 53 <= S1 * 2 ^ 53 * (2 ^ 53 + 1)) by nia.
  assert (H3 : S1 * 2 ^ 53 * (2 ^ 53 + 1) <= K * (2 ^ 53 + 1) * (2 ^ 53 + 1)).
  { apply Z.mul_le_mono_nonneg_r; [lia | exact H1]. }
  lia.
Qed.

(** A mantissa that already fits is packed as it is. *)
Lemma binary_round_aux_fits (sx : bool) (M E : Z) :
  fexp prec emax (Zdigits2 M + E) <= E ->
  binary_round_aux prec emax sx M E loc_Exact = RoundingSpec.packed prec emax sx M E.
Proof.
  intros H. unfold binary_round_aux.
  rewrite (shr_fexp_noshift prec emax M E H).
  cbn [shr_m loc_of_shr_record round_nearest_even].
  rewrite (shr_fexp_noshift prec emax M E H). reflexivity.
Qed.

(** The length of a dataset as a float: exact below [2^53]. *)
Lemma of_int_exact (n : Z) :
  0 < n < 2 ^ 53 ->
  exists m e,
    of_int n = Ok (S754_finite false m e)
    /\ -52 <= e <= 0
    /\ Z.pos m = n * 2 ^ (- e)
    /\ Z.pos m < 2 ^ 53.
Proof.
  intros Hn. destruct n as [ | p | p]; try lia.
  unfold of_int. cbn [binary_normalize]. unfold binary_round.
  pose proof (digits2_pos_bounds p) as Hd.
  set (d := Z.pos (digits2_pos p)) in *.
  assert (Hd53 : 1 <= d <= 53).
  { split; [unfold d; lia | ].
    destruct (Z_lt_le_dec 53 d) as [L | L]; [ | lia].
    assert (2 ^ 53 <= 2 ^ (d - 1)) by (apply Z.pow_le_mono_r; lia). lia. }
  assert (Hf : fexp prec emax (d + 0) = d - 53).
  { unfold fexp. rewrite emin_binary64. unfold prec. lia. }
  rewrite Hf.
  pose proof (shl_align_spec p 0 (d - 53)) as [Hez Hmz].
  destruct (shl_align p 0 (d - 53)) as [mz ez]. cbn [fst snd] in Hez, Hmz.
  assert (Eez : ez = d - 53) by lia. clear Hez. subst ez.
  replace (0 - (d - 53)) with (53 - d) in Hmz by lia.
  assert (Hpw : 2 ^ 53 = 2 ^ d * 2 ^ (53 - d)).
  { rewrite <- Z.pow_add_r by lia. f_equal. lia. }
  assert (Hpw' : 2 ^ 52 = 2 ^ (d - 1) * 2 ^ (53 - d)).
  { rewrite <- Z.pow_add_r by lia. f_equal. lia. }
  assert (HX : 0 < 2 ^ (53 - d)) by (apply Z.pow_pos_nonneg; lia).
  assert (Hmz53 : 2 ^ 52 <= Z.pos mz < 2 ^ 53).
  { rewrite Hmz, Hpw, Hpw'. split.
    - apply Z.mul_le_mono_nonneg_r; lia.
    - apply Z.mul_lt_mono_pos_r; lia. }
  assert (Hdz : Zdigits2 (Z.pos mz) = 53).
  { apply Zdigits2_unique; [replace (53 - 1) with 52 by reflexivity; exact Hmz53 | lia]. }
  rewrite binary_round_aux_fits.
  2:{ rewrite Hdz. unfold fexp. rewrite emin_binary64. unfold prec. lia. }
  unfold RoundingSpec.packed.
  replace (d - 53 <=? emax - prec) with true
    by (symmetry; apply Z.leb_le; unfold emax, prec; lia).
  exists mz, (d - 53). split; [reflexivity | ].
  split; [lia | ]. split; [ | lia].
  rewrite Hmz. f_equal. f_equal. lia.
Qed.

(** Truncation never exceeds the number: [int()] of [M * 2^E], scaled up
    to an integer, is at most the scaled number. *)
Lemma shiftl_le (M E k : Z) :
  0 <= M -> 0 <= k -> 0 <= k + E ->
  0 <= Z.shiftl M E /\ Z.shiftl M E * 2 ^ k <= M * 2 ^ (k + E).
Proof.
  intros HM Hk HkE. destruct (Z_lt_le_dec E 0) as [L | L].
  - rewrite Z.shiftl_div_pow2 by lia.
    assert (HX : 0 < 2 ^ (- E)) by (apply Z.pow_pos_nonneg; lia).
    assert (HY : 0 < 2 ^ (k + E)) by (apply Z.pow_pos_nonneg; lia).
    assert (Hk' : 2 ^ k = 2 ^ (- E) * 2 ^ (k + E)).
    { rewrite <- Z.pow_add_r by lia. f_equal. lia. }
    rewrite Hk'.
    pose proof (Z.mul_div_le M (2 ^ (- E)) HX) as Hdiv.
    assert (0 <= M / 2 ^ (- E)) by (apply Z.div_pos; lia).
    split; [lia | ].
    rewrite Z.mul_assoc. apply Z.mul_le_mono_nonneg_r; lia.
  - rewrite Z.shiftl_mul_pow2 by lia.
    assert (HX : 0 < 2 ^ E) by (apply Z.pow_pos_nonneg; lia).
    split; [lia | ].
    rewrite Z.pow_add_r by lia. lia.
Qed.

(** [int(x * n)] for a float [x] of at most 1 and a length [n] below
    [2^53]: it converts, and it is at most [x * n] over [1 - 2^-53]. *)
Lemma int_of_product_upper (a : float) (n : Z) :
  nonneg a -> scaled a <= 2 ^ 1074 -> 0 <= n < 2 ^ 53 ->
  exists ts,
    TFDatasetSpec.int_of_product a n = Ok ts
    /\ 0 <= ts
    /\ ts * (2 ^ 53 - 1) * 2 ^ 1074 <= 2 ^ 53 * scaled a * n.
Proof.
  intros Ha HA Hn. unfold TFDatasetSpec.int_of_product, mul_int.
  pose proof (scaled_nonneg a) as HA0.
  destruct (Z.eq_dec n 0) as [-> | Hn0].
  { exists 0. replace (of_int 0) with (Ok (S754_zero false) : result float)
      by reflexivity.
    cbn [rbind]. unfold fmul.
    destruct a as [s | s | | s m e]; try contradiction;
      [ | destruct s; [contradiction | ]]; cbn [SFmul to_int];
      (split; [reflexivity | lia]). }
  destruct (of_int_exact n ltac:(lia)) as (mz & ez & Hof & Hez & Hmz & Hmz53).
  rewrite Hof. cbn [rbind]. unfold fmul.
  destruct a as [s | s | | s ma ea]; try contradiction.
  { exists 0. cbn [SFmul to_int scaled]. split; [reflexivity | lia]. }
  destruct s; [contradiction | ]. destruct Ha as [Hea Hma].
  cbn [scaled] in HA, HA0 |- *. cbn [SFmul xorb].
  assert (Hea0 : ea <= 0).
  { destruct (Z_lt_le_dec 0 ea) as [L | L]; [ | exact L].
    assert (2 ^ 1075 <= 2 ^ (ea + 1074)) by (apply Z.pow_le_mono_r; lia).
    assert (2 ^ 1075 = 2 * 2 ^ 1074)
      by (replace 1075 with (1074 + 1) by reflexivity; apply pow2_succ; lia).
    assert (0 < 2 ^ 1074) by (apply Z.pow_pos_nonneg; lia).
    nia. }
  destruct (binary_round_aux_rounded prec emax ltac:(reflexivity) false
              (Z.pos (ma * mz)) (ea + ez) ltac:(lia)) as [M2 [E2 [HR Heq]]].
  rewrite Heq.
  pose proof (rounded_binary64 _ _ _ _ HR) as (Ht & HM2 & _ & _ & HE2).
  destruct (Zdigits2_bounds (Z.pos (ma * mz)) ltac:(lia)) as [HD0 HD].
  set (D := Zdigits2 (Z.pos (ma * mz))) in *.
  rewrite Pos2Z.inj_mul in HD.
  assert (HD106 : D <= 106).
  { destruct (Z_lt_le_dec 106 D) as [L | L]; [ | exact L].
    assert (2 ^ 106 <= 2 ^ (D - 1)) by (apply Z.pow_le_mono_r; lia).
    replace (2 ^ 106) with (2 ^ 53 * 2 ^ 53) in * by reflexivity.
    nia. }
  unfold RoundingSpec.packed.
  destruct M2 as [ | m2 | m2]; [ | | lia].
  { exists 0. cbn [to_int]. split; [reflexivity | ].
    assert (0 < 2 ^ (ea + 1074)) by (apply Z.pow_pos_nonneg; lia). nia. }
  replace (E2 <=? emax - prec) with true
    by (symmetry; apply Z.leb_le; unfold emax, prec; lia).
  cbn [to_int cond_Zopp].
  exists (Z.shiftl (Z.pos m2) E2). split; [reflexivity | ].
  destruct (shiftl_le (Z.pos m2) E2 (- (ea + ez)) ltac:(lia) ltac:(lia) ltac:(lia))
    as [Hts0 Hts].
  split; [exact Hts0 | ].
  set (ts := Z.shiftl (Z.pos m2) E2) in *.
  destruct (Z.eq_dec E2 (-1074)) as [Emin | Nmin].
  { (* too small to reach 1 *)
    assert (ts = 0).
    { unfold ts. rewrite Emin, Z.shiftl_div_pow2 by lia.
      apply Z.div_small. split; [lia | ].
      assert (2 ^ 53 <= 2 ^ (- -1074)) by (apply Z.pow_le_mono_r; lia). lia. }
    assert (0 < 2 ^ (ea + 1074)) by (apply Z.pow_pos_nonneg; lia). nia. }
  pose proof (rounded_upper (Z.pos (ma * mz)) (ea + ez) (Z.pos m2) E2
                            ltac:(lia) Nmin HR) as Hup.
  rewrite Pos2Z.inj_mul, Hmz in Hup.
  replace (- (ea + ez) + E2) with (E2 - (ea + ez)) in Hts by lia.
  assert (Hsplit : 2 ^ (- (ea + ez)) = 2 ^ (- ea) * 2 ^ (- ez)).
  { rewrite <- Z.pow_add_r by lia. f_equal. lia. }
  rewrite Hsplit in Hts.
  assert (HK : 2 ^ 1074 = 2 ^ (- ea) * 2 ^ (ea + 1074)).
  { rewrite <- Z.pow_add_r by lia. f_equal. lia. }
  rewrite HK.
  assert (HX : 0 < 2 ^ (- ea)) by (apply Z.pow_pos_nonneg; lia).
  assert (HY : 0 < 2 ^ (- ez)) by (apply Z.pow_pos_nonneg; lia).
  assert (HZ : 0 < 2 ^ (ea + 1074)) by (apply Z.pow_pos_nonneg; lia).
  set (X := 2 ^ (- ea)) in *. set (Y := 2 ^ (- ez)) in *.
  set (Zp := 2 ^ (ea + 1074)) in *. set (T := 2 ^ (E2 - (ea + ez))) in *.
  assert (H1 : ts * X * Y * (2 ^ 53 - 1) <= 2 ^ 53 * (Z.pos ma * (n * Y))).
  { apply Z.le_trans with (Z.pos m2 * T * (2 ^ 53 - 1)); [ | exact Hup].
    apply Z.mul_le_mono_nonneg_r; lia. }
  assert (H2 : ts * X * (2 ^ 53 - 1) <= 2 ^ 53 * Z.pos ma * n).
  { apply Z.mul_le_mono_pos_r with Y; [exact HY | ].
    replace (ts * X * (2 ^ 53 - 1) * Y) with (ts * X * Y * (2 ^ 53 - 1)) by ring.
    replace (2 ^ 53 * Z.pos ma * n * Y) with (2 ^ 53 * (Z.pos ma * (n * Y))) by ring.
    exact H1. }
  replace (ts * (2 ^ 53 - 1) * (X * Zp)) with (ts * X * (2 ^ 53 - 1) * Zp) by ring.
  replace (2 ^ 53 * (Z.pos ma * Zp) * n) with (2 ^ 53 * Z.pos ma * n * Zp) by ring.
  apply Z.mul_le_mono_nonneg_r; lia.
Qed.

Lemma is_pct_le_one (x : float) : is_pct x = true -> fle x one = true.
Proof.
  unfold is_pct. intros H. apply andb_true_iff in H. tauto.
Qed.

(** Percentages that pass the guard cut a dataset of at most [2^51]
    elements into sizes that fit in it. *)
Lemma split_sizes_fit (tp vp sp : float) (n : Z) :
  is_pct tp = true -> is_pct vp = true -> is_pct sp = true ->
  fle (fadd (fadd tp vp) sp) one = true ->
  0 <= n <= 2 ^ 51 ->
  exists ts vs,
    TFDatasetSpec.int_of_product tp n = Ok ts
    /\ TFDatasetSpec.int_of_product vp n = Ok vs
    /\ 0 <= ts /\ 0 <= vs /\ ts + vs <= n.
Proof.
  intros Htp Hvp Hsp Hsum Hn.
  pose proof (is_pct_nonneg _ Htp) as Nt. pose proof (is_pct_nonneg _ Hvp) as Nv.
  pose proof (is_pct_nonneg _ Hsp) as Ns.
  pose proof (nonneg_le_one _ Nt (is_pct_le_one _ Htp)) as Lt.
  pose proof (nonneg_le_one _ Nv (is_pct_le_one _ Hvp)) as Lv.
  destruct (int_of_product_upper tp n Nt Lt ltac:(lia)) as (ts & Hts & Hts0 & Bt).
  destruct (int_of_product_upper vp n Nv Lv ltac:(lia)) as (vs & Hvs & Hvs0 & Bv).
  pose proof (sum_guard tp vp sp Nt Nv Ns Hsum) as Bs.
  exists ts, vs. repeat split; try assumption.
  pose proof (scaled_nonneg tp) as HA. pose proof (scaled_nonneg vp) as HB.
  assert (HK : 0 < 2 ^ 1074) by (apply Z.pow_pos_nonneg; lia).
  set (K := 2 ^ 1074) in *. set (A := scaled tp) in *. set (B := scaled vp) in *.
  replace (2 ^ 106) with (2 ^ 53 * 2 ^ 53) in Bs by reflexivity.
  assert (H1 : (ts + vs) * (2 ^ 53 - 1) * K <= 2 ^ 53 * (A + B) * n) by lia.
  assert (H2 : 2 ^ 53 * n * ((A + B) * (2 ^ 53 * 2 ^ 53))
               <= 2 ^ 53 * n * (K * ((2 ^ 53 + 1) * (2 ^ 53 + 1)))).
  { apply Z.mul_le_mono_nonneg_l; [lia | exact Bs]. }
  assert (H3 : K * ((ts + vs) * (2 ^ 53 - 1) * (2 ^ 53 * 2 ^ 53))
               <= K * (2 ^ 53 * n * ((2 ^ 53 + 1) * (2 ^ 53 + 1)))).
  { apply Z.le_trans with (2 ^ 53 * n * ((A + B) * (2 ^ 53 * 2 ^ 53))).
    - replace (K * ((ts + vs) * (2 ^ 53 - 1) * (2 ^ 53 * 2 ^ 53)))
        with ((ts + vs) * (2 ^ 53 - 1) * K * (2 ^ 53 * 2 ^ 53)) by ring.
      replace (2 ^ 53 * n * ((A + B) * (2 ^ 53 * 2 ^ 53)))
        with (2 ^ 53 * (A + B) * n * (2 ^ 53 * 2 ^ 53)) by ring.
      apply Z.mul_le_mono_nonneg_r; [lia | exact H1].
    - replace (K * (2 ^ 53 * n * ((2 ^ 53 + 1) * (2 ^ 53 + 1))))
        with (2 ^ 53 * n * (K * ((2 ^ 53 + 1) * (2 ^ 53 + 1)))) by ring.
      exact H2. }
  apply Z.mul_le_mono_pos_l in H3; [ | exact HK].
  lia.
Qed.
End Binary64.

(** ** [TFDataset.get_batch] and [TFDataset.shuffle_split] *)

Section TFDatasetFacts.
Import Py PyFloat PyFloatSpec TFDataset TFDatasetSpec.
Context {A : Type}.
Variable shuffle : Z -> option Z -> TfData.Dataset A -> option (TfData.Dataset A).

Lemma get_batch_named (subset : string) (self : t A) :
  get_batch subset self =
  match named subset self with
  | Some ds => TfData.first ds
  | None => Raise (ValueError no_batch_msg)
  end.
Proof.
  unfold get_batch, named.
  destruct (String.eqb subset "all") eqn:Eall.
  - apply String.eqb_eq in Eall. subst subset. simpl.
    destruct (_dataset self); reflexivity.
  - destruct (String.eqb subset "train") eqn:Etrain.
    + apply String.eqb_eq in Etrain. subst subset. simpl.
      destruct (_train_subset self); reflexivity.
    + destruct (String.eqb subset "validation") eqn:Eval.
      * apply String.eqb_eq in Eval. subst subset. simpl.
        destruct (_validation_subset self); reflexivity.
      * destruct (String.eqb subset "test") eqn:Etest.
        -- destruct (_test_subset self); reflexivity.
        -- reflexivity.
Qed.

(** The framework refuses a count, or slices. *)
Lemma take_raises (count : Z) (ds : TfData.Dataset A) (e : exn) :
  TfData.take count ds = Raise e -> e = FrameworkError.
Proof.
  unfold TfData.take. destruct (TfData.in_int64 count); intros H; now inversion H.
Qed.

Lemma skip_raises (count : Z) (ds : TfData.Dataset A) (e : exn) :
  TfData.skip count ds = Raise e -> e = FrameworkError.
Proof.
  unfold TfData.skip. destruct (TfData.in_int64 count); intros H; now inversion H.
Qed.

Lemma skip_take_raises (ts vs : Z) (ds : TfData.Dataset A) (e : exn) :
  skip_take ts vs ds = Raise e -> e = FrameworkError.
Proof.
  unfold skip_take. destruct (TfData.skip ts ds) as [rest | e'] eqn:E; simpl.
  - apply take_raises.
  - intros H. inversion H. subst. eapply skip_raises. exact E.
Qed.

(** The run of [shuffle_split] once both guards are passed, statement
    by statement. *)
Lemma shuffle_split_floats (tp vp sp : float) (seed : option Z) (self : t A) :
  fgt (fadd (fadd tp vp) sp) one = false ->
  shuffle_split shuffle (PyFloat tp) (PyFloat vp) (PyFloat sp) seed self =
  match _dataset self with
  | None => (Raise TypeError, self)
  | Some ds =>
    let n := TfData.cardinality ds in
    match shuffle n seed ds with
    | None => (Raise FrameworkError, self)
    | Some _ =>
      match int_of_product tp n with
      | Raise e => (Raise e, self)
      | Ok ts =>
        match int_of_product vp n with
        | Raise e => (Raise e, self)
        | Ok vs =>
          match TfData.take ts ds with
          | Raise e => (Raise e, self)
          | Ok tr =>
            match skip_take ts vs ds with
            | Raise e => (Raise e, set_train_subset (Some tr) self)
            | Ok va =>
              if truthy sp then
                match TfData.skip (ts + vs) ds with
                | Raise e =>
                  (Raise e, set_validation_subset
                              (Some va) (set_train_subset (Some tr) self))
                | Ok te =>
                  (Ok tt, mk (Some ds) (Some tr) (Some va) (Some te)
                             (Some "shuffle_split"))
                end
              else
                (Ok tt, mk (Some ds) (Some tr) (Some va) None
                           (Some "shuffle_split"))
            end
          end
        end
      end
    end
  end.
Proof.
  intros Hsum. unfold shuffle_split. rewrite Hsum.
  unfold bind, get, lift, modify, len_dataset, int_of_product, skip_take,
    shuffle_dropped.
  destruct self as [d tr0 va0 te0 ty0]; simpl.
  destruct d as [ds | ]; [ | reflexivity]. simpl.
  destruct (shuffle (TfData.cardinality ds) seed ds) as [shuffled | ];
    [ | reflexivity].
  destruct (rbind (mul_int tp (TfData.cardinality ds)) to_int) as [ts | e];
    [ | reflexivity].
  destruct (rbind (mul_int vp (TfData.cardinality ds)) to_int) as [vs | e];
    [ | reflexivity].
  destruct (TfData.take ts ds) as [tr | e]; [ | reflexivity].
  destruct (TfData.skip ts ds) as [rest | e]; [ | reflexivity]. simpl.
  destruct (TfData.take vs rest) as [va | e]; [ | reflexivity].
  destruct (truthy sp); [ | reflexivity].
  destruct (TfData.skip (ts + vs) ds) as [te | e]; reflexivity.
Qed.

Lemma shuffle_split_not_floats (tp vp sp : pyval) (seed : option Z) (self : t A) :
  all_floats tp vp sp = false ->
  shuffle_split shuffle tp vp sp seed self = (Raise (ValueError not_floats_msg), self).
Proof.
  unfold all_floats, shuffle_split.
  destruct tp, vp, sp; simpl; intros H; try reflexivity; discriminate.
Qed.

Lemma shuffle_split_sum_gt_one (tp vp sp : float) (seed : option Z) (self : t A) :
  fgt (fadd (fadd tp vp) sp) one = true ->
  shuffle_split shuffle (PyFloat tp) (PyFloat vp) (PyFloat sp) seed self =
  (Raise (ValueError sum_msg), self).
Proof. intros H. unfold shuffle_split. rewrite H. reflexivity. Qed.

Lemma all_floats_inv (tp vp sp : pyval) :
  all_floats tp vp sp = true ->
  exists x y z, tp = PyFloat x /\ vp = PyFloat y /\ sp = PyFloat z.
Proof.
  unfold all_floats.
  destruct tp as [ | | | fx | ], vp as [ | | | fy | ], sp as [ | | | fz | ];
    simpl; intros H; try discriminate.
  exists fx, fy, fz. repeat split.
Qed.

Lemma int_of_product_ValueError (x : float) (n : Z) :
  (exists msg, int_of_product x n = Raise (ValueError msg))
  <-> is_nan_product x n = true.
Proof.
  unfold int_of_product, is_nan_product, mul_int.
  destruct (of_int n) as [nf | e] eqn:En; simpl.
  - destruct (fmul x nf) as [s | s | | s m e]; simpl; split;
      try (intros [msg H]; discriminate); try discriminate; eauto.
  - unfold of_int in En.
    destruct (binary_normalize prec emax n 0 false); try discriminate.
    inversion En; subst. split; [intros [msg H]; discriminate | discriminate].
Qed.

Lemma int_of_product_raises (x : float) (n : Z) (e : exn) :
  int_of_product x n = Raise e -> e <> FrameworkError.
Proof.
  unfold int_of_product, mul_int, of_int.
  destruct (binary_normalize prec emax n 0 false) as [s | s | | s m ex]; simpl;
    try (destruct (fmul x _) as [s' | s' | | s' m' e']; simpl);
    intros H; inversion H; discriminate.
Qed.

(** C2: on a dataset of length n, with float percentages whose sum is at
    most 1.0, after [shuffle_split] returns [train_subset] is
    [take(train_size)] with [train_size = int(train_pct * n)],
    [validation_subset] is [skip(train_size).take(val_size)] with
    [val_size = int(val_pct * n)], [test_subset] is
    [skip(train_size + val_size)] when [test_pct] is nonzero and [None]
    when [test_pct == 0.0], whatever it was before, and
    [_validation_type] is ['shuffle_split']. *)
Theorem shuffle_split_subsets
        (self self' : t A) (ds : TfData.Dataset A) (tp vp sp : float)
        (seed : option Z) :
  _dataset self = Some ds ->
  fle (fadd (fadd tp vp) sp) one = true ->
  shuffle_split shuffle (PyFloat tp) (PyFloat vp) (PyFloat sp) seed self
  = (Ok tt, self') ->
  exists train_size val_size tr va,
    int_of_product tp (TfData.cardinality ds) = Ok train_size
    /\ int_of_product vp (TfData.cardinality ds) = Ok val_size
    /\ TfData.take train_size ds = Ok tr
    /\ skip_take train_size val_size ds = Ok va
    /\ _train_subset self' = Some tr
    /\ _validation_subset self' = Some va
    /\ (if SFeqb sp zero then _test_subset self' = None
        else exists te,
            TfData.skip (train_size + val_size) ds = Ok te
            /\ _test_subset self' = Some te)
    /\ _validation_type self' = Some "shuffle_split".
Proof.
  intros Hds Hsum.
  rewrite shuffle_split_floats by (apply fle_not_fgt; exact Hsum).
  rewrite Hds. cbv zeta. rewrite truthy_neq_zero.
  destruct (shuffle (TfData.cardinality ds) seed ds) as [shuffled | ];
    [ | discriminate].
  destruct (int_of_product tp (TfData.cardinality ds)) as [ts | e];
    [ | discriminate].
  destruct (int_of_product vp (TfData.cardinality ds)) as [vs | e];
    [ | discriminate].
  destruct (TfData.take ts ds) as [tr | e] eqn:Etr; [ | discriminate].
  destruct (skip_take ts vs ds) as [va | e] eqn:Eva; [ | discriminate].
  destruct (SFeqb sp zero); cbn [negb].
  - intros H. inversion H. subst self'.
    exists ts, vs, tr, va. repeat split; assumption.
  - destruct (TfData.skip (ts + vs) ds) as [te | e] eqn:Ete; [ | discriminate].
    intros H. inversion H. subst self'.
    exists ts, vs, tr, va. repeat split; try assumption.
    exists te. split; [exact Ete | reflexivity].
Qed.

(** C8, as amended: leaving aside what the framework itself raises,
    [shuffle_split] raises [ValueError] if and only if the three
    percentages are not all floats, or their sum is greater than 1.0, or,
    on a defined dataset, [int()] meets a NaN product
    ([train_pct * length] is NaN, or it converts and [val_pct * length]
    is NaN); and whenever it raises anything but a refusal of the
    framework, the dataset, the three subsets and [_validation_type]
    keep their prior values. *)
Theorem shuffle_split_raises
        (tp vp sp : pyval) (seed : option Z) (self : t A) :
  (raises_ValueError (shuffle_split shuffle tp vp sp seed self)
   <-> (all_floats tp vp sp = false
        \/ sum_gt_one tp vp sp = true
        \/ nan_product shuffle tp vp seed self = true))
  /\ (forall e, fst (shuffle_split shuffle tp vp sp seed self) = Raise e ->
                e <> FrameworkError ->
                snd (shuffle_split shuffle tp vp sp seed self) = self).
Proof.
  unfold raises_ValueError.
  destruct (all_floats tp vp sp) eqn:Hf.
  2:{ rewrite shuffle_split_not_floats by assumption. simpl.
      split; [ | reflexivity]. split; eauto. }
  destruct (all_floats_inv _ _ _ Hf) as (x & y & z & -> & -> & ->).
  unfold sum_gt_one, nan_product.
  destruct (fgt (fadd (fadd x y) z) one) eqn:Hs.
  { rewrite shuffle_split_sum_gt_one by assumption. simpl.
    split; [ | reflexivity]. split; eauto. }
  rewrite shuffle_split_floats by assumption.
  destruct (_dataset self) as [ds | ] eqn:Hds; cbv zeta.
  2:{ split; [ | reflexivity].
      split; [intros [msg H]; discriminate | ].
      intros [H | [H | H]]; discriminate. }
  destruct (shuffle (TfData.cardinality ds) seed ds) as [shuffled | ].
  2:{ split; [ | reflexivity].
      split; [intros [msg H]; discriminate | ].
      intros [H | [H | H]]; discriminate. }
  pose proof (int_of_product_ValueError x (TfData.cardinality ds)) as Hx.
  pose proof (int_of_product_ValueError y (TfData.cardinality ds)) as Hy.
  destruct (int_of_product x (TfData.cardinality ds)) as [ts | et] eqn:Ets.
  - destruct (is_nan_product x (TfData.cardinality ds)) eqn:Nx.
    { destruct Hx as [_ Hx]. destruct (Hx eq_refl) as [msg H]. discriminate. }
    destruct (int_of_product y (TfData.cardinality ds)) as [vs | ev] eqn:Evs.
    + assert (Ny : is_nan_product y (TfData.cardinality ds) = false).
      { destruct (is_nan_product y (TfData.cardinality ds)); [ | reflexivity].
        destruct Hy as [_ Hy]. destruct (Hy eq_refl) as [msg H]. discriminate. }
      rewrite Ny.
      assert (Hnone : forall (out : result unit * t A),
                 (forall e, fst out = Raise e -> e = FrameworkError) ->
                 ((exists msg, fst out = Raise (ValueError msg))
                  <-> (true = false \/ false = true \/ false || true && false = true))
                 /\ (forall e, fst out = Raise e -> e <> FrameworkError ->
                               snd out = self)).
      { intros out Hout. split.
        - split.
          + intros [msg H]. apply Hout in H. discriminate.
          + intros [H | [H | H]]; discriminate.
        - intros e H Hne. apply Hout in H. contradiction. }
      apply Hnone.
      destruct (TfData.take ts ds) as [tr | e] eqn:Etr; cbn [fst].
      { destruct (skip_take ts vs ds) as [va | e] eqn:Eva; cbn [fst].
        - destruct (truthy z); cbn [fst]; [ | intros e H; discriminate].
          destruct (TfData.skip (ts + vs) ds) as [te | e] eqn:Ete; cbn [fst].
          + intros e H. discriminate.
          + intros e' H. inversion H. subst e'. eapply skip_raises. exact Ete.
        - intros e' H. inversion H. subst e'. eapply skip_take_raises. exact Eva. }
      intros e' H. inversion H. subst e'. eapply take_raises. exact Etr.
    + cbn [fst snd]. split; [ | reflexivity].
      split.
      * intros [msg H]. right. right. apply Hy. exists msg. congruence.
      * intros [H | [H | H]]; try discriminate.
        destruct Hy as [_ Hy]. destruct (Hy H) as [msg H'].
        exists msg. congruence.
  - cbn [fst snd]. split; [ | reflexivity].
    split.
    + intros [msg H]. right. right.
      destruct Hx as [Hx _]. rewrite Hx; [reflexivity | ].
      exists msg. congruence.
    + intros [H | [H | H]]; try discriminate.
      apply orb_true_iff in H. destruct H as [H | H]; [ | discriminate].
      destruct Hx as [_ Hx]. destruct (Hx H) as [msg H'].
      exists msg. congruence.
Qed.

(** C10, as amended: [get_batch(subset)] returns the first batch of
    the whole dataset when [subset == 'all'], or of the subset that
    ['train'], ['validation'] or ['test'] names, when that one is
    defined and not empty; it raises [StopIteration] when it is defined
    and empty; it raises [ValueError] in every other case, so when the
    named one is [None] and when the string is none of the four; an
    undefined dataset or subset is never read. *)
Theorem get_batch_cases (subset : string) (self : t A) :
  match named subset self with
  | Some (b :: _) => get_batch subset self = Ok b
  | Some [] => get_batch subset self = Raise StopIteration
  | None => get_batch subset self = Raise (ValueError no_batch_msg)
  end.
Proof.
  rewrite get_batch_named.
  destruct (named subset self) as [[ | b rest] | ]; reflexivity.
Qed.

(** Below [2^31] the iterator's 32-bit count is the count. *)
Lemma int32_of_small (z : Z) :
  0 <= z < 2 ^ 31 -> TfData.int32_of z = z.
Proof.
  intros H. assert (H31 : 2 ^ 31 = 2147483648) by reflexivity.
  unfold TfData.int32_of. rewrite Z.mod_small by lia. lia.
Qed.

(** What [skip] drops for a count below [2^31]. *)
Lemma skip_small (count : Z) (ds : TfData.Dataset A) :
  0 <= count < 2 ^ 31 -> TfData.skip count ds = Ok (skipn (Z.to_nat count) ds).
Proof.
  intros H. assert (H31 : 2 ^ 31 = 2147483648) by reflexivity.
  unfold TfData.skip, TfData.in_int64.
  replace (-9223372036854775808 <=? count) with true
    by (symmetry; apply Z.leb_le; lia).
  replace (count <=? 9223372036854775807) with true
    by (symmetry; apply Z.leb_le; lia).
  replace (count <? 0) with false by (symmetry; apply Z.ltb_ge; lia).
  rewrite int32_of_small by exact H. reflexivity.
Qed.

(** What [take] keeps for a count that is not negative and fits. *)
Lemma take_small (count : Z) (ds : TfData.Dataset A) :
  0 <= count < 2 ^ 31 -> TfData.take count ds = Ok (firstn (Z.to_nat count) ds).
Proof.
  intros H. assert (H31 : 2 ^ 31 = 2147483648) by reflexivity.
  unfold TfData.take, TfData.in_int64.
  replace (-9223372036854775808 <=? count) with true
    by (symmetry; apply Z.leb_le; lia).
  replace (count <=? 9223372036854775807) with true
    by (symmetry; apply Z.leb_le; lia).
  replace (count <? 0) with false by (symmetry; apply Z.ltb_ge; lia).
  reflexivity.
Qed.

(** Three slices with sizes that fit, below [2^31], make the sequence
    again. *)
Lemma slices_partition (ds : TfData.Dataset A) (ts vs : Z) :
  0 <= ts -> 0 <= vs -> ts + vs <= TfData.cardinality ds ->
  ts + vs < 2 ^ 31 ->
  exists tr va te,
    TfData.take ts ds = Ok tr
    /\ skip_take ts vs ds = Ok va
    /\ TfData.skip (ts + vs) ds = Ok te
    /\ (tr ++ va ++ te)%list = ds
    /\ Z.of_nat (length tr) = ts
    /\ Z.of_nat (length va) = vs
    /\ Z.of_nat (length te) = TfData.cardinality ds - ts - vs.
Proof.
  intros Hts Hvs Hfit Hn. unfold skip_take.
  rewrite (take_small ts), (skip_small ts), (skip_small (ts + vs)) by lia.
  cbn [rbind]. rewrite (take_small vs) by lia.
  unfold TfData.cardinality in *.
  eexists _, _, _.
  split; [reflexivity | ]. split; [reflexivity | ]. split; [reflexivity | ].
  replace (Z.to_nat (ts + vs)) with (Z.to_nat vs + Z.to_nat ts)%nat by lia.
  rewrite <- List.skipn_skipn.
  rewrite !List.length_firstn, !List.length_skipn.
  split; [ | lia].
  rewrite (List.firstn_skipn (Z.to_nat vs) (skipn (Z.to_nat ts) ds)).
  apply List.firstn_skipn.
Qed.

Lemma fgt_zero_truthy (x : float) : fgt x zero = true -> truthy x = true.
Proof. destruct x as [s | s | | s m e]; try reflexivity. discriminate. Qed.

(** C3, as amended: on a dataset of n < 2^31 elements that the
    framework shuffles, with percentages that are floats between 0 and
    1, [test_pct > 0] and a sum of at most 1.0, [shuffle_split] returns
    and its three subsets partition the dataset it sliced: train,
    validation and test one after the other are that dataset, each
    element once, with sizes [int(train_pct * n)], [int(val_pct * n)]
    and [n - int(train_pct * n) - int(val_pct * n)]. *)
Theorem shuffle_split_partition
        (self : t A) (ds : TfData.Dataset A) (tp vp sp : float) (seed : option Z) :
  _dataset self = Some ds ->
  is_Some (shuffle (TfData.cardinality ds) seed ds) ->
  is_pct tp = true -> is_pct vp = true -> is_pct sp = true ->
  fgt sp zero = true ->
  fle (fadd (fadd tp vp) sp) one = true ->
  TfData.cardinality ds < 2 ^ 31 ->
  partitions shuffle tp vp sp seed self ds.
Proof.
  intros Hds [shuffled Hsh] Htp Hvp Hsp Hpos Hsum Hn.
  assert (Hn0 : 0 <= TfData.cardinality ds) by (unfold TfData.cardinality; lia).
  assert (H31 : 2 ^ 31 = 2147483648) by reflexivity.
  assert (H51 : 2 ^ 51 = 2251799813685248) by reflexivity.
  destruct (split_sizes_fit tp vp sp (TfData.cardinality ds) Htp Hvp Hsp Hsum
                            ltac:(lia)) as (ts & vs & Hts & Hvs & Hts0 & Hvs0 & Hfit).
  destruct (slices_partition ds ts vs Hts0 Hvs0 Hfit ltac:(lia))
    as (tr & va & te & Htr & Hva & Hte & Hcat & Ltr & Lva & Lte).
  unfold partitions.
  rewrite shuffle_split_floats by (apply fle_not_fgt; exact Hsum).
  rewrite Hds. cbv zeta.
  rewrite Hsh, Hts, Hvs, Htr, Hva, (fgt_zero_truthy sp Hpos), Hte.
  exists (mk (Some ds) (Some tr) (Some va) (Some te) (Some "shuffle_split")),
    tr, va, te, ts, vs.
  repeat split; assumption.
Qed.
End TFDatasetFacts.

Section TFDatasetRuns.
Import Py PyFloat PyFloatSpec TFDataset TFDatasetSpec Samples.

(** The seed and the order the shuffle makes never reach the outcome:
    two shuffles that both return leave the same split. *)
Lemma shuffle_split_shuffle_irrelevant {A : Type}
      (shuffle shuffle' : Z -> option Z -> TfData.Dataset A -> option (TfData.Dataset A))
      (tp vp sp : pyval) (seed seed' : option Z) (self : t A) :
  (forall ds, _dataset self = Some ds ->
              is_Some (shuffle (TfData.cardinality ds) seed ds)
              /\ is_Some (shuffle' (TfData.cardinality ds) seed' ds)) ->
  shuffle_split shuffle tp vp sp seed self =
  shuffle_split shuffle' tp vp sp seed' self.
Proof.
  intros Hsh. destruct (all_floats tp vp sp) eqn:Hf.
  - destruct (all_floats_inv _ _ _ Hf) as (x & y & z & -> & -> & ->).
    destruct (fgt (fadd (fadd x y) z) one) eqn:Hs.
    + rewrite !shuffle_split_sum_gt_one by assumption. reflexivity.
    + rewrite !shuffle_split_floats by assumption.
      destruct (_dataset self) as [ds | ]; [ | reflexivity]. cbv zeta.
      destruct (Hsh ds eq_refl) as [[s1 ->] [s2 ->]]. reflexivity.
  - rewrite !shuffle_split_not_floats by assumption. reflexivity.
Qed.

(** C1: with a shuffle that reverses, [shuffle_split(.5, .5, 0.)] on
    the batches 1, 2, 3, 4 leaves [train_subset = [1, 2]] and
    [validation_subset = [3, 4]], the slices of the dataset in its
    original order; the slices of the shuffled dataset are [[4, 3]] and
    [[2, 1]]. *)
Theorem shuffle_split_slices_original_order :
  let out := shuffle_split reversing (PyFloat half) (PyFloat half)
                           (PyFloat zero) (Some 10) four in
  fst out = Ok tt
  /\ _train_subset (snd out) = Some [1; 2]
  /\ _validation_subset (snd out) = Some [3; 4]
  /\ reversing 4 (Some 10) [1; 2; 3; 4] = Some [4; 3; 2; 1]
  /\ TfData.take 2 [4; 3; 2; 1] = Ok [4; 3]
  /\ skip_take 2 2 [4; 3; 2; 1] = Ok [2; 1]
  /\ ~ split_of_shuffled reversing (Some 10) [1; 2; 3; 4] 2 2 (snd out).
Proof.
  cbv zeta. repeat (split; [reflexivity | ]).
  intros (shuffled & tr & va & Hsh & Htr & _ & Htrain & _).
  vm_compute in Hsh. inversion Hsh. subst shuffled.
  vm_compute in Htr. inversion Htr. subst tr.
  vm_compute in Htrain. discriminate.
Qed.

Lemma shuffle_split_subsets_witness :
  exists train_size val_size tr va,
    int_of_product half (TfData.cardinality [1; 2; 3; 4]) = Ok train_size
    /\ int_of_product quarter (TfData.cardinality [1; 2; 3; 4]) = Ok val_size
    /\ TfData.take train_size [1; 2; 3; 4] = Ok tr
    /\ skip_take train_size val_size [1; 2; 3; 4] = Ok va
    /\ _train_subset (mk (Some [1; 2; 3; 4]) (Some [1; 2]) (Some [3]) (Some [4])
                         (Some "shuffle_split")) = Some tr
    /\ _validation_subset (mk (Some [1; 2; 3; 4]) (Some [1; 2]) (Some [3])
                              (Some [4]) (Some "shuffle_split")) = Some va
    /\ (if SFeqb quarter zero
        then _test_subset (mk (Some [1; 2; 3; 4]) (Some [1; 2]) (Some [3])
                              (Some [4]) (Some "shuffle_split")) = None
        else exists te,
            TfData.skip (train_size + val_size) [1; 2; 3; 4] = Ok te
            /\ _test_subset (mk (Some [1; 2; 3; 4]) (Some [1; 2]) (Some [3])
                                (Some [4]) (Some "shuffle_split")) = Some te)
    /\ _validation_type (mk (Some [1; 2; 3; 4]) (Some [1; 2]) (Some [3])
                            (Some [4]) (Some "shuffle_split"))
       = Some "shuffle_split".
Proof.
  apply (shuffle_split_subsets reversing four _ [1; 2; 3; 4] half quarter quarter
                               None); reflexivity.
Defined.

(** C8 as stated fails: with [train_pct] NaN the three percentages are
    floats and their sum is not greater than 1.0, yet [int()] raises
    [ValueError]. *)
Lemma shuffle_split_ValueError_on_nan :
  fst (shuffle_split reversing (PyFloat S754_nan) (PyFloat quarter)
                     (PyFloat zero) None four)
  = Raise (ValueError "cannot convert float NaN to integer")
  /\ ~ ValueError_iff_guards reversing (PyFloat S754_nan) (PyFloat quarter)
       (PyFloat zero) None four.
Proof.
  split; [reflexivity | ].
  unfold ValueError_iff_guards. intros [H _].
  assert (Hr : raises_ValueError
                 (shuffle_split reversing (PyFloat S754_nan) (PyFloat quarter)
                                (PyFloat zero) None four)).
  { eexists. vm_compute. reflexivity. }
  destruct (H Hr) as [H' | H']; vm_compute in H'; discriminate.
Qed.

(** C10 as stated fails: a train subset that is defined and empty
    yields neither a batch nor [ValueError]. *)
Lemma get_batch_empty_subset :
  get_batch "train" four_empty_train = Raise StopIteration
  /\ ~ first_batch_or_ValueError "train" four_empty_train.
Proof.
  split; [reflexivity | ].
  unfold first_batch_or_ValueError. simpl. intros [b [H _]].
  vm_compute in H. discriminate.
Qed.

Lemma shuffle_split_partition_witness :
  partitions reversing half quarter quarter None four [1; 2; 3; 4].
Proof.
  apply (shuffle_split_partition reversing four [1; 2; 3; 4] half quarter quarter
                                 None); try reflexivity.
  exists [4; 3; 2; 1]. reflexivity.
Defined.

Lemma huge_cardinality : TfData.cardinality huge = 9007199254740992.
Proof.
  unfold TfData.cardinality, huge. rewrite List.repeat_length.
  apply Z2Nat.id. lia.
Qed.

(** The sizes alone go wrong on [2^53] elements: [0.5000000000000001],
    [0.5] and [5e-324] are percentages with a sum of exactly 1.0, yet the
    train and validation sizes, [2^52 + 1] and [2^52], add up to one more
    than there are elements. *)
Lemma shuffle_split_sizes_overshoot :
  is_pct just_over_half = true /\ is_pct half = true /\ is_pct tiny = true
  /\ fgt tiny zero = true
  /\ fle (fadd (fadd just_over_half half) tiny) one = true
  /\ int_of_product just_over_half 9007199254740992 = Ok 4503599627370497
  /\ int_of_product half 9007199254740992 = Ok 4503599627370496
  /\ ~ partitions reversing just_over_half half tiny None huge_dataset huge.
Proof.
  assert (Hts : int_of_product just_over_half 9007199254740992
                = Ok 4503599627370497) by (vm_compute; reflexivity).
  assert (Hvs : int_of_product half 9007199254740992
                = Ok 4503599627370496) by (vm_compute; reflexivity).
  repeat (split; [vm_compute; reflexivity | ]).
  unfold partitions. rewrite huge_cardinality.
  intros (self' & tr & va & te & ts & vs & _ & _ & _ & _ & Ets & Evs & _ & _ & _ & Hte).
  rewrite Hts in Ets. rewrite Hvs in Evs.
  inversion Ets. inversion Evs. subst ts vs. lia.
Qed.
Lemma many_cardinality : TfData.cardinality many = 2147483648.
Proof.
  unfold TfData.cardinality, many. rewrite List.repeat_length.
  apply Z2Nat.id. lia.
Qed.

(** What [skip] drops for a count that is not negative. *)
Lemma skip_nonneg {A : Type} (count : Z) (ds : TfData.Dataset A) :
  0 <= count <= 9223372036854775807 ->
  TfData.skip count ds = Ok (skipn (Z.to_nat (TfData.int32_of count)) ds).
Proof.
  intros H. unfold TfData.skip, TfData.in_int64.
  replace (-9223372036854775808 <=? count) with true
    by (symmetry; apply Z.leb_le; lia).
  replace (count <=? 9223372036854775807) with true
    by (symmetry; apply Z.leb_le; lia).
  replace (count <? 0) with false by (symmetry; apply Z.ltb_ge; lia).
  reflexivity.
Qed.

(** [skip(2^31)] drops nothing. *)
Lemma skip_wraps_many : TfData.skip (2147483648 + 0) many = Ok many.
Proof.
  rewrite skip_nonneg by lia.
  replace (TfData.int32_of (2147483648 + 0)) with (-2147483648) by reflexivity.
  change (Z.to_nat (-2147483648)) with 0%nat.
  rewrite List.skipn_O. reflexivity.
Qed.

(** What [partitions] says of the test subset, when there is one. *)
Lemma partitions_test_size {A : Type}
      (shuffle : Z -> option Z -> TfData.Dataset A -> option (TfData.Dataset A))
      (tp vp sp : float) (seed : option Z) (self : t A) (ds : TfData.Dataset A) :
  _dataset self = Some ds ->
  truthy sp = true ->
  partitions shuffle tp vp sp seed self ds ->
  exists ts vs te,
    int_of_product tp (TfData.cardinality ds) = Ok ts
    /\ int_of_product vp (TfData.cardinality ds) = Ok vs
    /\ TfData.skip (ts + vs) ds = Ok te
    /\ TfData.cardinality te = TfData.cardinality ds - ts - vs.
Proof.
  intros Hds Hsp
    (self' & tr & va & te & ts & vs & Hrun & _ & _ & Hte & Ets & Evs & _ & _ & _ & Lte).
  exists ts, vs, te. split; [exact Ets | ]. split; [exact Evs | ].
  split; [ | exact Lte].
  destruct (fgt (fadd (fadd tp vp) sp) one) eqn:Hsum.
  { rewrite shuffle_split_sum_gt_one in Hrun by exact Hsum. discriminate. }
  rewrite shuffle_split_floats in Hrun by exact Hsum.
  rewrite Hds in Hrun. cbv zeta in Hrun.
  destruct (shuffle _ seed ds); [ | discriminate].
  rewrite Ets, Evs in Hrun.
  destruct (TfData.take ts ds); [ | discriminate].
  destruct (skip_take ts vs ds); [ | discriminate].
  rewrite Hsp in Hrun.
  destruct (TfData.skip (ts + vs) ds) as [te' | ]; [ | discriminate].
  inversion Hrun; subst self'. cbn [_test_subset] in Hte.
  inversion Hte. reflexivity.
Qed.

(** C3 as stated fails from [2^31] elements on: [1.0], [0.0] and
    [5e-324] are percentages with a sum of exactly 1.0 and
    [test_pct > 0]; the train subset is the whole dataset, and the test
    subset, [skip(2^31)], is the whole dataset once more, where the
    claim leaves no element for it. *)
Lemma shuffle_split_skip_wraps :
  is_pct one = true /\ is_pct zero = true /\ is_pct tiny = true
  /\ fgt tiny zero = true
  /\ fle (fadd (fadd one zero) tiny) one = true
  /\ TfData.cardinality many = 2147483648
  /\ int_of_product one 2147483648 = Ok 2147483648
  /\ int_of_product zero 2147483648 = Ok 0
  /\ TfData.skip (2147483648 + 0) many = Ok many
  /\ ~ partitions reversing one zero tiny None many_dataset many.
Proof.
  assert (Hts : int_of_product one 2147483648 = Ok 2147483648)
    by (vm_compute; reflexivity).
  assert (Hvs : int_of_product zero 2147483648 = Ok 0)
    by (vm_compute; reflexivity).
  do 5 (split; [vm_compute; reflexivity | ]).
  split; [exact many_cardinality | ].
  split; [exact Hts | ]. split; [exact Hvs | ].
  split; [exact skip_wraps_many | ].
  intros Hpart.
  destruct (partitions_test_size reversing one zero tiny None many_dataset many
              eq_refl eq_refl Hpart) as (ts & vs & te & Ets & Evs & Hsk & Lte).
  rewrite many_cardinality in Ets, Evs, Lte.
  rewrite Hts in Ets. rewrite Hvs in Evs.
  inversion Ets. inversion Evs. subst ts vs.
  rewrite skip_wraps_many in Hsk.
  apply (f_equal (fun r => match r with
                            | Ok x => TfData.cardinality x
                            | Raise _ => 0
                            end)) in Hsk.
  cbv beta iota in Hsk. rewrite many_cardinality in Hsk. lia.
Qed.
End TFDatasetRuns.

(** ** More on [TFDataset] *)

Section Dyadic.
Import Py PyFloat PyFloatSpec.

(** A float [p * 2^(ea + j)] times a length [n]: when [p * n] has at
    most 52 bits the product is exact, so [int()] of it is the floor of
    [p * n * 2^(ea + j)]. *)
Lemma int_of_product_dyadic (ma : positive) (ea p j n : Z) :
  0 <= j -> Z.pos ma = p * 2 ^ j -> -1073 <= ea -> ea + j <= 0 ->
  0 < n -> p * n < 2 ^ 52 ->
  TFDatasetSpec.int_of_product (S754_finite false ma ea) n
  = Ok (Z.shiftl (p * n) (ea + j)).
Proof.
  intros Hj Hma Hea Heaj Hn HP.
  assert (HJ : 0 < 2 ^ j) by (apply Z.pow_pos_nonneg; lia).
  assert (Hp : 0 < p) by nia.
  assert (Hn53 : n < 2 ^ 53).
  { assert (2 ^ 53 = 2 * 2 ^ 52) by reflexivity. nia. }
  unfold TFDatasetSpec.int_of_product, mul_int.
  destruct (of_int_exact n ltac:(lia)) as (mz & ez & Hof & Hez & Hmz & Hmz53).
  rewrite Hof. cbn [rbind]. unfold fmul. cbn [SFmul xorb].
  destruct (binary_round_aux_rounded prec emax ltac:(reflexivity) false
              (Z.pos (ma * mz)) (ea + ez) ltac:(lia)) as [M2 [E2 [HR Heq]]].
  rewrite Heq.
  pose proof (rounded_binary64 _ _ _ _ HR) as (Ht & HM2 & Herr & _ & HE2).
  destruct (Zdigits2_bounds (Z.pos (ma * mz)) ltac:(lia)) as [HD0 HD].
  set (D := Zdigits2 (Z.pos (ma * mz))) in *.
  rewrite Pos2Z.inj_mul, Hma, Hmz in HD, Herr.
  set (K := j - ez).
  assert (HK : 2 ^ K = 2 ^ j * 2 ^ (- ez)).
  { unfold K. rewrite <- Z.pow_add_r by lia. reflexivity. }
  assert (HM : p * 2 ^ j * (n * 2 ^ (- ez)) = p * n * 2 ^ K)
    by (rewrite HK; ring).
  rewrite HM in HD, Herr. clear HM.
  assert (HDK : D <= 52 + K).
  { destruct (Z_lt_le_dec (52 + K) D) as [L | L]; [ | exact L].
    assert (2 ^ (52 + K) <= 2 ^ (D - 1)) by (apply Z.pow_le_mono_r; lia).
    assert (2 ^ (52 + K) = 2 ^ 52 * 2 ^ K)
      by (apply Z.pow_add_r; unfold K; lia).
    assert (HK0 : 0 < 2 ^ K) by (apply Z.pow_pos_nonneg; unfold K; lia).
    assert (p * n * 2 ^ K < 2 ^ 52 * 2 ^ K)
      by (apply Z.mul_lt_mono_pos_r; [exact HK0 | exact HP]).
    lia. }
  set (t := E2 - (ea + ez)) in *.
  assert (Ht' : 0 <= t <= K) by (unfold t, K; lia).
  assert (HKt : 2 ^ K = 2 ^ (K - t) * 2 ^ t).
  { rewrite <- Z.pow_add_r by lia. f_equal. lia. }
  assert (HT : 0 < 2 ^ t) by (apply Z.pow_pos_nonneg; lia).
  assert (HQ : 0 < 2 ^ (K - t)) by (apply Z.pow_pos_nonneg; lia).
  assert (HM2Q : M2 = p * n * 2 ^ (K - t)).
  { rewrite HKt in Herr.
    set (T := 2 ^ t) in *. set (Q := p * n * 2 ^ (K - t)).
    replace (p * n * (2 ^ (K - t) * T)) with (Q * T) in Herr by (unfold Q; ring).
    destruct (Z.eq_dec M2 Q) as [e | ne]; [exact e | exfalso].
    assert (T <= Z.abs (M2 * T - Q * T)).
    { replace (M2 * T - Q * T) with ((M2 - Q) * T) by ring.
      rewrite Z.abs_mul, (Z.abs_eq T) by lia.
      assert (H1 : 1 <= Z.abs (M2 - Q)) by lia.
      rewrite <- (Z.mul_1_l T) at 1.
      apply Z.mul_le_mono_nonneg_r; [lia | exact H1]. }
    lia. }
  assert (HM2pos : 0 < M2).
  { rewrite HM2Q. apply Z.mul_pos_pos; [apply Z.mul_pos_pos; lia | exact HQ]. }
  unfold RoundingSpec.packed.
  destruct M2 as [ | m2 | m2]; [lia | | lia].
  replace (E2 <=? emax - prec) with true
    by (symmetry; apply Z.leb_le; unfold emax, prec; lia).
  cbn [to_int cond_Zopp]. f_equal.
  rewrite HM2Q, <- Z.shiftl_mul_pow2 by lia.
  rewrite Z.shiftl_shiftl by lia.
  f_equal. unfold K, t. lia.
Qed.
End Dyadic.

Section TFDatasetMore.
Import Py PyFloat PyFloatSpec TFDataset TFDatasetSpec.
Context {A : Type}.
Variable shuffle : Z -> option Z -> TfData.Dataset A -> option (TfData.Dataset A).

(** X1: on a freshly constructed [TFDataset] no subset is defined:
    [get_batch] raises [ValueError] for every [subset] but ['all'], and
    for ['all'] it reads the dataset [BaseDataset.__init__] left, if
    any. *)
Theorem get_batch_after_init (base : t A) (subset : string) :
  get_batch subset (init base) =
  if String.eqb subset "all"
  then match _dataset base with
       | Some ds => TfData.first ds
       | None => Raise (ValueError no_batch_msg)
       end
  else Raise (ValueError no_batch_msg).
Proof.
  rewrite get_batch_named. unfold named, init.
  destruct (String.eqb subset "all"); [reflexivity | ].
  cbn [_train_subset _validation_subset _test_subset set_test_subset
       set_validation_subset set_train_subset].
  repeat match goal with |- context [String.eqb ?a ?b] =>
    destruct (String.eqb a b) end; reflexivity.
Qed.

(** Whatever [shuffle_split] does, it does not assign [_dataset]. *)
Lemma shuffle_split_dataset (tp vp sp : pyval) (seed : option Z) (self : t A) :
  _dataset (snd (shuffle_split shuffle tp vp sp seed self)) = _dataset self.
Proof.
  destruct (all_floats tp vp sp) eqn:Hfl.
  2:{ rewrite shuffle_split_not_floats by assumption. reflexivity. }
  destruct (all_floats_inv _ _ _ Hfl) as (x & y & z & -> & -> & ->).
  destruct (fgt (fadd (fadd x y) z) one) eqn:Hsum.
  { rewrite shuffle_split_sum_gt_one by assumption. reflexivity. }
  rewrite shuffle_split_floats by assumption.
  destruct (_dataset self) as [ds | ] eqn:Hds; [ | exact Hds].
  cbv zeta.
  destruct (shuffle _ seed ds); [ | exact Hds].
  destruct (int_of_product x _); [ | exact Hds].
  destruct (int_of_product y _); [ | exact Hds].
  destruct (TfData.take _ ds); [ | exact Hds].
  destruct (skip_take _ _ ds); [ | exact Hds].
  destruct (truthy z); [ | reflexivity].
  destruct (TfData.skip _ ds); [reflexivity | exact Hds].
Qed.

(** X2: [shuffle_split] never changes [_dataset], whether it returns or
    raises, so [get_batch('all')] gives the same batch after it as
    before it. *)
Theorem shuffle_split_keeps_dataset
        (tp vp sp : pyval) (seed : option Z) (self : t A) :
  _dataset (snd (shuffle_split shuffle tp vp sp seed self)) = _dataset self
  /\ get_batch "all" (snd (shuffle_split shuffle tp vp sp seed self))
     = get_batch "all" self.
Proof.
  split; [apply shuffle_split_dataset | ].
  rewrite !get_batch_named. unfold named. cbn [String.eqb Ascii.eqb Bool.eqb].
  rewrite shuffle_split_dataset. reflexivity.
Qed.

(** A run that returns went through float percentages and passed the
    sum guard. *)
Lemma shuffle_split_Ok_inv (tp vp sp : pyval) (seed : option Z) (self self' : t A) :
  shuffle_split shuffle tp vp sp seed self = (Ok tt, self') ->
  exists x y z,
    tp = PyFloat x /\ vp = PyFloat y /\ sp = PyFloat z
    /\ fgt (fadd (fadd x y) z) one = false.
Proof.
  intros Hrun.
  destruct (all_floats tp vp sp) eqn:Hfl.
  2:{ rewrite shuffle_split_not_floats in Hrun by assumption. discriminate. }
  destruct (all_floats_inv _ _ _ Hfl) as (x & y & z & -> & -> & ->).
  exists x, y, z. repeat split.
  destruct (fgt (fadd (fadd x y) z) one) eqn:Hsum; [ | reflexivity].
  rewrite shuffle_split_sum_gt_one in Hrun by assumption. discriminate.
Qed.

(** A run that returns, read backwards. *)
Lemma shuffle_split_returns_inv
      (x y z : float) (seed : option Z) (self self' : t A) :
  shuffle_split shuffle (PyFloat x) (PyFloat y) (PyFloat z) seed self
  = (Ok tt, self') ->
  exists ds ts vs tr va,
    _dataset self = Some ds
    /\ int_of_product x (TfData.cardinality ds) = Ok ts
    /\ int_of_product y (TfData.cardinality ds) = Ok vs
    /\ TfData.take ts ds = Ok tr
    /\ skip_take ts vs ds = Ok va
    /\ (if truthy z
        then exists te, TfData.skip (ts + vs) ds = Ok te
                        /\ self' = mk (Some ds) (Some tr) (Some va) (Some te)
                                      (Some "shuffle_split")
        else self' = mk (Some ds) (Some tr) (Some va) None
                        (Some "shuffle_split")).
Proof.
  intros Hrun.
  destruct (shuffle_split_Ok_inv _ _ _ _ _ _ Hrun)
    as (x' & y' & z' & Hx & Hy & Hz & Hsum).
  inversion Hx; inversion Hy; inversion Hz; subst x' y' z'.
  rewrite shuffle_split_floats in Hrun by assumption.
  destruct (_dataset self) as [ds | ]; [ | discriminate].
  cbv zeta in Hrun.
  destruct (shuffle _ seed ds); [ | discriminate].
  destruct (int_of_product x _) as [ts | ] eqn:Hts; [ | discriminate].
  destruct (int_of_product y _) as [vs | ] eqn:Hvs; [ | discriminate].
  destruct (TfData.take ts ds) as [tr | ] eqn:Htr; [ | discriminate].
  destruct (skip_take ts vs ds) as [va | ] eqn:Hva; [ | discriminate].
  exists ds, ts, vs, tr, va. repeat (split; [assumption || reflexivity | ]).
  destruct (truthy z).
  - destruct (TfData.skip (ts + vs) ds) as [te | ] eqn:Hte; [ | discriminate].
    exists te. split; [reflexivity | ]. now inversion Hrun.
  - now inversion Hrun.
Qed.

(** X3: a [shuffle_split] that returns overwrites whatever split the
    object held: the state it leaves depends on the object only through
    [_dataset], and repeating the call with the same arguments changes
    nothing. *)
Theorem shuffle_split_overwrites
        (tp vp sp : pyval) (seed : option Z) (self other : t A) :
  fst (shuffle_split shuffle tp vp sp seed self) = Ok tt ->
  (_dataset other = _dataset self ->
   shuffle_split shuffle tp vp sp seed other
   = shuffle_split shuffle tp vp sp seed self)
  /\ shuffle_split shuffle tp vp sp seed
       (snd (shuffle_split shuffle tp vp sp seed self))
     = shuffle_split shuffle tp vp sp seed self.
Proof.
  intros Hok.
  assert (Hdep : forall o : t A, _dataset o = _dataset self ->
            shuffle_split shuffle tp vp sp seed o
            = shuffle_split shuffle tp vp sp seed self).
  { intros o Ho.
    destruct (shuffle_split shuffle tp vp sp seed self) as [r self'] eqn:Hrun.
    cbn [fst] in Hok. subst r.
    destruct (shuffle_split_Ok_inv _ _ _ _ _ _ Hrun)
      as (x & y & z & -> & -> & -> & Hsum).
    rewrite shuffle_split_floats in Hrun |- * by assumption.
    rewrite Ho.
    destruct (_dataset self) as [ds | ]; [ | discriminate]. cbv zeta in Hrun |- *.
    destruct (shuffle _ seed ds); [ | discriminate].
    destruct (int_of_product x _); [ | discriminate].
    destruct (int_of_product y _); [ | discriminate].
    destruct (TfData.take _ ds); [ | discriminate].
    destruct (skip_take _ _ ds); [ | discriminate].
    destruct (truthy z); [ | exact Hrun].
    destruct (TfData.skip _ ds); [exact Hrun | discriminate]. }
  split; [exact (Hdep other) | ].
  apply Hdep, shuffle_split_dataset.
Qed.

Lemma take_Ok (count : Z) (ds tr : TfData.Dataset A) :
  TfData.take count ds = Ok tr ->
  TfData.in_int64 count = true
  /\ tr = if count <? 0 then ds else firstn (Z.to_nat count) ds.
Proof.
  unfold TfData.take. destruct (TfData.in_int64 count); intros H; inversion H.
  split; reflexivity.
Qed.

Lemma skip_Ok (count : Z) (ds rest : TfData.Dataset A) :
  TfData.skip count ds = Ok rest ->
  TfData.in_int64 count = true
  /\ rest = if count <? 0 then []
            else skipn (Z.to_nat (TfData.int32_of count)) ds.
Proof.
  unfold TfData.skip. destruct (TfData.in_int64 count); intros H; inversion H.
  split; reflexivity.
Qed.

Lemma skip_take_Ok (ts vs : Z) (ds va : TfData.Dataset A) :
  skip_take ts vs ds = Ok va ->
  exists rest, TfData.skip ts ds = Ok rest /\ TfData.take vs rest = Ok va.
Proof.
  unfold skip_take. destruct (TfData.skip ts ds) as [rest | ]; [ | discriminate].
  cbn [rbind]. intros H. exists rest. split; [reflexivity | exact H].
Qed.

Lemma first_firstn (k : nat) (ds : TfData.Dataset A) :
  k <> 0%nat -> TfData.first (firstn k ds) = TfData.first ds.
Proof. destruct k; [congruence | ]. destruct ds; reflexivity. Qed.

Lemma first_skipn (k : nat) (ds : TfData.Dataset A) :
  TfData.first (skipn k ds) =
  match nth_error ds k with Some b => Ok b | None => Raise StopIteration end.
Proof.
  revert ds. induction k as [ | k IH]; intros [ | b ds]; try reflexivity.
  apply IH.
Qed.

(** X4: after a [shuffle_split] that returns, the first batch of the
    train subset is the first batch of the dataset as it was stored
    ([StopIteration] when [train_size] is 0), and for a [train_size]
    from 0 up to, but not including, [2^31] the first batch of the
    validation subset is the dataset's element number [train_size]
    ([StopIteration] when [val_size] is 0 or the dataset is that
    short). *)
Theorem get_batch_after_shuffle_split
        (x y z : float) (seed : option Z) (self self' : t A)
        (ds : TfData.Dataset A) (ts vs : Z) :
  shuffle_split shuffle (PyFloat x) (PyFloat y) (PyFloat z) seed self
  = (Ok tt, self') ->
  _dataset self = Some ds ->
  int_of_product x (TfData.cardinality ds) = Ok ts ->
  int_of_product y (TfData.cardinality ds) = Ok vs ->
  get_batch "train" self'
  = (if ts =? 0 then Raise StopIteration else TfData.first ds)
  /\ (0 <= ts < 2 ^ 31 ->
      get_batch "validation" self'
      = if vs =? 0 then Raise StopIteration
        else match nth_error ds (Z.to_nat ts) with
             | Some b => Ok b
             | None => Raise StopIteration
             end).
Proof.
  intros Hrun Hds Hts Hvs.
  destruct (shuffle_split_returns_inv _ _ _ _ _ _ Hrun)
    as (ds' & ts' & vs' & tr & va & Hds' & Hts' & Hvs' & Htr & Hva & Hself).
  rewrite Hds in Hds'. inversion Hds'; subst ds'.
  rewrite Hts in Hts'. inversion Hts'; subst ts'.
  rewrite Hvs in Hvs'. inversion Hvs'; subst vs'.
  assert (Htrain : _train_subset self' = Some tr
                   /\ _validation_subset self' = Some va).
  { destruct (truthy z); [destruct Hself as (te & _ & ->) | subst self'];
      split; reflexivity. }
  destruct Htrain as [Etr Eva].
  rewrite !get_batch_named. unfold named.
  cbn [String.eqb Ascii.eqb Bool.eqb]. rewrite Etr, Eva.
  destruct (take_Ok _ _ _ Htr) as [_ ->].
  destruct (skip_take_Ok _ _ _ _ Hva) as (rest & Hrest & Hva').
  destruct (skip_Ok _ _ _ Hrest) as [_ ->].
  destruct (take_Ok _ _ _ Hva') as [_ ->].
  split.
  - destruct (Z.eqb_spec ts 0) as [-> | Hne]; [reflexivity | ].
    destruct (Z.ltb_spec ts 0); [reflexivity | ].
    apply first_firstn. lia.
  - intros Hts0.
    replace (ts <? 0) with false by (symmetry; apply Z.ltb_ge; lia).
    rewrite int32_of_small by exact Hts0.
    destruct (Z.eqb_spec vs 0) as [-> | Hne]; [reflexivity | ].
    destruct (Z.ltb_spec vs 0); [apply first_skipn | ].
    rewrite first_firstn by lia. apply first_skipn.
Qed.

(** X5: after a [shuffle_split] that returns with [test_pct == 0.0],
    there is no test subset, whatever the object held before, and
    [get_batch('test')] raises [ValueError]. *)
Theorem get_batch_test_after_split_without_test
        (tp vp : pyval) (z : float) (seed : option Z) (self self' : t A) :
  shuffle_split shuffle tp vp (PyFloat z) seed self = (Ok tt, self') ->
  SFeqb z zero = true ->
  test_subset self' = None
  /\ get_batch "test" self' = Raise (ValueError no_batch_msg).
Proof.
  intros Hrun Hz.
  destruct (shuffle_split_Ok_inv _ _ _ _ _ _ Hrun)
    as (x & y & z' & -> & -> & Hz' & _).
  inversion Hz'; subst z'.
  destruct (shuffle_split_returns_inv _ _ _ _ _ _ Hrun)
    as (ds & ts & vs & tr & va & _ & _ & _ & _ & _ & Hself).
  rewrite truthy_neq_zero, Hz in Hself. cbn [negb] in Hself. subst self'.
  split; reflexivity.
Qed.

(** X6: when both sizes are non-negative and their sum is below
    [2^31], the subsets of a [shuffle_split] that returns are
    consecutive stretches of the dataset, whatever its length: the
    train subset is its first [min(train_size, n)] elements, the
    validation subset the next [min(val_size, n - len(train))], and
    what follows them is the test subset when [test_pct] is nonzero and
    belongs to no subset when it is zero. *)
Theorem shuffle_split_consecutive
        (x y z : float) (seed : option Z) (self self' : t A)
        (ds : TfData.Dataset A) (ts vs : Z) :
  shuffle_split shuffle (PyFloat x) (PyFloat y) (PyFloat z) seed self
  = (Ok tt, self') ->
  _dataset self = Some ds ->
  int_of_product x (TfData.cardinality ds) = Ok ts ->
  int_of_product y (TfData.cardinality ds) = Ok vs ->
  0 <= ts -> 0 <= vs -> ts + vs < 2 ^ 31 ->
  exists tr va rest,
    train_subset self' = Some tr
    /\ validation_subset self' = Some va
    /\ test_subset self' = (if truthy z then Some rest else None)
    /\ ds = (tr ++ va ++ rest)%list
    /\ Z.of_nat (length tr) = Z.min ts (TfData.cardinality ds)
    /\ Z.of_nat (length va)
       = Z.min vs (TfData.cardinality ds - Z.of_nat (length tr)).
Proof.
  intros Hrun Hds Hts Hvs Hts0 Hvs0 Hsmall.
  destruct (shuffle_split_returns_inv _ _ _ _ _ _ Hrun)
    as (ds' & ts' & vs' & tr & va & Hds' & Hts' & Hvs' & Htr & Hva & Hself).
  rewrite Hds in Hds'. inversion Hds'; subst ds'.
  rewrite Hts in Hts'. inversion Hts'; subst ts'.
  rewrite Hvs in Hvs'. inversion Hvs'; subst vs'.
  destruct (take_Ok _ _ _ Htr) as [_ Etr].
  destruct (skip_take_Ok _ _ _ _ Hva) as (rest & Hrest & Hva').
  rewrite skip_small in Hrest by lia. inversion Hrest; subst rest.
  destruct (take_Ok _ _ _ Hva') as [_ Eva].
  replace (ts <? 0) with false in * by (symmetry; apply Z.ltb_ge; lia).
  replace (vs <? 0) with false in * by (symmetry; apply Z.ltb_ge; lia).
  exists tr, va, (skipn (Z.to_nat ts + Z.to_nat vs) ds).
  assert (Hte : test_subset self'
                = if truthy z then Some (skipn (Z.to_nat ts + Z.to_nat vs) ds)
                  else None).
  { destruct (truthy z); [ | subst self'; reflexivity].
    destruct Hself as (te & Hte & ->).
    rewrite skip_small in Hte by lia. inversion Hte; subst te.
    unfold test_subset; cbn [_test_subset].
    f_equal. f_equal. lia. }
  assert (Hsub : train_subset self' = Some tr
                 /\ validation_subset self' = Some va).
  { destruct (truthy z); [destruct Hself as (te & _ & ->) | subst self'];
      split; reflexivity. }
  destruct Hsub as [Htrs Hvas].
  split; [exact Htrs | ]. split; [exact Hvas | ]. split; [exact Hte | ].
  subst tr va. unfold TfData.cardinality.
  rewrite !List.length_firstn, List.length_skipn.
  split; [ | lia].
  replace (Z.to_nat ts + Z.to_nat vs)%nat with (Z.to_nat vs + Z.to_nat ts)%nat
    by lia.
  rewrite <- List.skipn_skipn.
  rewrite (List.firstn_skipn (Z.to_nat vs) (skipn (Z.to_nat ts) ds)).
  symmetry. apply List.firstn_skipn.
Qed.

(** X7: on an object whose [_dataset] is [None] the guards on the
    percentages come first: [shuffle_split] raises [ValueError] when
    they are not all floats or sum to more than 1.0, [TypeError]
    otherwise ([len(None)]), and assigns nothing. *)
Theorem shuffle_split_undefined_dataset
        (tp vp sp : pyval) (seed : option Z) (self : t A) :
  _dataset self = None ->
  shuffle_split shuffle tp vp sp seed self
  = (Raise (if negb (all_floats tp vp sp) then ValueError not_floats_msg
            else if sum_gt_one tp vp sp then ValueError sum_msg
            else TypeError),
     self).
Proof.
  intros Hds.
  destruct (all_floats tp vp sp) eqn:Hfl; cbn [negb].
  2:{ now apply shuffle_split_not_floats. }
  destruct (all_floats_inv _ _ _ Hfl) as (x & y & z & -> & -> & ->).
  cbn [sum_gt_one].
  destruct (fgt (fadd (fadd x y) z) one) eqn:Hsum.
  { now apply shuffle_split_sum_gt_one. }
  rewrite shuffle_split_floats by assumption. rewrite Hds. reflexivity.
Qed.

Lemma int_of_product_zero (x : float) :
  finite x = true -> int_of_product x 0 = Ok 0.
Proof.
  unfold int_of_product, mul_int.
  replace (of_int 0) with (Ok (S754_zero false) : result float) by reflexivity.
  destruct x as [s | s | | s m e]; try discriminate; reflexivity.
Qed.

(** X8: on an empty dataset, with finite percentages that pass the
    guards, [shuffle_split] asks the framework to shuffle with a buffer
    of size 0; if that is refused nothing is assigned, and otherwise the
    train and validation subsets (and the test subset, when [test_pct]
    is nonzero) are empty, so that [get_batch] on them raises
    [StopIteration]. *)
Theorem shuffle_split_empty_dataset
        (x y z : float) (seed : option Z) (self : t A) :
  _dataset self = Some [] ->
  finite x = true -> finite y = true ->
  fgt (fadd (fadd x y) z) one = false ->
  match shuffle 0 seed [] with
  | None =>
    shuffle_split shuffle (PyFloat x) (PyFloat y) (PyFloat z) seed self
    = (Raise FrameworkError, self)
  | Some _ =>
    exists self',
      shuffle_split shuffle (PyFloat x) (PyFloat y) (PyFloat z) seed self
      = (Ok tt, self')
      /\ train_subset self' = Some []
      /\ validation_subset self' = Some []
      /\ test_subset self' = (if truthy z then Some [] else None)
      /\ get_batch "train" self' = Raise StopIteration
      /\ get_batch "validation" self' = Raise StopIteration
  end.
Proof.
  intros Hds Hx Hy Hsum.
  rewrite shuffle_split_floats by assumption. rewrite Hds. cbv zeta.
  change (TfData.cardinality (@nil A)) with 0.
  destruct (shuffle 0 seed []) as [shuffled | ]; [ | reflexivity].
  rewrite (int_of_product_zero x Hx), (int_of_product_zero y Hy).
  cbn [TfData.take TfData.in_int64 Z.leb Z.compare andb Z.ltb Z.to_nat firstn].
  unfold skip_take.
  cbn [TfData.skip TfData.take TfData.in_int64 Z.leb Z.compare andb Z.ltb
       Z.to_nat firstn skipn rbind Z.add].
  destruct (truthy z); eexists; (split; [reflexivity | ]);
    repeat split; reflexivity.
Qed.

Lemma default_train_size (n : Z) :
  0 <= n <= 2 ^ 50 -> int_of_product default_train_pct n = Ok (3 * n / 4).
Proof.
  intros Hn. destruct (Z.eq_dec n 0) as [-> | Hn0].
  { apply int_of_product_zero. reflexivity. }
  unfold default_train_pct.
  assert (H52 : 2 ^ 52 = 4 * 2 ^ 50) by reflexivity.
  rewrite (int_of_product_dyadic 6755399441055744 (-53) 3 51 n)
    by (lia || reflexivity).
  f_equal. replace (-53 + 51) with (-2) by reflexivity.
  rewrite Z.shiftl_div_pow2 by lia. reflexivity.
Qed.

Lemma default_val_size (n : Z) :
  0 <= n <= 2 ^ 50 -> int_of_product default_val_pct n = Ok (n / 4).
Proof.
  intros Hn. destruct (Z.eq_dec n 0) as [-> | Hn0].
  { apply int_of_product_zero. reflexivity. }
  unfold default_val_pct.
  assert (H52 : 2 ^ 52 = 4 * 2 ^ 50) by reflexivity.
  rewrite (int_of_product_dyadic 4503599627370496 (-54) 1 52 n)
    by (lia || reflexivity).
  f_equal. replace (-54 + 52) with (-2) by reflexivity.
  rewrite Z.shiftl_div_pow2 by lia. rewrite Z.mul_1_l. reflexivity.
Qed.

(** X9: with its default arguments ([.75], [.25], [0.]), on a dataset of
    n < 2^31 elements that the framework shuffles, [shuffle_split]
    returns with the first [3n // 4] elements as train subset, the next
    [n // 4] as validation subset and no test subset; when n is not a
    multiple of 4 the last element of the dataset is in neither
    subset. *)
Theorem shuffle_split_default_sizes (self : t A) (ds : TfData.Dataset A) :
  _dataset self = Some ds ->
  is_Some (shuffle (TfData.cardinality ds) None ds) ->
  TfData.cardinality ds < 2 ^ 31 ->
  exists self' tr va rest,
    shuffle_split_default shuffle self = (Ok tt, self')
    /\ train_subset self' = Some tr
    /\ validation_subset self' = Some va
    /\ test_subset self' = None
    /\ ds = (tr ++ va ++ rest)%list
    /\ Z.of_nat (length tr) = 3 * TfData.cardinality ds / 4
    /\ Z.of_nat (length va) = TfData.cardinality ds / 4
    /\ Z.of_nat (length rest)
       = (if TfData.cardinality ds mod 4 =? 0 then 0 else 1).
Proof.
  intros Hds [shuffled Hsh] Hn.
  set (n := TfData.cardinality ds) in *.
  assert (Hn0 : 0 <= n) by (unfold n, TfData.cardinality; lia).
  assert (H50 : 2 ^ 50 = 1125899906842624) by reflexivity.
  assert (H31 : 2 ^ 31 = 2147483648) by reflexivity.
  destruct (slices_partition ds (3 * n / 4) (n / 4))
    as (tr & va & te & Htr & Hva & Hte & Hcat & Ltr & Lva & Lte);
    fold n; try (Z.div_mod_to_equations; lia).
  unfold shuffle_split_default.
  rewrite shuffle_split_floats by reflexivity.
  rewrite Hds. cbv zeta. fold n.
  rewrite Hsh, (default_train_size n), (default_val_size n) by lia.
  rewrite Htr, Hva. cbn [truthy default_test_pct].
  exists (mk (Some ds) (Some tr) (Some va) None (Some "shuffle_split")),
    tr, va, te.
  repeat (split; [reflexivity || (symmetry; assumption) || assumption | ]).
  fold n in Lte. rewrite Lte.
  destruct (Z.eqb_spec (n mod 4) 0); Z.div_mod_to_equations; lia.
Qed.
End TFDatasetMore.

Section TFDatasetFailures.
Import Py PyFloat PyFloatSpec TFDataset TFDatasetSpec.
Context {A : Type}.
Variable shuffle : Z -> option Z -> TfData.Dataset A -> option (TfData.Dataset A).

(** X22: a [shuffle_split] that raises leaves the object as it was,
    unless the exception came out of the framework's [take] or [skip]
    refusing a count (TensorFlow reports that with a [ValueError] of its
    own) after [train_subset], or [train_subset] and
    [validation_subset], had been assigned; so an exception raised by
    the method's own statements (the guards, [len()], [int()]) changes
    nothing, and no call that raises changes the test subset or
    [_validation_type]. *)
Theorem shuffle_split_failure_state
        (tp vp sp : pyval) (seed : option Z) (self self' : t A) (e : exn) :
  shuffle_split shuffle tp vp sp seed self = (Raise e, self') ->
  (self' = self
   \/ (e = FrameworkError
       /\ exists tr, self' = set_train_subset (Some tr) self)
   \/ (e = FrameworkError
       /\ exists tr va,
           self' = set_validation_subset (Some va)
                     (set_train_subset (Some tr) self)))
  /\ (e <> FrameworkError -> self' = self)
  /\ test_subset self' = test_subset self
  /\ _validation_type self' = _validation_type self.
Proof.
  intros Hrun.
  assert (Hsame : forall e0 : exn,
             (Raise e0 : result unit, self) = (Raise e, self') ->
             (self' = self
              \/ (e = FrameworkError
                  /\ exists tr, self' = set_train_subset (Some tr) self)
              \/ (e = FrameworkError
                  /\ exists tr va,
                      self' = set_validation_subset (Some va)
                                (set_train_subset (Some tr) self)))
             /\ (e <> FrameworkError -> self' = self)
             /\ test_subset self' = test_subset self
             /\ _validation_type self' = _validation_type self).
  { intros e0 H. inversion H. subst. repeat split; auto. }
  destruct (all_floats tp vp sp) eqn:Hfl.
  2:{ rewrite shuffle_split_not_floats in Hrun by assumption.
      exact (Hsame _ Hrun). }
  destruct (all_floats_inv _ _ _ Hfl) as (x & y & z & -> & -> & ->).
  destruct (fgt (fadd (fadd x y) z) one) eqn:Hsum.
  { rewrite shuffle_split_sum_gt_one in Hrun by assumption.
    exact (Hsame _ Hrun). }
  rewrite shuffle_split_floats in Hrun by assumption.
  destruct (_dataset self) as [ds | ]; [ | exact (Hsame _ Hrun)].
  cbv zeta in Hrun.
  destruct (shuffle _ seed ds); [ | exact (Hsame _ Hrun)].
  destruct (int_of_product x _) as [ts | ]; [ | exact (Hsame _ Hrun)].
  destruct (int_of_product y _) as [vs | ]; [ | exact (Hsame _ Hrun)].
  destruct (TfData.take ts ds) as [tr | ]; [ | exact (Hsame _ Hrun)].
  destruct (skip_take ts vs ds) as [va | e1] eqn:Hva.
  2:{ inversion Hrun; subst.
      pose proof (skip_take_raises _ _ _ _ Hva) as He.
      split; [right; left; split; [exact He | eauto] | ].
      split; [intros Hne; contradiction | split; reflexivity]. }
  destruct (truthy z); [ | discriminate].
  destruct (TfData.skip (ts + vs) ds) as [te | e2] eqn:Hte; [discriminate | ].
  inversion Hrun; subst.
  pose proof (skip_raises _ _ _ Hte) as He.
  split; [right; right; split; [exact He | eauto] | ].
  split; [intros Hne; contradiction | split; reflexivity].
Qed.
End TFDatasetFailures.

(** ** More on the hub enumerations *)

Section TypesMore.
Import Py PyStr.

(** X10: for every member of [DatasetType], [from_str] undoes [str()]:
    [DatasetType.from_str(str(e))] is [e], and so is
    [DatasetType.from_str(e.name)]; hence [str()] gives different
    members different strings. *)
Theorem DatasetType_str_round_trip :
  (forall e, DatasetType.from_str (Some (DatasetType.to_str e)) = Ok e)
  /\ (forall e, DatasetType.from_str (Some (DatasetType.name e)) = Ok e)
  /\ (forall e e', DatasetType.to_str e = DatasetType.to_str e' -> e = e').
Proof.
  assert (H : forall e, DatasetType.from_str (Some (DatasetType.to_str e)) = Ok e)
    by (intros []; reflexivity).
  split; [exact H | ]. split; [intros []; reflexivity | ].
  intros e e' E. pose proof (H e) as He. rewrite E, H in He. now inversion He.
Qed.

(** X11: for every member of [ModelType], [ModelType.from_str(str(e))]
    is [e], so [str()] gives different members different strings; the
    member's own upper-case [name] is refused with [ValueError], since
    [ModelType.from_str] does not lowercase. *)
Theorem ModelType_str_round_trip :
  (forall e, ModelType.from_str (Some (ModelType.to_str e)) = Ok e)
  /\ (forall e e', ModelType.to_str e = ModelType.to_str e' -> e = e')
  /\ (forall e, ModelType.from_str (Some (ModelType.name e))
                = Raise (ValueError (ModelType.unsupported_msg (ModelType.name e)))).
Proof.
  assert (H : forall e, ModelType.from_str (Some (ModelType.to_str e)) = Ok e)
    by (intros []; reflexivity).
  split; [exact H | ]. split; [ | intros []; reflexivity].
  intros e e' E. pose proof (H e) as He. rewrite E, H in He. now inversion He.
Qed.

(** X12: [DatasetType.from_str] resolves a string to a member exactly
    when the lowercased string is one of that member's aliases; no
    alias belongs to two members, so the order of the tests decides
    nothing. *)
Theorem DatasetType_from_str_iff (s : string) (ty : DatasetType.t) :
  DatasetType.from_str (Some s) = Ok ty
  <-> exists aliases,
        In (aliases, ty) DatasetType.alias_table /\ In (lower s) aliases.
Proof.
  unfold DatasetType.from_str. split.
  - destruct (py_in (lower s) DatasetType.tfds_aliases) eqn:E1.
    { intros H; inversion H; subst. exists DatasetType.tfds_aliases.
      split; [cbv; tauto | now apply py_in_In]. }
    destruct (py_in (lower s) DatasetType.torchvision_aliases) eqn:E2.
    { intros H; inversion H; subst. exists DatasetType.torchvision_aliases.
      split; [cbv; tauto | now apply py_in_In]. }
    destruct (py_in (lower s) DatasetType.hugging_face_aliases) eqn:E3.
    { intros H; inversion H; subst. exists DatasetType.hugging_face_aliases.
      split; [cbv; tauto | now apply py_in_In]. }
    destruct (py_in (lower s) DatasetType.generic_aliases) eqn:E4.
    { intros H; inversion H; subst. exists DatasetType.generic_aliases.
      split; [cbv; tauto | now apply py_in_In]. }
    discriminate.
  - intros [aliases [Ht Hs]]. cbv [DatasetType.alias_table] in Ht.
    repeat (destruct Ht as [Ht | Ht];
            [inversion Ht; subst aliases ty; clear Ht;
             cbv [DatasetType.tfds_aliases DatasetType.torchvision_aliases
                  DatasetType.hugging_face_aliases DatasetType.generic_aliases]
               in Hs;
             by_alias Hs | ]).
    destruct Ht.
Qed.

(** X13: a string that both [DatasetType.from_str] and
    [ModelType.from_str] accept names the same hub in both: the two
    members have the same [name]. *)
Theorem from_str_enums_agree (s : string) (d : DatasetType.t) (m : ModelType.t) :
  DatasetType.from_str (Some s) = Ok d ->
  ModelType.from_str (Some s) = Ok m ->
  DatasetType.name d = ModelType.name m.
Proof.
  intros Hd Hm. apply ModelType_from_str_Ok_inv in Hm.
  destruct Hm as [aliases [Ht Hs]]. cbv [ModelType.alias_table] in Ht.
  repeat (destruct Ht as [Ht | Ht];
          [inversion Ht; subst aliases m; clear Ht;
           cbv [ModelType.tf_hub_aliases ModelType.torchvision_aliases
                ModelType.pytorch_hub_aliases ModelType.hugging_face_aliases
                ModelType.keras_aliases ModelType.generic_aliases] in Hs;
           repeat (destruct Hs as [Hs | Hs];
                   [subst s; vm_compute in Hd;
                    first [discriminate | inversion Hd; reflexivity] | ]);
           destruct Hs | ]).
  destruct Ht.
Qed.

End TypesMore.

(** ** More on [get_retrainable_model] *)

Section TorchMore.
Import Py Torch.

(** Replacing a sub-module that is there swaps its parameters for the
    new ones, in place. *)
Lemma setattr_parameters (model : Model) (name : string) (old new : nn_Module) :
  getattr model name = Ok old ->
  exists pre post,
    parameters model = (pre ++ module_parameters old ++ post)%list
    /\ parameters (setattr model name new)
       = (pre ++ module_parameters new ++ post)%list.
Proof.
  induction model as [ | [k v] rest IH]; simpl; [discriminate | ].
  destruct (String.eqb k name) eqn:E.
  - intros H. inversion H; subst v. exists [], (parameters rest).
    split; reflexivity.
  - intros H. destruct (IH H) as (pre & post & H1 & H2).
    exists (module_parameters v ++ pre)%list, post.
    unfold parameters in *. simpl. rewrite H1, H2, <- !List.app_assoc.
    split; reflexivity.
Qed.

Lemma filter_frozen (ps : list Param) :
  Forall frozen ps -> List.filter requires_grad ps = [].
Proof.
  induction 1 as [ | p ps Hp _ IH]; simpl; [reflexivity | ].
  unfold frozen in Hp. rewrite Hp. exact IH.
Qed.
End TorchMore.

Section ModelUtilsMore.
Import Py Torch ModelUtils.
Variable locate : string -> option (bool -> Model).

Lemma torchvision_model_map_names (model_name : string) :
  In model_name ["r3d_18"; "mc3_18"; "r2plus1d_18"]
  <-> torchvision_model_map !! model_name = Some (mkEntry (ClassifierAttr "fc")).
Proof.
  split.
  - intros H. by_alias H.
  - intros H. unfold torchvision_model_map in H.
    apply elem_of_list_to_map_2 in H.
    repeat (apply elem_of_cons in H; destruct H as [H | H];
            [inversion H; simpl; tauto | ]).
    apply elem_of_nil in H. destruct H.
Qed.

Lemma torchvision_model_map_other (model_name : string) :
  ~ In model_name ["r3d_18"; "mc3_18"; "r2plus1d_18"] ->
  torchvision_model_map !! model_name = None.
Proof.
  intros H. destruct (torchvision_model_map !! model_name) as [entry | ] eqn:E;
    [ | reflexivity].
  exfalso. apply H. apply torchvision_model_map_names.
  rewrite E. f_equal. destruct entry as [c]. f_equal.
  exact (torchvision_model_map_classifier _ _ E).
Qed.

(** X14: [get_retrainable_model] raises [KeyError(model_name)] exactly
    when [model_name] is not one of ['r3d_18'], ['mc3_18'] and
    ['r2plus1d_18'], whatever [locate] finds under that name: the map
    is consulted before the located class is called. *)
Theorem get_retrainable_model_KeyError
        (model_name : string) (num_classes : N) (do_fine_tuning : bool) :
  (~ In model_name ["r3d_18"; "mc3_18"; "r2plus1d_18"] ->
   get_retrainable_model locate model_name num_classes do_fine_tuning
   = Raise (KeyError model_name))
  /\ (In model_name ["r3d_18"; "mc3_18"; "r2plus1d_18"] ->
      forall key,
        get_retrainable_model locate model_name num_classes do_fine_tuning
        <> Raise (KeyError key)).
Proof.
  unfold get_retrainable_model. split.
  - intros H. rewrite (torchvision_model_map_other _ H). reflexivity.
  - intros H key. apply torchvision_model_map_names in H. rewrite H.
    cbn [classifier].
    destruct (locate _) as [cls | ]; [ | discriminate].
    destruct (getattr _ "fc") as [[i o w b | cs | ps] | e] eqn:E;
      cbn [rbind get_in_features]; try discriminate.
    revert E. generalize (if negb do_fine_tuning then freeze (cls true) else cls true).
    intros model. induction model as [ | [k v] rest IH]; simpl.
    + intros H'; inversion H'. discriminate.
    + destruct (String.eqb k "fc"); [discriminate | exact IH].
Qed.

(** X15: for a name of the model map under which [locate] finds
    nothing, [get_retrainable_model] raises [TypeError]: it calls
    [None]. *)
Theorem get_retrainable_model_not_located
        (model_name : string) (num_classes : N) (do_fine_tuning : bool) :
  In model_name ["r3d_18"; "mc3_18"; "r2plus1d_18"] ->
  locate ("torchvision.models.video." ++ model_name) = None ->
  get_retrainable_model locate model_name num_classes do_fine_tuning
  = Raise TypeError.
Proof.
  intros H Hloc. apply torchvision_model_map_names in H.
  unfold get_retrainable_model. rewrite H, Hloc. reflexivity.
Qed.

(** X16: for a name of the model map whose located model has no
    attribute [fc], or one that is not a [Linear] layer,
    [get_retrainable_model] raises [AttributeError], with or without
    fine tuning. *)
Theorem get_retrainable_model_no_classifier
        (model_name : string) (num_classes : N) (do_fine_tuning : bool)
        (cls : bool -> Model) :
  In model_name ["r3d_18"; "mc3_18"; "r2plus1d_18"] ->
  locate ("torchvision.models.video." ++ model_name) = Some cls ->
  (forall i o w b, getattr (cls true) "fc" <> Ok (Linear i o w b)) ->
  get_retrainable_model locate model_name num_classes do_fine_tuning
  = Raise AttributeError.
Proof.
  intros H Hloc Hfc. apply torchvision_model_map_names in H.
  unfold get_retrainable_model. rewrite H, Hloc. cbn [classifier].
  assert (Hraise : forall model : Model,
            (exists m, getattr model "fc" = Ok m)
            \/ getattr model "fc" = Raise AttributeError).
  { induction model as [ | [k v] rest IH]; simpl; [now right | ].
    destruct (String.eqb k "fc"); [left; eauto | exact IH]. }
  destruct do_fine_tuning; cbn [negb].
  - destruct (Hraise (cls true)) as [[m Hm] | Hm]; rewrite Hm; [ | reflexivity].
    destruct m as [i o w b | cs | ps]; [ | reflexivity | reflexivity].
    exfalso. exact (Hfc _ _ _ _ Hm).
  - rewrite getattr_freeze.
    destruct (Hraise (cls true)) as [[m Hm] | Hm]; rewrite Hm; [ | reflexivity].
    destruct m as [i o w b | cs | ps]; [ | reflexivity | reflexivity].
    exfalso. exact (Hfc _ _ _ _ Hm).
Qed.

(** X17: without fine tuning, the model [get_retrainable_model] returns
    has as many parameters as the pretrained one, and the only ones
    with [requires_grad] set are the weight and the bias of the new
    classifier. *)
Theorem get_retrainable_model_trainable
        (model_name : string) (num_classes : N)
        (cls : bool -> Model) (i o : N) (w b : Param) :
  In model_name ["r3d_18"; "mc3_18"; "r2plus1d_18"] ->
  locate ("torchvision.models.video." ++ model_name) = Some cls ->
  getattr (cls true) "fc" = Ok (Linear i o w b) ->
  exists model,
    get_retrainable_model locate model_name num_classes false = Ok model
    /\ List.filter requires_grad (parameters model)
       = [mkParam "weight" true; mkParam "bias" true]
    /\ length (parameters model) = length (parameters (cls true)).
Proof.
  intros H Hloc Hfc. apply torchvision_model_map_names in H.
  unfold get_retrainable_model. rewrite H, Hloc. cbn [classifier negb].
  assert (Hfz : getattr (freeze (cls true)) "fc"
                = Ok (Linear i o (freeze_parameter w) (freeze_parameter b)))
    by (rewrite getattr_freeze, Hfc; reflexivity).
  rewrite Hfz. cbn [rbind get_in_features].
  eexists. split; [reflexivity | ].
  destruct (setattr_parameters _ "fc" _ (new_Linear i num_classes) Hfz)
    as (pre & post & Hbefore & Hafter).
  rewrite Hafter.
  pose proof (freeze_all_frozen (cls true)) as Hall.
  rewrite Hbefore in Hall.
  apply List.Forall_app in Hall. destruct Hall as [Hpre Hall].
  apply List.Forall_app in Hall. destruct Hall as [_ Hpost].
  split.
  - rewrite !List.filter_app, (filter_frozen pre Hpre), (filter_frozen post Hpost).
    reflexivity.
  - rewrite <- (List.length_map freeze_parameter (parameters (cls true))).
    rewrite <- freeze_parameters, Hbefore.
    rewrite !List.length_app. reflexivity.
Qed.
End ModelUtilsMore.

(** ** More on the launcher *)

Section ArgparseMore.
Import Py Argparse LauncherSpec.
Variable int_of_str : string -> option Z.

(** The parser ends the program in one way only: with status 2. *)
Lemma consume_raises (specs : list argument) (e : exn) :
  forall (argv : list occurrence) (ns : Namespace),
    consume int_of_str specs argv ns = Raise e -> e = SystemExit 2.
Proof.
  induction argv as [ | [name raw] rest IH]; intros ns H; simpl in H;
    [discriminate | ].
  destruct (find_argument specs name) as [a | ]; [ | now inversion H].
  destruct (act a) as [ty | ], raw as [r | ]; try (now inversion H).
  - destruct ty; simpl in H.
    + exact (IH _ H).
    + destruct (int_of_str r); simpl in H; [exact (IH _ H) | now inversion H].
  - exact (IH _ H).
Qed.

(** Every occurrence the parser gets past stores a value. *)
Lemma consume_stores (specs : list argument) (name : string) (raw : option string) :
  forall (argv : list occurrence) (ns ns' : Namespace),
    consume int_of_str specs argv ns = Ok ns' ->
    In (name, raw) argv ->
    is_Some (stored_value int_of_str specs name raw).
Proof.
  induction argv as [ | [name0 raw0] rest IH]; intros ns ns' H Hin;
    [destruct Hin | ].
  simpl in H.
  destruct (find_argument specs name0) as [a | ] eqn:Ha; [ | discriminate].
  destruct Hin as [Hin | Hin].
  - inversion Hin; subst name0 raw0. unfold stored_value. rewrite Ha.
    destruct (act a) as [ty | ], raw as [r | ]; try discriminate.
    + destruct (convert int_of_str ty r); [eauto | discriminate].
    + eauto.
  - destruct (act a) as [ty | ], raw0 as [r | ]; try discriminate.
    + simpl in H. destruct (convert int_of_str ty r); [ | discriminate].
      exact (IH _ _ H Hin).
    + exact (IH _ _ H Hin).
Qed.

(** A required option that was not set stops [fill_defaults]. *)
Lemma fill_defaults_required (d : string) :
  forall (specs : list argument) (ns : Namespace),
    (forall a, In a specs -> dest a = d -> required a = true) ->
    (exists a, In a specs /\ dest a = d) ->
    ns !! d = None ->
    fill_defaults specs ns = Raise (SystemExit 2).
Proof.
  induction specs as [ | a0 rest IH]; intros ns Hreq [a [Hin Hd]] Hns.
  - destruct Hin.
  - simpl. destruct (ns !! dest a0) as [v | ] eqn:E0.
    + apply IH; [intros; apply Hreq; simpl; tauto | | exact Hns].
      destruct Hin as [-> | Hin]; [congruence | eauto].
    + destruct (required a0) eqn:R0; [reflexivity | ].
      assert (Hne : dest a0 <> d).
      { intros E. rewrite (Hreq a0 (or_introl eq_refl) E) in R0. discriminate. }
      apply IH; [intros; apply Hreq; simpl; tauto | | ].
      * destruct Hin as [-> | Hin]; [congruence | eauto].
      * rewrite lookup_insert_ne by exact Hne. exact Hns.
Qed.

Lemma parse_args_raises (specs : list argument) (argv : list occurrence) (e : exn) :
  parse_args int_of_str specs argv = Raise e -> e = SystemExit 2.
Proof.
  unfold parse_args.
  destruct (consume int_of_str specs argv ∅) as [ns | e'] eqn:Hc; simpl.
  - clear Hc. revert ns. induction specs as [ | a rest IH]; intros ns H;
      simpl in H; [discriminate | ].
    destruct (ns !! dest a); [exact (IH _ H) | ].
    destruct (required a); [now inversion H | exact (IH _ H)].
  - intros H. inversion H; subst e'. exact (consume_raises _ _ _ _ Hc).
Qed.

Lemma parse_args_missing_required (specs : list argument)
      (argv : list occurrence) (d : string) :
  (forall a, In a specs -> dest a = d -> required a = true) ->
  (exists a, In a specs /\ dest a = d) ->
  last_occurrence ("--" ++ d) argv = None ->
  parse_args int_of_str specs argv = Raise (SystemExit 2).
Proof.
  intros Hreq Hex Hlast. unfold parse_args.
  destruct (consume int_of_str specs argv ∅) as [ns | e] eqn:Hc; simpl.
  - apply (fill_defaults_required d); [exact Hreq | exact Hex | ].
    pose proof (consume_lookup int_of_str specs d _ _ _ Hc) as Hl.
    rewrite Hlast in Hl. rewrite Hl. apply lookup_empty.
  - f_equal. exact (consume_raises _ _ _ _ Hc).
Qed.
End ArgparseMore.

Section LauncherMore.
Import Py Argparse LauncherSpec RunTrainPyt.
Variable obj : Type.
Variable int_of_str : string -> option Z.

(** X18: on a command line whose options are all written in full (no
    abbreviation, no [-h] or [--help]), when [--master_addr],
    [--master_port] or [--use_case] does not occur, the script prints
    its banner and exits with status 2, launching nothing; the default
    ['29500'] declared for the required [--master_port] never takes
    effect. *)
Theorem launcher_missing_required_option
        (load_saved_objects : value -> result (gmap string obj))
        (argv : list occurrence) (d : string) :
  written_in_full argv = true ->
  In d ["master_addr"; "master_port"; "use_case"] ->
  last_occurrence ("--" ++ d) argv = None ->
  main obj int_of_str load_saved_objects argv
  = ([Print obj "******Distributed Training*****"], Raise (SystemExit 2)).
Proof.
  intros _ Hd Hlast. unfold main.
  assert (Hp : parse_args int_of_str parser argv = Raise (SystemExit 2)).
  { apply (parse_args_missing_required int_of_str parser argv d);
      [ | | exact Hlast].
    - intros a Ha Ea. cbv [parser] in Ha.
      repeat (destruct Hd as [Hd | Hd];
              [subst d;
               repeat (destruct Ha as [Ha | Ha];
                       [subst a;
                        first [reflexivity | cbn in Ea; discriminate Ea] | ]);
               destruct Ha | ]).
      destruct Hd.
    - destruct Hd as [Hd | [Hd | [Hd | []]]]; subst d.
      + exists (mkArgument "master_addr" (Store TStr) true None).
        split; [cbv [parser]; simpl; tauto | reflexivity].
      + exists (mkArgument "master_port" (Store TStr) true (Some (VStr "29500"))).
        split; [cbv [parser]; simpl; tauto | reflexivity].
      + exists (mkArgument "use_case" (Store TStr) true None).
        split; [cbv [parser]; simpl; tauto | reflexivity]. }
  rewrite Hp. reflexivity.
Qed.

(** X21: on a command line whose options are all written in full (no
    abbreviation, no [-h] or [--help]), an [--epochs] or [--batch_size]
    value that [int()] refuses, wherever it stands, makes the script
    print its banner and exit with status 2, launching nothing. *)
Theorem launcher_bad_integer
        (load_saved_objects : value -> result (gmap string obj))
        (argv : list occurrence) (name raw : string) :
  written_in_full argv = true ->
  In name ["--epochs"; "--batch_size"] ->
  In (name, Some raw) argv ->
  int_of_str raw = None ->
  main obj int_of_str load_saved_objects argv
  = ([Print obj "******Distributed Training*****"], Raise (SystemExit 2)).
Proof.
  intros _ Hname Hin Hint. unfold main.
  destruct (parse_args int_of_str parser argv) as [args | e] eqn:Hp.
  - exfalso. unfold parse_args in Hp.
    destruct (consume int_of_str parser argv ∅) as [ns | ] eqn:Hc;
      [ | discriminate].
    destruct (consume_stores int_of_str parser name (Some raw) _ _ _ Hc Hin)
      as [v Hv].
    unfold stored_value in Hv.
    repeat (destruct Hname as [<- | Hname];
            [simpl in Hv; rewrite Hint in Hv; discriminate | ]).
    destruct Hname.
  - rewrite (parse_args_raises _ _ _ _ Hp). reflexivity.
Qed.

(** X19: when the command line parses but the saved objects of the use
    case lack ['dataset'], ['model'], ['loss'] or ['optimizer'], the
    script ends with [KeyError] for the first of them that is missing,
    after the banner and without launching; a saved ['train_subset']
    does not stand in for a missing ['dataset']. *)
Theorem launcher_missing_object
        (load_saved_objects : value -> result (gmap string obj))
        (argv : list occurrence) (args : Namespace) (uc : string)
        (objs : gmap string obj) (key : string) :
  parse_args int_of_str parser argv = Ok args ->
  last_occurrence "--use_case" argv = Some (Some uc) ->
  load_saved_objects (VStr uc) = Ok objs ->
  first_missing objs = Some key ->
  main obj int_of_str load_saved_objects argv
  = ([Print obj "******Distributed Training*****"], Raise (KeyError key)).
Proof.
  intros Hp Huc Hload Hmiss.
  assert (Euc : args !! "use_case" = Some (VStr uc)).
  { rewrite (parser_str_attr int_of_str argv args "use_case" "--use_case" ""
                             true None Hp eq_refl eq_refl eq_refl)
      by (right; rewrite Huc; eauto).
    unfold given_str. rewrite Huc. reflexivity. }
  unfold main. rewrite Hp. unfold launch, attr, getitem.
  rewrite Euc. cbn [rbind]. rewrite Hload. cbn [rbind].
  unfold first_missing in Hmiss. cbn [find] in Hmiss.
  destruct (objs !! "dataset"); [ | inversion Hmiss; reflexivity].
  cbn [rbind].
  destruct (objs !! "model"); [ | inversion Hmiss; reflexivity].
  cbn [rbind].
  destruct (objs !! "loss"); [ | inversion Hmiss; reflexivity].
  cbn [rbind].
  destruct (objs !! "optimizer"); [discriminate | inversion Hmiss; reflexivity].
Qed.

(** X20: the script reads ['test_subset'] and ['validation_subset']
    from the saved objects but passes neither on: two ways of loading
    that fail alike, or agree on ['dataset'], ['train_subset'],
    ['model'], ['loss'] and ['optimizer'], give the same run. *)
Theorem launcher_ignores_test_and_validation
        (load load' : value -> result (gmap string obj))
        (argv : list occurrence) :
  (forall use_case, same_training_objects (load use_case) (load' use_case)) ->
  main obj int_of_str load argv = main obj int_of_str load' argv.
Proof.
  intros Hsame. unfold main.
  destruct (parse_args int_of_str parser argv) as [args | e]; [ | reflexivity].
  assert (Hlaunch : launch obj load args = launch obj load' args).
  { unfold launch.
    destruct (attr args "use_case") as [use_case | e]; [ | reflexivity].
    cbn [rbind]. specialize (Hsame use_case). unfold same_training_objects in Hsame.
    destruct (load use_case) as [objs | e], (load' use_case) as [objs' | e'];
      try contradiction; [ | subst e'; reflexivity].
    cbn [rbind]. unfold getitem, get_or.
    inversion Hsame as [ | ? ? Hd H1]; subst.
    inversion H1 as [ | ? ? Ht H2]; subst.
    inversion H2 as [ | ? ? Hm H3]; subst.
    inversion H3 as [ | ? ? Hl H4]; subst.
    inversion H4 as [ | ? ? Ho _]; subst.
    rewrite Hd, Ht, Hm, Hl, Ho. reflexivity. }
  rewrite Hlaunch. reflexivity.
Qed.
End LauncherMore.

(** ** Runs on the sample objects *)

Section MoreRuns.
Import Py PyFloat PyFloatSpec TFDataset TFDatasetSpec Samples.

Lemma shuffle_split_overwrites_witness :
  shuffle_split reversing (PyFloat half) (PyFloat quarter) (PyFloat quarter)
                None four_empty_train
  = shuffle_split reversing (PyFloat half) (PyFloat quarter) (PyFloat quarter)
                  None four.
Proof.
  apply (shuffle_split_overwrites reversing (PyFloat half) (PyFloat quarter)
                                  (PyFloat quarter) None four four_empty_train);
    reflexivity.
Defined.

Lemma get_batch_after_shuffle_split_witness :
  get_batch "train" (mk (Some [1; 2; 3; 4]) (Some [1; 2]) (Some [3]) (Some [4])
                        (Some "shuffle_split")) = Ok 1
  /\ get_batch "validation" (mk (Some [1; 2; 3; 4]) (Some [1; 2]) (Some [3])
                                (Some [4]) (Some "shuffle_split")) = Ok 3.
Proof.
  destruct (get_batch_after_shuffle_split
              reversing half quarter quarter None four
              (mk (Some [1; 2; 3; 4]) (Some [1; 2]) (Some [3]) (Some [4])
                  (Some "shuffle_split"))
              [1; 2; 3; 4] 2 1 eq_refl eq_refl eq_refl eq_refl) as [Htr Hva].
  split; [exact Htr | apply Hva; lia].
Defined.

Lemma get_batch_test_after_split_without_test_witness :
  test_subset four = Some [9]
  /\ test_subset (mk (Some [1; 2; 3; 4]) (Some [1; 2]) (Some [3]) None
                     (Some "shuffle_split")) = None
  /\ get_batch "test" (mk (Some [1; 2; 3; 4]) (Some [1; 2]) (Some [3]) None
                          (Some "shuffle_split"))
     = Raise (ValueError no_batch_msg).
Proof.
  split; [reflexivity | ].
  apply (get_batch_test_after_split_without_test
           reversing (PyFloat half) (PyFloat quarter) zero None four);
    reflexivity.
Defined.

Lemma shuffle_split_consecutive_witness :
  exists tr va rest,
    train_subset (mk (Some [1; 2; 3; 4]) (Some [1; 2]) (Some [3]) None
                     (Some "shuffle_split")) = Some tr
    /\ validation_subset (mk (Some [1; 2; 3; 4]) (Some [1; 2]) (Some [3]) None
                             (Some "shuffle_split")) = Some va
    /\ test_subset (mk (Some [1; 2; 3; 4]) (Some [1; 2]) (Some [3]) None
                       (Some "shuffle_split"))
       = (if truthy zero then Some rest else None)
    /\ [1; 2; 3; 4] = (tr ++ va ++ rest)%list
    /\ Z.of_nat (length tr) = Z.min 2 (TfData.cardinality [1; 2; 3; 4])
    /\ Z.of_nat (length va)
       = Z.min 1 (TfData.cardinality [1; 2; 3; 4] - Z.of_nat (length tr)).
Proof.
  apply (shuffle_split_consecutive reversing half quarter zero None four);
    try reflexivity; lia.
Defined.

Lemma shuffle_split_undefined_dataset_witness :
  shuffle_split reversing (PyFloat half) (PyFloat quarter) (PyFloat quarter)
                None no_dataset
  = (Raise TypeError, no_dataset).
Proof.
  apply (shuffle_split_undefined_dataset reversing (PyFloat half)
           (PyFloat quarter) (PyFloat quarter) None no_dataset).
  reflexivity.
Defined.

Lemma shuffle_split_empty_dataset_witness :
  exists self',
    shuffle_split reversing (PyFloat half) (PyFloat quarter) (PyFloat quarter)
                  None no_batches
    = (Ok tt, self')
    /\ train_subset self' = Some []
    /\ validation_subset self' = Some []
    /\ test_subset self' = Some []
    /\ get_batch "train" self' = Raise StopIteration
    /\ get_batch "validation" self' = Raise StopIteration.
Proof.
  apply (shuffle_split_empty_dataset reversing half quarter quarter None
                                     no_batches); reflexivity.
Defined.

Lemma shuffle_split_default_sizes_witness :
  exists self' tr va rest,
    shuffle_split_default reversing five = (Ok tt, self')
    /\ train_subset self' = Some tr
    /\ validation_subset self' = Some va
    /\ test_subset self' = None
    /\ [1; 2; 3; 4; 5] = (tr ++ va ++ rest)%list
    /\ Z.of_nat (length tr) = 3
    /\ Z.of_nat (length va) = 1
    /\ Z.of_nat (length rest) = 1.
Proof.
  apply (shuffle_split_default_sizes reversing five [1; 2; 3; 4; 5]).
  - reflexivity.
  - exists [5; 4; 3; 2; 1]. reflexivity.
  - unfold TfData.cardinality. simpl length. lia.
Defined.
End MoreRuns.

Section FailureRuns.
Import Py PyFloat PyFloatSpec TFDataset TFDatasetSpec Samples.

Lemma shuffle_split_failure_state_witness :
  shuffle_split reversing (PyFloat quarter) (PyFloat minus_1e30) (PyFloat zero)
                None four
  = (Raise FrameworkError, set_train_subset (Some [1]) four)
  /\ test_subset (set_train_subset (Some [1]) four) = test_subset four
  /\ _validation_type (set_train_subset (Some [1]) four) = _validation_type four.
Proof.
  split; [reflexivity | ].
  apply (shuffle_split_failure_state
           reversing (PyFloat quarter) (PyFloat minus_1e30) (PyFloat zero) None
           four (set_train_subset (Some [1]) four) FrameworkError).
  reflexivity.
Defined.
End FailureRuns.

Section TypesRuns.
Import Py.

Lemma from_str_enums_agree_witness :
  DatasetType.from_str (Some "hugging face") = Ok DatasetType.HUGGING_FACE
  /\ ModelType.from_str (Some "hugging face") = Ok ModelType.HUGGING_FACE
  /\ DatasetType.name DatasetType.HUGGING_FACE
     = ModelType.name ModelType.HUGGING_FACE.
Proof.
  split; [reflexivity | ]. split; [reflexivity | ].
  apply (from_str_enums_agree "hugging face"); reflexivity.
Defined.
End TypesRuns.

Section ModelUtilsMoreRuns.
Import Py Torch ModelUtils Samples.

Lemma get_retrainable_model_not_located_witness :
  get_retrainable_model locate_r3d "mc3_18" 10 false = Raise TypeError.
Proof.
  apply (get_retrainable_model_not_located locate_r3d "mc3_18" 10 false).
  - simpl. tauto.
  - reflexivity.
Defined.

Lemma get_retrainable_model_no_classifier_witness :
  get_retrainable_model locate_headless "r3d_18" 10 true = Raise AttributeError.
Proof.
  apply (get_retrainable_model_no_classifier locate_headless "r3d_18" 10 true
                                             (fun _ => headless_model)).
  - simpl. tauto.
  - reflexivity.
  - intros i o w b. simpl. discriminate.
Defined.

Lemma get_retrainable_model_trainable_witness :
  exists model,
    get_retrainable_model locate_r3d "r3d_18" 10 false = Ok model
    /\ List.filter requires_grad (parameters model)
       = [mkParam "weight" true; mkParam "bias" true]
    /\ length (parameters model) = length (parameters video_model).
Proof.
  apply (get_retrainable_model_trainable locate_r3d "r3d_18" 10
           (fun _ => video_model) 512 400
           (mkParam "fc.weight" true) (mkParam "fc.bias" true)).
  - simpl. tauto.
  - reflexivity.
  - reflexivity.
Defined.
End ModelUtilsMoreRuns.

Section LauncherMoreRuns.
Import Py Argparse LauncherSpec RunTrainPyt Samples.

Lemma launcher_missing_required_option_witness :
  main string int_of_decimal load_saved command_line_without_port
  = ([Print string "******Distributed Training*****"], Raise (SystemExit 2)).
Proof.
  apply (launcher_missing_required_option string int_of_decimal load_saved
           command_line_without_port "master_port").
  - reflexivity.
  - simpl. tauto.
  - reflexivity.
Defined.

Lemma launcher_bad_integer_witness :
  main string int_of_decimal load_saved command_line_bad_epochs
  = ([Print string "******Distributed Training*****"], Raise (SystemExit 2)).
Proof.
  apply (launcher_bad_integer string int_of_decimal load_saved
           command_line_bad_epochs "--epochs" "three").
  - reflexivity.
  - simpl. tauto.
  - simpl. tauto.
  - reflexivity.
Defined.

Lemma launcher_missing_object_witness :
  main string int_of_decimal load_saved_without_dataset command_line
  = ([Print string "******Distributed Training*****"],
     Raise (KeyError "dataset")).
Proof.
  apply (launcher_missing_object string int_of_decimal
           load_saved_without_dataset command_line parsed_command_line
           "image_classification" saved_without_dataset "dataset");
    by_vm.
Defined.

Lemma launcher_ignores_test_and_validation_witness :
  main string int_of_decimal load_saved command_line
  = main string int_of_decimal load_saved_with_test command_line.
Proof.
  apply (launcher_ignores_test_and_validation string int_of_decimal
           load_saved load_saved_with_test command_line).
  intros use_case. unfold same_training_objects, load_saved, load_saved_with_test.
  repeat (constructor; [by_vm | ]). constructor.
Defined.
End LauncherMoreRuns.
